(** * export_pdf_annotations_v2: annotations of a PDF rendered as Markdown

    A shallow embedding of [pdfNotes/export_pdf_annotations_v2.py].

    - Python [int] is [Z]; Python [float] is IEEE binary64, i.e. [PrimFloat.float].
    - Python [str] is a sequence of Unicode code points: [str := list N].
      Literals of the source are written as Rocq strings and decoded from
      UTF-8 by [lit].
    - Dictionary keys that the source only ever takes from a fixed set of
      ASCII identifiers (["yellow"], ["stroke"], ...) are Rocq [string]s, the
      dictionaries themselves are stdpp [gmap]s, or association lists where
      the iteration order matters.
    - Exceptions are the [Raise] branch of [result]; the file system and the
      PDF library are an explicit [world] of oracles, and the effects of a
      run are a log of [event]s.
    - The annotation type codes [fitz.PDF_ANNOT_...] and the functions of
      [os.path] belong to libraries outside the repository: a [world]
      carries them, and [Sample] holds the values of PyMuPDF on a POSIX
      system. The one name of the source that PyMuPDF does not have is
      [fitz.PDF_ANNOT_STRIKEOUT]: evaluating it raises [AttributeError]. *)

From Stdlib Require Import ZArith NArith List String Ascii Bool Lia.
From Stdlib Require Import Floats.
From stdpp Require Import base option list strings gmap.

Local Open Scope Z_scope.

(* ===================================================================== *)
(** ** Exceptions *)
(* ===================================================================== *)

(** Every exception the program can meet is a subclass of [Exception], so
    [except Exception] catches each of them. [LibraryError] stands for
    whatever PyMuPDF or the operating system raises. *)
Inductive exn : Type :=
  | FileNotFoundError
  | ValueError
  | OverflowError
  | AttributeError
  | LibraryError.

Inductive result (A : Type) : Type :=
  | Ok (a : A)
  | Raise (e : exn).
Arguments Ok {A} a.
Arguments Raise {A} e.

Definition bind {A B} (m : result A) (f : A -> result B) : result B :=
  match m with
  | Ok a => f a
  | Raise e => Raise e
  end.

Notation "x <- m ;; k" := (bind m (fun x => k))
  (at level 100, m at next level, right associativity).

(** [try: m  except Exception: h] *)
Definition try_except {A} (m : result A) (h : A) : A :=
  match m with
  | Ok a => a
  | Raise _ => h
  end.

Definition is_ok {A} (m : result A) : bool :=
  match m with Ok _ => true | Raise _ => false end.

(* ===================================================================== *)
(** ** Python strings *)
(* ===================================================================== *)

Definition char := N.
Definition str := list char.

Module Utf8.

(** Decoder used for the literals of the source only. *)
Fixpoint decode (bs : list N) : list N :=
  match bs with
  | [] => []
  | b0 :: t0 =>
      if (b0 <? 128)%N then b0 :: decode t0
      else if (b0 <? 224)%N then
        match t0 with
        | b1 :: t1 => ((b0 mod 32) * 64 + b1 mod 64)%N :: decode t1
        | [] => []
        end
      else if (b0 <? 240)%N then
        match t0 with
        | b1 :: b2 :: t2 =>
            ((b0 mod 16) * 4096 + (b1 mod 64) * 64 + b2 mod 64)%N :: decode t2
        | _ => []
        end
      else
        match t0 with
        | b1 :: b2 :: b3 :: t3 =>
            ((b0 mod 8) * 262144 + (b1 mod 64) * 4096
             + (b2 mod 64) * 64 + b3 mod 64)%N :: decode t3
        | _ => []
        end
  end.

End Utf8.

Definition lit (s : string) : str :=
  Utf8.decode (map N_of_ascii (list_ascii_of_string s)).
Arguments lit : simpl never.

(** [_PyUnicode_IsWhitespace]: the characters [str.strip], [str.isspace]
    and the pattern [\s] of a [str] regular expression agree on. *)
Definition is_space (c : char) : bool :=
  ((9 <=? c) && (c <=? 13) || (28 <=? c) && (c <=? 32)
   || (c =? 133) || (c =? 160) || (c =? 5760)
   || (8192 <=? c) && (c <=? 8202)
   || (c =? 8232) || (c =? 8233) || (c =? 8239) || (c =? 8287)
   || (c =? 12288))%N.

(** [_PyUnicode_IsLinebreak]: the line boundaries of [str.splitlines]. *)
Definition is_linebreak (c : char) : bool :=
  ((10 <=? c) && (c <=? 13) || (28 <=? c) && (c <=? 30)
   || (c =? 133) || (c =? 8232) || (c =? 8233))%N.

Fixpoint lstrip (s : str) : str :=
  match s with
  | c :: t => if is_space c then lstrip t else s
  | [] => []
  end.

Definition rstrip (s : str) : str := rev (lstrip (rev s)).

(** [s.strip()] *)
Definition strip (s : str) : str := rstrip (lstrip s).

(** [sep.join(parts)] *)
Fixpoint join (sep : str) (parts : list str) : str :=
  match parts with
  | [] => []
  | [p] => p
  | p :: rest => p ++ sep ++ join sep rest
  end.

(** [s.splitlines()]: [cur] is the line being read, reversed. A carriage
    return followed by a line feed is one boundary; no empty last line. *)
Fixpoint splitlines_from (cur : str) (s : str) : list str :=
  match s with
  | [] => match cur with [] => [] | _ => [rev cur] end
  | c :: t =>
      if is_linebreak c then
        match t with
        | c' :: t' =>
            if ((c =? 13) && (c' =? 10))%N
            then rev cur :: splitlines_from [] t'
            else rev cur :: splitlines_from [] t
        | [] => [rev cur]
        end
      else splitlines_from (c :: cur) t
  end.

Definition splitlines (s : str) : list str := splitlines_from [] s.

(** [s.replace(old, new)] for a one-character [old]. *)
Definition replace_char (old : char) (new : str) (s : str) : str :=
  flat_map (fun c => if (c =? old)%N then new else [c]) s.

(** [re.sub(cls+, repl, s)] for a character class [cls]: every maximal run
    of characters of the class is one match, replaced by [repl].
    [in_match] tells that the previous character belonged to a match. *)
Fixpoint re_sub_runs (cls : char -> bool) (repl : str) (in_match : bool)
    (s : str) : str :=
  match s with
  | [] => []
  | c :: t =>
      if cls c
      then (if in_match then [] else repl) ++ re_sub_runs cls repl true t
      else c :: re_sub_runs cls repl false t
  end.

Definition re_sub_class_plus (cls : char -> bool) (repl s : str) : str :=
  re_sub_runs cls repl false s.

(** The newline character as a string. *)
Definition NL : str := [10%N].

(** Truth value of a Python string. *)
Definition truthy_str (s : str) : bool :=
  match s with [] => false | _ => true end.

(* ===================================================================== *)
(** ** Filename and colour *)
(* ===================================================================== *)

(** The class [A-Za-z0-9_-]. *)
Definition filename_allowed (c : char) : bool :=
  ((65 <=? c) && (c <=? 90) || (97 <=? c) && (c <=? 122)
   || (48 <=? c) && (c <=? 57) || (c =? 95) || (c =? 45))%N.

(** [_FILENAME_ALLOWED_RE = re.compile(r"[^A-Za-z0-9_-]+")] *)
Definition _FILENAME_ALLOWED_RE (c : char) : bool := negb (filename_allowed c).

Definition make_safe_filename (parts : list str) : str :=
  let base := join (lit "_") parts in
  let base := replace_char 32%N [] base in
  re_sub_class_plus _FILENAME_ALLOWED_RE [] base.

Definition rgb : Type := Z * Z * Z.

(** The dictionary [refs] of [categorize_color], in insertion order, which
    is the order in which [refs.items()] yields it. *)
Definition refs : list (string * rgb) :=
  [ ("yellow"%string, (255, 212, 0));
    ("red"%string, (230, 0, 0));
    ("blue"%string, (0, 112, 192));
    ("green"%string, (0, 176, 80));
    ("purple"%string, (128, 0, 128)) ].

Definition dist2 (c p : rgb) : Z :=
  let '(r, g, b) := c in
  let '(rr, gg, bb) := p in
  (r - rr) ^ 2 + (g - gg) ^ 2 + (b - bb) ^ 2.

(** [d < best_d], where [best_d] starts as [float("inf")], written [None]:
    every integer is below infinity. *)
Definition lt_best (d : Z) (best_d : option Z) : bool :=
  match best_d with
  | None => true
  | Some bd => d <? bd
  end.

(** One turn of the loop over [refs.items()]. *)
Definition categorize_step (c : rgb) (st : string * option Z)
    (kv : string * rgb) : string * option Z :=
  let d := dist2 c (snd kv) in
  if lt_best d (snd st) then (fst kv, Some d) else st.

Definition categorize_loop (c : rgb) (items : list (string * rgb))
    (st : string * option Z) : string * option Z :=
  fold_left (categorize_step c) items st.

Definition categorize_color (c : rgb) : string :=
  fst (categorize_loop c refs ("yellow"%string, None)).

Definition COLOR_TITLES : list (string * str) :=
  [ ("yellow"%string, lit "黄色（重点）");
    ("red"%string, lit "红色（问题）");
    ("blue"%string, lit "蓝色（方法）");
    ("green"%string, lit "绿色（具体实验细节）");
    ("purple"%string, lit "紫色（论文概括）") ].

(** [d[k]] on an association list standing for a dictionary literal. *)
Fixpoint assoc {A} (k : string) (d : list (string * A)) : option A :=
  match d with
  | [] => None
  | (k', v) :: rest => if String.eqb k k' then Some v else assoc k rest
  end.

(** The list [order] of [export_pdf_annotations]. *)
Definition order : list string :=
  [ "yellow"%string; "red"%string; "blue"%string; "green"%string;
    "purple"%string ].

(** [COLOR_TITLES[k]]; every key of [order] is a key of [COLOR_TITLES], so
    the [KeyError] branch is never taken on the program's paths. *)
Definition color_title (k : string) : str :=
  match assoc k COLOR_TITLES with
  | Some t => t
  | None => []
  end.

(* ===================================================================== *)
(** ** Numbers *)
(* ===================================================================== *)

(** [int(x)] on a float: truncation towards zero; [OverflowError] on an
    infinity and [ValueError] on a NaN. *)
Definition int_of_float (x : float) : result Z :=
  match Prim2SF x with
  | S754_zero _ => Ok 0
  | S754_infinity _ => Raise OverflowError
  | S754_nan => Raise ValueError
  | S754_finite s m e =>
      let mag := if 0 <=? e then Z.pos m * 2 ^ e else Z.pos m / 2 ^ (- e) in
      Ok (if s then - mag else mag)
  end.

(** [str(n)] on an integer, in decimal. *)
Fixpoint digits_of (fuel : nat) (n : N) (acc : str) : str :=
  match fuel with
  | O => acc
  | S fuel' =>
      let acc' := (48 + n mod 10)%N :: acc in
      if (n <? 10)%N then acc' else digits_of fuel' (n / 10)%N acc'
  end.

Definition str_of_int (z : Z) : str :=
  let n := Z.to_N (Z.abs z) in
  let ds := digits_of (S (N.to_nat (N.log2 n))) n [] in
  if z <? 0 then 45%N :: ds else ds.

(* ===================================================================== *)
(** ** os.path, POSIX flavour *)
(* ===================================================================== *)

Module posixpath.

Definition sep : char := 47%N.
Definition extsep : char := 46%N.

(** [s.rfind(c)], [-1] when [c] does not occur; [i] is the index of the
    head of [s] in the whole string. *)
Fixpoint rfind_from (c : char) (s : str) (i : Z) (found : Z) : Z :=
  match s with
  | [] => found
  | x :: t => rfind_from c t (i + 1) (if (x =? c)%N then i else found)
  end.

Definition rfind (c : char) (s : str) : Z := rfind_from c s 0 (-1).

(** [p[:i]] and [p[i:]] for [0 <= i]. *)
Definition upto (i : Z) (p : str) : str := take (Z.to_nat i) p.
Definition from (i : Z) (p : str) : str := drop (Z.to_nat i) p.

(** [genericpath._splitext]: the extension starts at the last dot of the
    last component, unless only dots precede it there. *)
Definition splitext (p : str) : str * str :=
  let sepIndex := rfind sep p in
  let dotIndex := rfind extsep p in
  if sepIndex <? dotIndex then
    let stem := upto (dotIndex - (sepIndex + 1)) (from (sepIndex + 1) p) in
    if forallb (fun c => (c =? extsep)%N) stem
    then (p, [])
    else (upto dotIndex p, from dotIndex p)
  else (p, []).

Definition basename (p : str) : str := from (rfind sep p + 1) p.

Fixpoint lstrip_sep (s : str) : str :=
  match s with
  | c :: t => if (c =? sep)%N then lstrip_sep t else s
  | [] => []
  end.

(** [head.rstrip(sep)] *)
Definition rstrip_sep (s : str) : str := rev (lstrip_sep (rev s)).

Definition dirname (p : str) : str :=
  let head := upto (rfind sep p + 1) p in
  if truthy_str head && negb (forallb (fun c => (c =? sep)%N) head)
  then rstrip_sep head
  else head.

(** [os.path.join(a, b)] *)
Definition join2 (a b : str) : str :=
  match b with
  | c :: _ => if (c =? sep)%N then b else
      match rev a with
      | [] => a ++ b
      | l :: _ => if (l =? sep)%N then a ++ b else a ++ [sep] ++ b
      end
  | [] =>
      match rev a with
      | [] => a ++ b
      | l :: _ => if (l =? sep)%N then a ++ b else a ++ [sep] ++ b
      end
  end.

(** Joining a non-empty component never gives the empty path. *)
Lemma join2_nonempty a b : b <> [] -> join2 a b <> [].
Proof.
  intros Hb. unfold join2. destruct b as [|c b]; [congruence|].
  destruct (c =? sep)%N; [discriminate|].
  destruct (rev a) as [|l r]; [|destruct (l =? sep)%N];
    intros H; apply app_eq_nil in H as [_ H];
    try discriminate; apply app_eq_nil in H as [_ H]; discriminate.
Qed.

End posixpath.

(** The functions of [os.path] the program calls. Which module stands
    behind [os.path] depends on the platform, so a run takes them from its
    [world]; [posix] is the one of a POSIX system. *)
Record os_path : Type := {
  splitext : str -> str * str;
  basename : str -> str;
  dirname : str -> str;
  path_join : str -> str -> str;
  (** joining a non-empty component never gives the empty path *)
  path_join_nonempty : forall a b, b <> [] -> path_join a b <> [];
}.

Definition posix : os_path := {|
  splitext := posixpath.splitext;
  basename := posixpath.basename;
  dirname := posixpath.dirname;
  path_join := posixpath.join2;
  path_join_nonempty := posixpath.join2_nonempty;
|}.

(* ===================================================================== *)
(** ** The PDF library as the program sees it *)
(* ===================================================================== *)

Definition point : Type := float * float.
Definition rect : Type := float * float * float * float.

(** The bytes [Pixmap.save] writes. *)
Definition pixmap : Type := list N.

(** [annot.type]: the pair (code, name) PyMuPDF returns, or a bare code,
    which the program also accepts. *)
Inductive annot_type : Type :=
  | TypeTuple (code : Z) (name : str)
  | TypeBare (code : Z).

(** A colour entry of [annot.colors]: [None], or a sequence of float
    components (one for gray, three for RGB, four for CMYK, none when the
    colour is not set). *)
Definition colour : Type := option (list float).

Record annot : Type := {
  a_type : annot_type;
  (** [annot.colors], a dictionary, unless the access raises *)
  a_colors : result (gmap string colour);
  (** [annot.vertices]: [None] or a list of points, unless the access raises *)
  a_vertices : result (option (list point));
  a_rect : rect;
  (** [annot.info]: [None] or a dictionary of strings, unless the access raises *)
  a_info : result (option (gmap string str));
}.

(** A page: what [get_text("text", clip=r)] and [get_pixmap(clip=r, dpi=d)]
    give on it, and its annotations in the order of the chain
    [first_annot], [.next], [.next], ... *)
Record page : Type := {
  get_text : rect -> result str;
  get_pixmap : rect -> Z -> result pixmap;
  annots : list annot;
}.

Definition document : Type := list page.

(** Everything outside the program that a run consults. The annotation
    type codes are the attributes [fitz.PDF_ANNOT_...] of the library, which
    is not part of the repository: a run takes them from its world. *)
Record world : Type := {
  PDF_ANNOT_TEXT : Z;
  PDF_ANNOT_FREE_TEXT : Z;
  PDF_ANNOT_SQUARE : Z;
  PDF_ANNOT_CIRCLE : Z;
  PDF_ANNOT_HIGHLIGHT : Z;
  PDF_ANNOT_UNDERLINE : Z;
  os_path_ : os_path;
  isfile : str -> bool;
  getcwd : str;
  (** [fitz.open(path)] *)
  fitz_open : str -> result document;
  (** [fitz.Quad(points).rect] *)
  Quad_rect : list point -> result rect;
  (** does [os.makedirs(path, exist_ok=True)] succeed *)
  makedirs_ok : str -> bool;
  (** does [pix.save(path)] succeed *)
  pix_save_ok : str -> bool;
  (** do [open(path, "w")] and the write that follows both succeed *)
  write_ok : str -> bool;
  (** asked when they do not: does [open(path, "w")] succeed, so that the
      file is created or truncated before the write raises *)
  open_ok : str -> bool;
}.

(** [fitz.PDF_ANNOT_STRIKEOUT]. The module [fitz] of PyMuPDF has no
    attribute of this name (its constant for strike-out annotations is
    [PDF_ANNOT_STRIKE_OUT]), so evaluating the expression raises
    [AttributeError]. *)
Definition PDF_ANNOT_STRIKEOUT : result Z := Raise AttributeError.

(** What a run does to the file system, oldest first. *)
Inductive event : Type :=
  | EvMakedirs (path : str)
  | EvSavePng (path : str) (pix : pixmap)
  | EvWriteText (path : str) (content : str)
  (** [open(path, "w")] created or truncated the file and the write that
      followed raised: what the file holds of the text is not known *)
  | EvTruncate (path : str).

(* ===================================================================== *)
(** ** Values of mixed type *)
(* ===================================================================== *)

(** [subtype] is an integer code or the empty-string default. *)
Inductive pyval : Type :=
  | PInt (z : Z)
  | PStr (s : str).

Definition truthy_val (v : pyval) : bool :=
  match v with
  | PInt z => negb (z =? 0)
  | PStr s => truthy_str s
  end.

(** [a or b] *)
Definition py_or (a b : pyval) : pyval := if truthy_val a then a else b.

(** [v == c] for an integer constant [c]; a string equals no integer. *)
Definition val_eq_int (v : pyval) (c : Z) : bool :=
  match v with
  | PInt z => z =? c
  | PStr _ => false
  end.

(** [v in (c1, c2, ...)] *)
Definition val_in (v : pyval) (cs : list Z) : bool := existsb (val_eq_int v) cs.

(** [(annot.type[0] if isinstance(annot.type, tuple) else annot.type) or E]
    where [E] is the empty string: the code 0 is falsy and becomes [E]. *)
Definition subtype_of (t : annot_type) : pyval :=
  py_or (PInt (match t with TypeTuple c _ => c | TypeBare c => c end)) (PStr []).

Definition truthy_colour (c : colour) : bool :=
  match c with
  | Some (_ :: _) => true
  | _ => false
  end.

(** [d.get(k)] on a dictionary whose values may be [None]. *)
Definition colors_get (d : gmap string colour) (k : string) : colour :=
  match d !! k with
  | Some c => c
  | None => None
  end.

(* ===================================================================== *)
(** ** Helpers *)
(* ===================================================================== *)

Definition default_rgb : rgb := (255, 212, 0).

Definition rgb_from_annot (a : annot) : result rgb :=
  let color :=
    try_except
      (cs <- a_colors a ;;
       Ok (let s := colors_get cs "stroke" in
           if truthy_colour s then s else colors_get cs "fill"))
      None in
  if negb (truthy_colour color) then Ok default_rgb
  else
    match color with
    | Some [r; g; b] =>
        r' <- int_of_float (r * 255)%float ;;
        g' <- int_of_float (g * 255)%float ;;
        b' <- int_of_float (b * 255)%float ;;
        Ok (r', g', b')
    | _ => Raise ValueError
    end.

(** [re.sub] of the pattern [\s+] by the empty string in [text] *)
Definition normalize_highlight_text (text : str) : str :=
  re_sub_class_plus is_space [] text.

(** [quads[i : i + 4]] for [i] in [range(0, len(quads), 4)] *)
Fixpoint quad_slices (quads : list point) : list (list point) :=
  match quads with
  | [] => []
  | p0 :: p1 :: p2 :: p3 :: rest => [p0; p1; p2; p3] :: quad_slices rest
  | short => [short]
  end.

(** The loop [for i in range(0, len(quads), 4)] of [extract_highlight_text];
    the first exception ends it. *)
Fixpoint quad_texts (W : world) (pg : page) (slices : list (list point))
    (texts : list str) : result (list str) :=
  match slices with
  | [] => Ok texts
  | q :: rest =>
      r <- Quad_rect W q ;;
      t <- get_text pg r ;;
      quad_texts W pg rest (texts ++ [strip t])
  end.

Definition extract_highlight_text (W : world) (pg : page) (a : annot)
    : result str :=
  let quads :=
    try_except (v <- a_vertices a ;; Ok (match v with Some l => l | None => [] end))
      [] in
  texts <-
    match quads with
    | _ :: _ => quad_texts W pg (quad_slices quads) []
    | [] => t <- get_text pg (a_rect a) ;; Ok [strip t]
    end ;;
  Ok (strip (join (lit " ") (List.filter truthy_str texts))).

(* ===================================================================== *)
(** ** The state of a run *)
(* ===================================================================== *)

(** An element of a [rect_groups] list: the dictionary with the keys
    ["image_path"] and ["rect_text"]. *)
Record rect_entry : Type := {
  image_path : option str;
  rect_text : option str;
}.

Record state : Type := {
  (** [defaultdict(list)]: colour key to the texts appended so far *)
  highlight_groups : gmap string (list str);
  notes_blocks : list str;
  rect_groups : gmap string (list rect_entry);
  (** the local counter of the page loop *)
  rect_index : Z;
  (** the effects on the file system so far *)
  fs : list event;
}.

Definition init_state : state := {|
  highlight_groups := ∅;
  notes_blocks := [];
  rect_groups := ∅;
  rect_index := 0;
  fs := [];
|}.

(** Computations that read and change the state and may raise; what was
    changed before an exception stays changed, as in Python. *)
Definition M (A : Type) : Type := state -> result A * state.

Definition ret {A} (a : A) : M A := fun s => (Ok a, s).
Definition raise {A} (e : exn) : M A := fun s => (Raise e, s).
Definition lift {A} (r : result A) : M A := fun s => (r, s).

Definition bindM {A B} (m : M A) (f : A -> M B) : M B :=
  fun s =>
    match m s with
    | (Ok a, s') => f a s'
    | (Raise e, s') => (Raise e, s')
    end.

Notation "x <~ m ;; k" := (bindM m (fun x => k))
  (at level 100, m at next level, right associativity).

(** [try: m  except Exception: return h] *)
Definition try_or {A} (m : M A) (h : A) : M A :=
  fun s =>
    match m s with
    | (Ok a, s') => (Ok a, s')
    | (Raise _, s') => (Ok h, s')
    end.

(** [d[k].append(x)] on a [defaultdict(list)] *)
Definition dd_append {A} (k : string) (x : A) (d : gmap string (list A))
    : gmap string (list A) :=
  <[k := default [] (d !! k) ++ [x]]> d.

(** [d.get(k, [])]; [d.get(k)] has the same truth value. *)
Definition dd_get {A} (d : gmap string (list A)) (k : string) : list A :=
  default [] (d !! k).

Definition append_highlight (k : string) (txt : str) : M unit :=
  fun s =>
    (Ok tt,
     {| highlight_groups := dd_append k txt (highlight_groups s);
        notes_blocks := notes_blocks s;
        rect_groups := rect_groups s;
        rect_index := rect_index s;
        fs := fs s |}).

Definition append_note (content : str) : M unit :=
  fun s =>
    (Ok tt,
     {| highlight_groups := highlight_groups s;
        notes_blocks := notes_blocks s ++ [content];
        rect_groups := rect_groups s;
        rect_index := rect_index s;
        fs := fs s |}).

Definition append_rect (k : string) (e : rect_entry) : M unit :=
  fun s =>
    (Ok tt,
     {| highlight_groups := highlight_groups s;
        notes_blocks := notes_blocks s;
        rect_groups := dd_append k e (rect_groups s);
        rect_index := rect_index s;
        fs := fs s |}).

Definition set_rect_index (n : Z) : M unit :=
  fun s =>
    (Ok tt,
     {| highlight_groups := highlight_groups s;
        notes_blocks := notes_blocks s;
        rect_groups := rect_groups s;
        rect_index := n;
        fs := fs s |}).

Definition get_rect_index : M Z := fun s => (Ok (rect_index s), s).

Definition get_state : M state := fun s => (Ok s, s).

Definition log_event (e : event) (s : state) : state :=
  {| highlight_groups := highlight_groups s;
     notes_blocks := notes_blocks s;
     rect_groups := rect_groups s;
     rect_index := rect_index s;
     fs := fs s ++ [e] |}.

(** [os.makedirs(path, exist_ok=True)] *)
Definition do_makedirs (W : world) (path : str) : M unit :=
  fun s =>
    if makedirs_ok W path then (Ok tt, log_event (EvMakedirs path) s)
    else (Raise LibraryError, s).

(** [pix.save(path)] *)
Definition do_pix_save (W : world) (path : str) (pix : pixmap) : M unit :=
  fun s =>
    if pix_save_ok W path then (Ok tt, log_event (EvSavePng path pix) s)
    else (Raise LibraryError, s).

(** [with open(path, "w", encoding="utf-8") as f: f.write(content)]. When
    [open] raises, nothing has happened; when the write raises after it, the
    file has been created or truncated. *)
Definition do_write (W : world) (path content : str) : M unit :=
  fun s =>
    if write_ok W path then (Ok tt, log_event (EvWriteText path content) s)
    else if open_ok W path then
      (Raise LibraryError, log_event (EvTruncate path) s)
    else (Raise LibraryError, s).

Definition save_rect_image (W : world) (pg : page) (r : rect) (out_dir : str)
    (base_name : str) (dpi : Z) : M (option str) :=
  try_or
    (_ <~ do_makedirs W out_dir ;;
     pix <~ lift (get_pixmap pg r dpi) ;;
     let out_path := path_join (os_path_ W) out_dir (base_name ++ lit ".png") in
     _ <~ do_pix_save W out_path pix ;;
     ret (Some out_path))
    None.

(* ===================================================================== *)
(** ** Core: the scan of the annotations *)
(* ===================================================================== *)

(** What is fixed during the scan of one page. *)
Record page_ctx : Type := {
  cx_pdf_path : str;
  cx_image_dir : str;
  cx_min_dpi : Z;
  cx_page : page;
  cx_page_index : Z;
}.

(** The body of the [PDF_ANNOT_HIGHLIGHT] branch, which the source repeats
    under the test for [PDF_ANNOT_UNDERLINE] and [PDF_ANNOT_STRIKEOUT]. *)
Definition markup_branch (W : world) (cx : page_ctx) (color : rgb) (a : annot)
    : M unit :=
  txt <~ lift (extract_highlight_text W (cx_page cx) a) ;;
  let txt := normalize_highlight_text txt in
  if truthy_str txt then append_highlight (categorize_color color) txt
  else ret tt.

(** [(annot.info or {}).get("content")], or the empty string when that is
    missing, [None] or empty *)
Definition info_content (info : option (gmap string str)) : str :=
  match info with
  | Some d => default [] (d !! "content"%string)
  | None => []
  end.

(** ["\n".join(ln.strip() for ln in content.splitlines() if ln.strip())] *)
Definition clean_content (content : str) : str :=
  join NL
    (map strip
       (List.filter (fun ln => truthy_str (strip ln)) (splitlines content))).

Definition note_branch (a : annot) : M unit :=
  info <~ lift (a_info a) ;;
  let content := info_content info in
  let content := clean_content content in
  if truthy_str content then append_note content else ret tt.

Definition rect_base_name (W : world) (cx : page_ctx) (n : Z) : str :=
  make_safe_filename
    [ fst (splitext (os_path_ W) (basename (os_path_ W) (cx_pdf_path cx)));
      lit "p" ++ str_of_int (cx_page_index cx + 1);
      lit "rect" ++ str_of_int n ].

Definition rect_branch (W : world) (cx : page_ctx) (color : rgb) (a : annot)
    : M unit :=
  n <~ get_rect_index ;;
  _ <~ set_rect_index (n + 1) ;;
  let r := a_rect a in
  t <~ lift (get_text (cx_page cx) r) ;;
  let clip_text := if truthy_str (strip t) then Some (strip t) else None in
  n <~ get_rect_index ;;
  let base_name := rect_base_name W cx n in
  img_path <~ save_rect_image W (cx_page cx) r (cx_image_dir cx) base_name
                (cx_min_dpi cx) ;;
  append_rect (categorize_color color)
    {| image_path := img_path; rect_text := clip_text |}.

(** The statements under [try:] in the loop over the annotations. The
    fourth test builds the tuple
    [(fitz.PDF_ANNOT_UNDERLINE, fitz.PDF_ANNOT_STRIKEOUT)] before it compares:
    that raises [AttributeError], which leaves the [try]. *)
Definition annot_body (W : world) (cx : page_ctx) (subtype : pyval)
    (color : rgb) (a : annot) : M unit :=
  if val_eq_int subtype (PDF_ANNOT_HIGHLIGHT W) then markup_branch W cx color a
  else if val_in subtype [PDF_ANNOT_TEXT W; PDF_ANNOT_FREE_TEXT W] then
    note_branch a
  else if val_in subtype [PDF_ANNOT_SQUARE W; PDF_ANNOT_CIRCLE W] then
    rect_branch W cx color a
  else
    strikeout <~ lift PDF_ANNOT_STRIKEOUT ;;
    if val_in subtype [PDF_ANNOT_UNDERLINE W; strikeout] then
      markup_branch W cx color a
    else ret tt.

(** One turn of [while annot:]. The colour is read before the [try]. *)
Definition process_annot (W : world) (cx : page_ctx) (a : annot) : M unit :=
  let subtype := subtype_of (a_type a) in
  color <~ lift (rgb_from_annot a) ;;
  try_or (annot_body W cx subtype color a) tt.

Fixpoint annot_loop (W : world) (cx : page_ctx) (chain : list annot) : M unit :=
  match chain with
  | [] => ret tt
  | a :: rest => _ <~ process_annot W cx a ;; annot_loop W cx rest
  end.

(** [for page_index in range(len(doc))], from [page_index] on. *)
Fixpoint page_loop (W : world) (pdf_path image_dir : str) (min_dpi : Z)
    (pages : list page) (page_index : Z) : M unit :=
  match pages with
  | [] => ret tt
  | pg :: rest =>
      let cx := {| cx_pdf_path := pdf_path; cx_image_dir := image_dir;
                   cx_min_dpi := min_dpi; cx_page := pg;
                   cx_page_index := page_index |} in
      _ <~ set_rect_index 0 ;;
      _ <~ annot_loop W cx (annots pg) ;;
      page_loop W pdf_path image_dir min_dpi rest (page_index + 1)
  end.

(* ===================================================================== *)
(** ** Core: the Markdown *)
(* ===================================================================== *)

Definition truthy_list {A} (l : list A) : bool :=
  match l with [] => false | _ => true end.

Definition truthy_opt_str (o : option str) : bool :=
  match o with Some s => truthy_str s | None => false end.

(** [for txt in items: lines.append(f"- > {txt}")] *)
Definition emit_items (items : list str) (lines : list str) : list str :=
  fold_left (fun ls txt => ls ++ [lit "- > " ++ txt]) items lines.

(** One turn of [for k in order] in the Highlights section. *)
Definition highlight_step (hg : gmap string (list str)) (lines : list str)
    (k : string) : list str :=
  let items := List.filter truthy_str (dd_get hg k) in
  if negb (truthy_list items) then lines
  else
    let lines := lines ++ [lit "### " ++ color_title k] in
    let lines := lines ++ [[]] in
    let lines := emit_items items lines in
    lines ++ [[]].

Definition emit_highlights (hg : gmap string (list str)) (lines : list str)
    : list str :=
  if existsb (fun k => truthy_list (dd_get hg k)) order then
    let lines := lines ++ [lit "## Highlights"] in
    let lines := lines ++ [[]] in
    fold_left (highlight_step hg) order lines
  else lines.

(** [for ln in block.splitlines(): if ln.strip(): lines.append(f"> {ln.strip()}")] *)
Definition emit_block_lines (block : str) (lines : list str) : list str :=
  fold_left
    (fun ls ln => if truthy_str (strip ln) then ls ++ [lit "> " ++ strip ln] else ls)
    (splitlines block) lines.

Definition note_step (lines : list str) (block : str) : list str :=
  let lines := lines ++ [lit "> [!note] 注释"] in
  let lines := emit_block_lines block lines in
  lines ++ [[]].

Definition emit_notes (nb : list str) (lines : list str) : list str :=
  if truthy_list nb then
    let lines := lines ++ [lit "## Notes"] in
    let lines := lines ++ [[]] in
    fold_left note_step nb lines
  else lines.

(** One turn of [for it in items] in the Rectangles section. *)
Definition rect_item_step (lines : list str) (it : rect_entry) : list str :=
  let lines :=
    if truthy_opt_str (image_path it) then
      let rel := replace_char 92%N (lit "/") (default [] (image_path it)) in
      lines ++ [lit "![](" ++ rel ++ lit ")"]
    else lines in
  lines ++ [[]].

Definition rect_step (rg : gmap string (list rect_entry)) (lines : list str)
    (k : string) : list str :=
  let items := dd_get rg k in
  if negb (truthy_list items) then lines
  else
    let lines := lines ++ [lit "### " ++ color_title k] in
    let lines := lines ++ [[]] in
    fold_left rect_item_step items lines.

Definition emit_rects (rg : gmap string (list rect_entry)) (lines : list str)
    : list str :=
  if existsb (fun k => truthy_list (dd_get rg k)) order then
    let lines := lines ++ [lit "## Rectangles / Figures"] in
    let lines := lines ++ [[]] in
    fold_left (rect_step rg) order lines
  else lines.

(** The list [lines] when the Markdown is joined. *)
Definition build_lines (title : str) (s : state) : list str :=
  let lines := [] in
  let lines := lines ++ [lit "# Annotations for " ++ title] in
  let lines := lines ++ [[]] in
  let lines := emit_highlights (highlight_groups s) lines in
  let lines := emit_notes (notes_blocks s) lines in
  emit_rects (rect_groups s) lines.

(** ["\n".join(lines).rstrip() + "\n"] *)
Definition build_markdown (title : str) (s : state) : str :=
  rstrip (join NL (build_lines title s)) ++ NL.

(* ===================================================================== *)
(** ** Core: export_pdf_annotations *)
(* ===================================================================== *)

(** [a or b] on strings *)
Definition or_str (a b : str) : str := if truthy_str a then a else b.

Definition default_out_md (W : world) (pdf_path : str) : str :=
  fst (splitext (os_path_ W) pdf_path) ++ lit ".annotations.md".

Definition title_of (W : world) (pdf_path : str) : str :=
  fst (splitext (os_path_ W) (basename (os_path_ W) pdf_path)).

(** The function up to the assignment of [markdown]: the output path and
    the Markdown string. *)
(** [out_md] after [if out_md is None: out_md = ...] *)
Definition out_path_of (W : world) (pdf_path : str) (out_md : option str)
    : str :=
  match out_md with
  | None => default_out_md W pdf_path
  | Some o => o
  end.

(** [image_dir], from the final [out_md] *)
Definition image_dir_of (W : world) (out_md img_dir : str) : str :=
  let out_dir := or_str (dirname (os_path_ W) out_md) (getcwd W) in
  path_join (os_path_ W) out_dir img_dir.

Definition export_markdown (W : world) (pdf_path : str) (out_md : option str)
    (img_dir : str) (min_dpi : Z) : M (str * str) :=
  if negb (isfile W pdf_path) then raise FileNotFoundError
  else
    let out_md := out_path_of W pdf_path out_md in
    let image_dir := image_dir_of W out_md img_dir in
    doc <~ lift (fitz_open W pdf_path) ;;
    _ <~ page_loop W pdf_path image_dir min_dpi doc 0 ;;
    s <~ get_state ;;
    ret (out_md, build_markdown (title_of W pdf_path) s).

Definition export_pdf_annotations (W : world) (pdf_path : str)
    (out_md : option str) (img_dir : str) (min_dpi : Z) : M str :=
  om <~ export_markdown W pdf_path out_md img_dir min_dpi ;;
  let out_md := fst om in
  let markdown := snd om in
  _ <~ do_makedirs W (or_str (dirname (os_path_ W) out_md) (lit ".")) ;;
  _ <~ do_write W out_md markdown ;;
  ret out_md.

(** A call of the function: the state starts empty. *)
Definition run (W : world) (pdf_path : str) (out_md : option str)
    (img_dir : str) (min_dpi : Z) : result str * state :=
  export_pdf_annotations W pdf_path out_md img_dir min_dpi init_state.

(* ===================================================================== *)
(** ** What one annotation contributes *)
(* ===================================================================== *)

(** The branch of the [if]/[elif] chain whose body a subtype runs; the
    fourth test raises before it can select its body. *)
Inductive branch : Type :=
  | BrMarkup
  | BrNote
  | BrRect
  | BrNone.

Definition branch_of (W : world) (subtype : pyval) : branch :=
  if val_eq_int subtype (PDF_ANNOT_HIGHLIGHT W) then BrMarkup
  else if val_in subtype [PDF_ANNOT_TEXT W; PDF_ANNOT_FREE_TEXT W] then BrNote
  else if val_in subtype [PDF_ANNOT_SQUARE W; PDF_ANNOT_CIRCLE W] then BrRect
  else BrNone.

(** The value of [rect_index] after an annotation, from its value before. *)
Definition next_rect_index (W : world) (n : Z) (a : annot) : Z :=
  match branch_of W (subtype_of (a_type a)) with
  | BrRect => n + 1
  | _ => n
  end.

Fixpoint all_distinct (l : list Z) : bool :=
  match l with
  | [] => true
  | x :: rest => negb (existsb (Z.eqb x) rest) && all_distinct rest
  end.

(** The five type codes the chain compares a subtype with are pairwise
    different, as the members of an enumeration are. *)
Definition codes_distinct (W : world) : bool :=
  all_distinct
    [ PDF_ANNOT_TEXT W; PDF_ANNOT_FREE_TEXT W; PDF_ANNOT_SQUARE W;
      PDF_ANNOT_CIRCLE W; PDF_ANNOT_HIGHLIGHT W ].

(** The path [save_rect_image] writes to. *)
Definition image_file (W : world) (out_dir base_name : str) : str :=
  path_join (os_path_ W) out_dir (base_name ++ lit ".png").

(** What [save_rect_image] returns and what it does to the file system. *)
Definition save_outcome (W : world) (pg : page) (r : rect) (out_dir : str)
    (base_name : str) (dpi : Z) : option str * list event :=
  if makedirs_ok W out_dir then
    match get_pixmap pg r dpi with
    | Ok pix =>
        let out_path := image_file W out_dir base_name in
        if pix_save_ok W out_path
        then (Some out_path, [EvMakedirs out_dir; EvSavePng out_path pix])
        else (None, [EvMakedirs out_dir])
    | Raise _ => (None, [EvMakedirs out_dir])
    end
  else (None, []).

(** The change one annotation makes to the state, once its colour is read. *)
Record delta : Type := {
  d_highlight : option (string * str);
  d_note : option str;
  d_rect : option (string * rect_entry);
  d_events : list event;
}.

Definition no_delta : delta :=
  {| d_highlight := None; d_note := None; d_rect := None; d_events := [] |}.

Definition markup_delta (W : world) (pg : page) (color : rgb) (a : annot)
    : delta :=
  match extract_highlight_text W pg a with
  | Ok txt =>
      let txt := normalize_highlight_text txt in
      if truthy_str txt then
        {| d_highlight := Some (categorize_color color, txt); d_note := None;
           d_rect := None; d_events := [] |}
      else no_delta
  | Raise _ => no_delta
  end.

Definition note_delta (a : annot) : delta :=
  match a_info a with
  | Ok info =>
      let content := clean_content (info_content info) in
      if truthy_str content then
        {| d_highlight := None; d_note := Some content; d_rect := None;
           d_events := [] |}
      else no_delta
  | Raise _ => no_delta
  end.

(** [n] is the value of [rect_index] before the annotation. *)
Definition rect_delta (W : world) (cx : page_ctx) (n : Z) (color : rgb)
    (a : annot) : delta :=
  match get_text (cx_page cx) (a_rect a) with
  | Ok t =>
      let o := save_outcome W (cx_page cx) (a_rect a) (cx_image_dir cx)
                 (rect_base_name W cx (n + 1)) (cx_min_dpi cx) in
      {| d_highlight := None; d_note := None;
         d_rect := Some (categorize_color color,
                         {| image_path := fst o;
                            rect_text := if truthy_str (strip t)
                                         then Some (strip t) else None |});
         d_events := snd o |}
  | Raise _ => no_delta
  end.

Definition annot_delta (W : world) (cx : page_ctx) (n : Z) (color : rgb)
    (a : annot) : delta :=
  match branch_of W (subtype_of (a_type a)) with
  | BrMarkup => markup_delta W (cx_page cx) color a
  | BrNote => note_delta a
  | BrRect => rect_delta W cx n color a
  | BrNone => no_delta
  end.

Definition opt_append {A} (o : option (string * A)) (d : gmap string (list A))
    : gmap string (list A) :=
  match o with
  | Some (k, x) => dd_append k x d
  | None => d
  end.

Definition apply_delta (d : delta) (n' : Z) (s : state) : state :=
  {| highlight_groups := opt_append (d_highlight d) (highlight_groups s);
     notes_blocks := notes_blocks s ++ option_list (d_note d);
     rect_groups := opt_append (d_rect d) (rect_groups s);
     rect_index := n';
     fs := fs s ++ d_events d |}.

(** An annotation as the scan meets it: its page, the value of
    [rect_index] before it, its colour. *)
Record occurrence : Type := {
  oc_ctx : page_ctx;
  oc_index : Z;
  oc_annot : annot;
}.

Fixpoint chain_occurrences (W : world) (cx : page_ctx) (n : Z)
    (chain : list annot)
    : list occurrence :=
  match chain with
  | [] => []
  | a :: rest =>
      {| oc_ctx := cx; oc_index := n; oc_annot := a |}
      :: chain_occurrences W cx (next_rect_index W n a) rest
  end.

(** The annotations of a document in encounter order: ascending page
    index, then the order of the chain within the page. *)
Fixpoint occurrences (W : world) (pdf_path image_dir : str) (min_dpi : Z)
    (pages : list page) (page_index : Z) : list occurrence :=
  match pages with
  | [] => []
  | pg :: rest =>
      chain_occurrences W
        {| cx_pdf_path := pdf_path; cx_image_dir := image_dir;
           cx_min_dpi := min_dpi; cx_page := pg;
           cx_page_index := page_index |} 0 (annots pg)
      ++ occurrences W pdf_path image_dir min_dpi rest (page_index + 1)
  end.

(** The delta of an occurrence whose colour can be read. *)
Definition occurrence_delta (W : world) (o : occurrence) : delta :=
  match rgb_from_annot (oc_annot o) with
  | Ok color => annot_delta W (oc_ctx o) (oc_index o) color (oc_annot o)
  | Raise _ => no_delta
  end.

Definition colour_ok (o : occurrence) : bool := is_ok (rgb_from_annot (oc_annot o)).

(** The members of a group, from the contributions in encounter order. *)
Definition group_of {A} (k : string) (contribs : list (option (string * A)))
    : list A :=
  omap (fun c => match c with
                 | Some (k', x) => if String.eqb k' k then Some x else None
                 | None => None
                 end) contribs.

(* ===================================================================== *)
(** ** The annotations of a document, by kind *)
(* ===================================================================== *)

(** The type code of an annotation: [annot.type[0]], or [annot.type] when
    that is a bare code. *)
Definition type_code (t : annot_type) : Z :=
  match t with
  | TypeTuple code _ => code
  | TypeBare code => code
  end.

(** A highlight annotation: its type code is the highlight code of the
    library, and that is not 0. *)
Definition is_highlight (W : world) (a : annot) : bool :=
  let code := type_code (a_type a) in
  negb (code =? 0) && (code =? PDF_ANNOT_HIGHLIGHT W).

(** A note: the type code is the text or the free-text code of the library
    and is not 0. *)
Definition is_note (W : world) (a : annot) : bool :=
  let code := type_code (a_type a) in
  negb (code =? 0)
  && ((code =? PDF_ANNOT_TEXT W) || (code =? PDF_ANNOT_FREE_TEXT W)).

(** A rectangle or circle: the type code is the square or the circle code
    of the library and is not 0. *)
Definition is_rect (W : world) (a : annot) : bool :=
  let code := type_code (a_type a) in
  negb (code =? 0)
  && ((code =? PDF_ANNOT_SQUARE W) || (code =? PDF_ANNOT_CIRCLE W)).

(** The annotations of a document with their pages, in encounter order:
    page after page, and on a page along the chain. *)
Definition annotations (doc : document) : list (page * annot) :=
  flat_map (fun pg => map (pair pg) (annots pg)) doc.


(** The block a note stands for: its content without blank lines, the
    others stripped, when that is not empty. *)
Definition note_of (W : world) (a : annot) : option str :=
  if is_note W a then
    match a_info a with
    | Ok info =>
        if truthy_str (clean_content (info_content info))
        then Some (clean_content (info_content info))
        else None
    | Raise _ => None
    end
  else None.

(** The number of a rectangle or circle that comes after the annotations
    [pre] on its page. *)
Definition rect_number (W : world) (pre : list annot) : Z :=
  Z.of_nat (length (List.filter (is_rect W) pre)) + 1.

(* ===================================================================== *)
(** ** The report, section by section, as the specification words it *)
(* ===================================================================== *)

Definition highlight_subsection (k : string) (items : list str) : list str :=
  match items with
  | [] => []
  | _ =>
      [lit "### " ++ color_title k; []]
      ++ map (fun t => lit "- > " ++ t) items ++ [[]]
  end.

Definition highlights_section (group : string -> list str) : list str :=
  if forallb (fun k => negb (truthy_list (group k))) order then []
  else [lit "## Highlights"; []]
       ++ flat_map (fun k => highlight_subsection k (group k)) order.

(** The non-blank lines of a note, stripped, in their order. *)
Definition content_lines (content : str) : list str :=
  map strip (List.filter (fun ln => truthy_str (strip ln)) (splitlines content)).

Definition note_callout (body : list str) : list str :=
  [lit "> [!note] 注释"] ++ map (fun ln => lit "> " ++ ln) body ++ [[]].

Definition notes_section (blocks : list str) : list str :=
  match blocks with
  | [] => []
  | _ =>
      [lit "## Notes"; []]
      ++ flat_map (fun block => note_callout (content_lines block)) blocks
  end.

Definition image_link (path : str) : str :=
  lit "![](" ++ replace_char 92%N (lit "/") path ++ lit ")".

Definition rect_item_lines (it : rect_entry) : list str :=
  if truthy_opt_str (image_path it)
  then [image_link (default [] (image_path it)); []]
  else [[]].

Definition rect_subsection (k : string) (items : list rect_entry) : list str :=
  match items with
  | [] => []
  | _ => [lit "### " ++ color_title k; []] ++ flat_map rect_item_lines items
  end.

Definition rects_section (group : string -> list rect_entry) : list str :=
  if forallb (fun k => negb (truthy_list (group k))) order then []
  else [lit "## Rectangles / Figures"; []]
       ++ flat_map (fun k => rect_subsection k (group k)) order.

(* ===================================================================== *)
(** ** Invariants and summaries *)
(* ===================================================================== *)

(** The loop invariant of [categorize_color]: after the items [seen], the
    state holds the first key of [seen] at minimal distance. *)
Definition best_inv (c : rgb) (seen : list (string * rgb))
    (st : string * option Z) : Prop :=
  match snd st with
  | None => seen = []
  | Some d =>
      exists p, In (fst st, p) seen /\ d = dist2 c p
                /\ forall kv, In kv seen -> d <= dist2 c (snd kv)
  end.

(** [s'] is [s] after the contributions of [occs], in order. *)
Definition scanned (W : world) (occs : list occurrence) (s s' : state) : Prop :=
  highlight_groups s'
  = fold_left (fun m o => opt_append (d_highlight (occurrence_delta W o)) m)
      occs (highlight_groups s)
  /\ notes_blocks s'
     = notes_blocks s
       ++ flat_map (fun o => option_list (d_note (occurrence_delta W o))) occs
  /\ rect_groups s'
     = fold_left (fun m o => opt_append (d_rect (occurrence_delta W o)) m)
         occs (rect_groups s)
  /\ fs s' = fs s ++ flat_map (fun o => d_events (occurrence_delta W o)) occs.

Definition title_lines (title : str) : list str :=
  [lit "# Annotations for " ++ title; []].

(** Neither the first nor the last character is white space. *)
Definition trimmed (s : str) : Prop := lstrip s = s /\ lstrip (rev s) = rev s.

(** No character is a line boundary. *)
Definition one_line (s : str) : Prop :=
  List.Forall (fun c => is_linebreak c = false) s.

Definition out_dir_of (W : world) (out : str) : str :=
  or_str (dirname (os_path_ W) out) (lit ".").

(** Does the annotation take the branch of rectangles and circles. *)
Definition takes_rect_branch (W : world) (a : annot) : bool :=
  match branch_of W (subtype_of (a_type a)) with
  | BrRect => true
  | _ => false
  end.

Definition is_write_text (e : event) : bool :=
  match e with
  | EvWriteText _ _ => true
  | _ => false
  end.

(** Does the event touch a text file: a write, or an [open] for writing
    whose write failed. *)
Definition is_text_event (e : event) : bool :=
  match e with
  | EvWriteText _ _ | EvTruncate _ => true
  | _ => false
  end.

(* ===================================================================== *)
(** ** What a run observes *)
(* ===================================================================== *)

(** What the scan reads of an annotation beyond its subtype and colour:
    the extracted text of a text markup, the content of a note, the result
    of saving the image of a rectangle or circle; an exception where the
    reading raised one. *)
Inductive seen : Type :=
  | SeenText (txt : result str)
  | SeenNote (content : result str)
  | SeenImage (saved : result (option str))
  | SeenNothing.

Record observation : Type := {
  ob_subtype : pyval;
  ob_color : result rgb;
  ob_seen : seen;
}.

Definition observe (W : world) (o : occurrence) : observation :=
  let a := oc_annot o in
  let cx := oc_ctx o in
  {| ob_subtype := subtype_of (a_type a);
     ob_color := rgb_from_annot a;
     ob_seen :=
       match rgb_from_annot a with
       | Raise _ => SeenNothing
       | Ok _ =>
           match branch_of W (subtype_of (a_type a)) with
           | BrMarkup => SeenText (extract_highlight_text W (cx_page cx) a)
           | BrNote => SeenNote (info <- a_info a ;; Ok (info_content info))
           | BrRect =>
               SeenImage
                 (_ <- get_text (cx_page cx) (a_rect a) ;;
                  Ok (fst (save_outcome W (cx_page cx) (a_rect a)
                             (cx_image_dir cx)
                             (rect_base_name W cx (oc_index o + 1))
                             (cx_min_dpi cx))))
           | BrNone => SeenNothing
           end
       end |}.

(** The observations of a run on a document, in encounter order. *)
Definition trace (W : world) (pdf_path : str) (out_md : option str)
    (img_dir : str) (min_dpi : Z) (doc : document) : list observation :=
  map (observe W)
    (occurrences W pdf_path
       (image_dir_of W (out_path_of W pdf_path out_md) img_dir) min_dpi doc 0).

(** The contributions to the report, read off an observation. *)
Definition obs_highlight (ob : observation) : option (string * str) :=
  match ob_color ob, ob_seen ob with
  | Ok c, SeenText (Ok txt) =>
      let txt := normalize_highlight_text txt in
      if truthy_str txt then Some (categorize_color c, txt) else None
  | _, _ => None
  end.

Definition obs_note (ob : observation) : option str :=
  match ob_color ob, ob_seen ob with
  | Ok _, SeenNote (Ok content) =>
      let content := clean_content content in
      if truthy_str content then Some content else None
  | _, _ => None
  end.

Definition obs_image (ob : observation) : option (string * option str) :=
  match ob_color ob, ob_seen ob with
  | Ok c, SeenImage (Ok saved) => Some (categorize_color c, saved)
  | _, _ => None
  end.

Definition entry_path (c : option (string * rect_entry))
    : option (string * option str) :=
  match c with
  | Some (k, it) => Some (k, image_path it)
  | None => None
  end.

Definition path_lines (p : option str) : list str :=
  if truthy_opt_str p then [image_link (default [] p); []] else [[]].

(* ===================================================================== *)
(** ** Further summaries *)
(* ===================================================================== *)

(** The loop invariant of [categorize_color] with the order of the ties:
    the state holds a key of [seen] at minimal distance, strictly closer
    than every item before it. *)
Definition first_inv (c : rgb) (seen : list (string * rgb))
    (st : string * option Z) : Prop :=
  match snd st with
  | None => seen = []
  | Some d =>
      exists before p after,
        seen = before ++ (fst st, p) :: after
        /\ d = dist2 c p
        /\ (forall kv, In kv before -> d < dist2 c (snd kv))
        /\ (forall kv, In kv after -> d <= dist2 c (snd kv))
  end.

(** The characters of a part that [make_safe_filename] keeps. *)
Definition sanitize (s : str) : str := List.filter filename_allowed s.

(** The colour [rgb_from_annot] goes by: the stroke colour when it is set,
    else the fill colour. *)
Definition chosen_colour (cs : gmap string colour) : colour :=
  if truthy_colour (colors_get cs "stroke") then colors_get cs "stroke"
  else colors_get cs "fill".

(** The state with another counter and more events, the groups as they
    are. *)
Definition with_effects (s : state) (n : Z) (events : list event) : state :=
  {| highlight_groups := highlight_groups s;
     notes_blocks := notes_blocks s;
     rect_groups := rect_groups s;
     rect_index := n;
     fs := fs s ++ events |}.

(** The decimal digits. *)
Definition is_digit (c : char) : bool := ((48 <=? c) && (c <=? 57))%N.

(** The number a string of decimal digits writes. *)
Definition digits_value (s : str) : N :=
  fold_left (fun v c => (10 * v + (c - 48))%N) s 0%N.

(* ===================================================================== *)
(** ** The command line *)
(* ===================================================================== *)

(** The namespace [parser.parse_args(argv)] returns; [args.out] is [None]
    unless [--out] is given. *)
Record cli_args : Type := {
  args_pdf : str;
  args_out : option str;
  args_img_dir : str;
  args_min_dpi : Z;
}.

(** What [main] consults beyond the world of [export_pdf_annotations]. *)
Record cli_env : Type := {
  (** [os.path.abspath] *)
  abspath : str -> str;
  (** [os.path.isdir(path)] once the run has had the effects given *)
  isdir_after : list event -> str -> bool;
  (** [str(e)] for the exceptions of the libraries *)
  exn_str : exn -> str;
}.

Inductive printed : Type :=
  | Stdout (line : str)
  | Stderr (line : str).

(** [str(e)] for the exception a run ends with: when [pdf_path] is no file
    it is the [FileNotFoundError] that [export_pdf_annotations] raises
    itself, with its message; any other comes from a library. *)
Definition error_text (W : world) (E : cli_env) (pdf_path : str) (e : exn)
    : str :=
  if isfile W pdf_path then exn_str E e
  else lit "File not found: " ++ pdf_path.

(** [main], from the line after [parser.parse_args(argv)] on: the exit
    code, what is printed, and the state the run leaves. *)
Definition main (W : world) (E : cli_env) (args : cli_args)
    : (Z * list printed) * state :=
  let pdf_path := abspath E (args_pdf args) in
  let out_md :=
    match args_out args with
    | Some o => if truthy_str o then Some (abspath E o) else None
    | None => None
    end in
  match export_pdf_annotations W pdf_path out_md (args_img_dir args)
          (args_min_dpi args) init_state with
  | (Raise e, s) =>
      ((1, [Stderr (lit "Error: " ++ error_text W E pdf_path e)]), s)
  | (Ok result, s) =>
      let images :=
        path_join (os_path_ W)
          (or_str (dirname (os_path_ W) result) (getcwd W))
          (args_img_dir args) in
      ((0,
        [Stdout (lit "Saved: " ++ result)]
        ++ (if isdir_after E (fs s) images
            then [Stdout (lit "Images: " ++ images)] else [])),
       s)
  end.

(* ===================================================================== *)
(** ** Sample documents *)
(* ===================================================================== *)

Module Sample.

Definition r0 : rect := (0, 0, 1, 1)%float.

(** The type codes as PyMuPDF documents them (the enumeration of MuPDF's
    [pdf_annot_type]); [STRIKEOUT] is the code of a strike-out annotation,
    the value of PyMuPDF's [PDF_ANNOT_STRIKE_OUT]. *)
Definition TEXT : Z := 0.
Definition FREE_TEXT : Z := 2.
Definition SQUARE : Z := 4.
Definition CIRCLE : Z := 5.
Definition HIGHLIGHT : Z := 8.
Definition UNDERLINE : Z := 9.
Definition STRIKEOUT : Z := 11.

Definition mk (code : Z) (cols : result (gmap string colour)) (content : str)
    : annot :=
  {| a_type := TypeTuple code [];
     a_colors := cols;
     a_vertices := Ok None;
     a_rect := r0;
     a_info := Ok (Some {[ "content"%string := content ]}) |}.

Definition no_colour : result (gmap string colour) := Raise LibraryError.

Definition red : result (gmap string colour) :=
  Ok {[ "stroke"%string := Some [1; 0; 0]%float ]}.

Definition blue : result (gmap string colour) :=
  Ok (<[ "stroke"%string := Some [] ]>
        {[ "fill"%string := Some [0; 0.5; 0.75]%float ]}).

Definition gray : result (gmap string colour) :=
  Ok {[ "stroke"%string := Some [0.5]%float ]}.

Definition mk_page (chain : list annot) : page :=
  {| get_text := fun _ => Ok (lit " Hello  world ");
     get_pixmap := fun _ _ => Ok [137; 80; 78; 71]%N;
     annots := chain |}.

(** A POSIX world with the type codes above: whether the files exist, what
    [fitz.open] gives, whether [pix.save] succeeds; everything else
    succeeds. *)
Definition mk_world (file_exists : bool) (opened : result document)
    (save : bool) : world :=
  {| PDF_ANNOT_TEXT := TEXT;
     PDF_ANNOT_FREE_TEXT := FREE_TEXT;
     PDF_ANNOT_SQUARE := SQUARE;
     PDF_ANNOT_CIRCLE := CIRCLE;
     PDF_ANNOT_HIGHLIGHT := HIGHLIGHT;
     PDF_ANNOT_UNDERLINE := UNDERLINE;
     os_path_ := posix;
     isfile := fun _ => file_exists;
     getcwd := lit "/cwd";
     fitz_open := fun _ => opened;
     Quad_rect := fun _ => Ok r0;
     makedirs_ok := fun _ => true;
     pix_save_ok := fun _ => save;
     write_ok := fun _ => true;
     open_ok := fun _ => true |}.

(** Every file exists and every call succeeds; [fitz.open] gives [doc]. *)
Definition world_of (doc : document) : world := mk_world true (Ok doc) true.

(** As [world_of], but [pix.save] fails. *)
Definition world_nosave (doc : document) : world :=
  mk_world true (Ok doc) false.

(** The file exists and is not a PDF: [fitz.open] raises. *)
Definition world_noopen : world := mk_world true (Raise LibraryError) true.

(** No file exists. *)
Definition world_nofile : world := mk_world false (Raise LibraryError) true.

Definition highlight_y : annot := mk HIGHLIGHT no_colour [].
Definition sticky : annot := mk TEXT red (lit "hello").
Definition free_text : annot := mk FREE_TEXT red (lit " line1 ").
Definition square_r : annot := mk SQUARE red [].
Definition underline_b : annot := mk UNDERLINE blue [].
Definition strikeout_r : annot := mk STRIKEOUT red [].
Definition highlight_gray : annot := mk HIGHLIGHT gray [].

Definition doc1 : document :=
  [ mk_page [highlight_y; free_text; square_r; underline_b];
    mk_page [strikeout_r; square_r] ].

Definition pdf : str := lit "/docs/my paper.pdf".

End Sample.

Module Witness.

Import Sample.

Definition image_dir : str := lit "/docs/images".

Definition scan_state : state :=
  snd (page_loop (world_of doc1) pdf image_dir 144 doc1 0 init_state).

Definition notes_doc : document := [mk_page [highlight_y; free_text]].

Definition md_of (r : result (str * str) * state) : str :=
  match fst r with
  | Ok (_, md) => md
  | Raise _ => []
  end.

End Witness.

(* ===================================================================== *)
(** ** More sample data *)
(* ===================================================================== *)

Module More.

Definition red_map : gmap string colour :=
  {[ "stroke"%string := Some [1; 0; 0]%float ]}.

Definition red_blue_map : gmap string colour :=
  <[ "fill"%string := Some [0; 0; 1]%float ]> red_map.

Definition gray_map : gmap string colour :=
  {[ "stroke"%string := Some [0.5]%float ]}.

Definition red_blue : annot :=
  {| a_type := TypeTuple Sample.SQUARE [];
     a_colors := Ok red_blue_map;
     a_vertices := Ok None;
     a_rect := Sample.r0;
     a_info := Ok None |}.

(** A free-text annotation whose [info] cannot be read. *)
Definition broken_note : annot :=
  {| a_type := TypeTuple Sample.FREE_TEXT [];
     a_colors := Sample.red;
     a_vertices := Ok None;
     a_rect := Sample.r0;
     a_info := Raise LibraryError |}.

Definition empty_doc : document := [Sample.mk_page []].

Definition page0_ctx : page_ctx :=
  {| cx_pdf_path := Sample.pdf; cx_image_dir := Witness.image_dir;
     cx_min_dpi := 144;
     cx_page := Sample.mk_page [Sample.highlight_y; Sample.free_text;
                                Sample.square_r; Sample.underline_b];
     cx_page_index := 0 |}.

Definition page1_ctx : page_ctx :=
  {| cx_pdf_path := Sample.pdf; cx_image_dir := Witness.image_dir;
     cx_min_dpi := 144;
     cx_page := Sample.mk_page [Sample.strikeout_r; Sample.square_r];
     cx_page_index := 1 |}.

Definition env : cli_env :=
  {| abspath := fun p => p;
     isdir_after := fun _ _ => true;
     exn_str := fun _ => lit "error" |}.

Definition args : cli_args :=
  {| args_pdf := Sample.pdf; args_out := None;
     args_img_dir := lit "images"; args_min_dpi := 144 |}.

(** The scan of the sample document with the region texts dropped from the
    rectangle entries. *)
Definition scan_state_no_text : state :=
  {| highlight_groups := highlight_groups Witness.scan_state;
     notes_blocks := notes_blocks Witness.scan_state;
     rect_groups :=
       (fun items =>
          map (fun it => {| image_path := image_path it; rect_text := None |})
            items) <$> rect_groups Witness.scan_state;
     rect_index := 0;
     fs := [] |}.

End More.

(* ===================================================================== *)
(** ** Tactics *)
(* ===================================================================== *)

Ltac branch_cases H :=
  unfold codes_distinct in H; cbn [all_distinct existsb] in H;
  repeat rewrite ?andb_true_iff, ?negb_true_iff, ?orb_false_iff, ?Z.eqb_neq in H;
  unfold branch_of, val_in, val_eq_int; cbn [existsb];
  repeat match goal with
         | |- context [Z.eqb ?a ?b] => destruct (Z.eqb_spec a b)
         end;
  cbn [orb]; try reflexivity; exfalso; intuition congruence.

(** Rewriting with a fact [H] about the keys of [order], at each of the
    five. *)
Ltac five_keys H :=
  rewrite ?(H "yellow"%string), ?(H "red"%string), ?(H "blue"%string),
    ?(H "green"%string), ?(H "purple"%string)
    by (cbn [order In]; tauto).

(* ===================================================================== *)
(** * Properties *)
(* ===================================================================== *)

(** ** Nearest reference colour *)

Lemma categorize_step_inv c seen st kv :
  best_inv c seen st -> best_inv c (seen ++ [kv]) (categorize_step c st kv).
Proof.
  destruct st as [k bd], kv as [k' p']. unfold best_inv, categorize_step.
  simpl. destruct bd as [d|]; simpl.
  - intros (p & Hin & Hd & Hmin). destruct (Z.ltb_spec (dist2 c p') d); simpl.
    + exists p'. split; [apply in_or_app; right; now left|]. split; [easy|].
      intros kv [Hkv|[<-|[]]]%in_app_or; simpl; [|lia].
      specialize (Hmin kv Hkv). lia.
    + exists p. split; [apply in_or_app; now left|]. split; [easy|].
      intros kv [Hkv|[<-|[]]]%in_app_or; simpl; [|lia].
      now apply Hmin.
  - intros ->. exists p'. simpl. split; [now left|]. split; [easy|].
    intros kv [<-|[]]. simpl. lia.
Qed.

Lemma categorize_loop_inv c items : forall seen st,
  best_inv c seen st -> best_inv c (seen ++ items) (categorize_loop c items st).
Proof.
  induction items as [|kv items IH]; intros seen st H; simpl.
  - now rewrite app_nil_r.
  - replace (seen ++ kv :: items) with ((seen ++ [kv]) ++ items)
      by now rewrite <- app_assoc.
    apply IH. now apply categorize_step_inv.
Qed.

Lemma assoc_In {A} k (v : A) d : assoc k d = Some v -> In (k, v) d.
Proof.
  induction d as [|[k' v'] d IH]; simpl; [discriminate|].
  destruct (String.eqb k k') eqn:E.
  - apply String.eqb_eq in E. intros [= ->]. subst. now left.
  - intros H. right. now apply IH.
Qed.

Lemma refs_keys k p : In (k, p) refs -> In k order /\ assoc k refs = Some p.
Proof.
  unfold refs. simpl.
  intros [H|[H|[H|[H|[H|[]]]]]]; inversion H; subst; simpl; tauto.
Qed.

(** C1. For every integer triple, [categorize_color] returns one of the
    five keys, and the reference point of that key is at minimal squared
    Euclidean distance from the triple among the five reference points. *)
Theorem categorize_color_nearest (r g b : Z) :
  let k := categorize_color (r, g, b) in
  In k ["yellow"; "red"; "blue"; "green"; "purple"]%string
  /\ exists p, assoc k refs = Some p
       /\ forall k' p', assoc k' refs = Some p' ->
            dist2 (r, g, b) p <= dist2 (r, g, b) p'.
Proof.
  intros k. subst k. unfold categorize_color.
  pose proof (categorize_loop_inv (r, g, b) refs [] ("yellow"%string, None)
                eq_refl) as H.
  unfold best_inv in H. rewrite app_nil_l in H.
  destruct (categorize_loop (r, g, b) refs ("yellow"%string, None)) as [k bd].
  cbn [fst snd] in *. destruct bd as [d|]; [|discriminate].
  destruct H as (p & Hin & -> & Hmin).
  destruct (refs_keys _ _ Hin) as [Hk Hp]. split; [exact Hk|].
  exists p. split; [exact Hp|]. intros k' p' Hk'.
  apply (Hmin (k', p')). now apply assoc_In.
Qed.

(** ** Safe file names *)

Lemma re_sub_runs_empty_filter cls s : forall in_match,
  re_sub_runs cls [] in_match s = List.filter (fun c => negb (cls c)) s.
Proof.
  induction s as [|c s IH]; intros in_match; simpl; [reflexivity|].
  destruct (cls c); simpl; rewrite IH; now destruct in_match.
Qed.

Lemma re_sub_class_plus_empty cls s :
  Forall (fun c => cls c = false) (re_sub_class_plus cls [] s).
Proof.
  unfold re_sub_class_plus. rewrite re_sub_runs_empty_filter.
  apply List.Forall_forall. intros c [_ H]%filter_In.
  now apply negb_true_iff in H.
Qed.

Lemma make_safe_filename_chars parts :
  Forall (fun c => filename_allowed c = true) (make_safe_filename parts).
Proof.
  unfold make_safe_filename.
  eapply List.Forall_impl; [|apply re_sub_class_plus_empty].
  intros c H. unfold _FILENAME_ALLOWED_RE in H.
  now apply negb_false_iff in H.
Qed.

Lemma filename_allowed_spec c :
  filename_allowed c = true <->
  (65 <= c <= 90 \/ 97 <= c <= 122 \/ 48 <= c <= 57 \/ c = 95 \/ c = 45)%N.
Proof.
  unfold filename_allowed.
  rewrite !orb_true_iff, !andb_true_iff, !N.leb_le, !N.eqb_eq. tauto.
Qed.

(** C10. Whatever the parts, every character of the string that
    [make_safe_filename] returns is a letter A-Z or a-z, a digit, an
    underscore or a hyphen; so the base name of an image holds no space, no
    dot and no path separator. *)
Theorem make_safe_filename_allowed (parts : list str) :
  Forall (fun c => (65 <= c <= 90 \/ 97 <= c <= 122 \/ 48 <= c <= 57
                    \/ c = 95 \/ c = 45)%N)
         (make_safe_filename parts)
  /\ forall W cx n c,
       In c (rect_base_name W cx n) ->
       filename_allowed c = true
       /\ c <> 32%N /\ c <> 46%N /\ c <> 47%N /\ c <> 92%N.
Proof.
  split.
  - eapply List.Forall_impl; [|apply make_safe_filename_chars].
    intros c H. now apply filename_allowed_spec.
  - intros W cx n c Hin. unfold rect_base_name in Hin.
    pose proof (make_safe_filename_chars
                  [fst (splitext (os_path_ W) (basename (os_path_ W) (cx_pdf_path cx)));
                   lit "p" ++ str_of_int (cx_page_index cx + 1);
                   lit "rect" ++ str_of_int n]) as H.
    rewrite List.Forall_forall in H. specialize (H c Hin).
    split; [exact H|]. apply filename_allowed_spec in H. lia.
Qed.

(** ** The default colour *)

Lemma categorize_default : categorize_color default_rgb = "yellow"%string.
Proof. reflexivity. Qed.

(** C9. An annotation whose [colors] raise on access, or give neither a
    stroke nor a fill colour, has the colour (255, 212, 0), which is at
    distance zero from the yellow reference and is classified as yellow. *)
Theorem rgb_from_annot_default (a : annot) :
  (is_ok (a_colors a) = false
   \/ exists cs, a_colors a = Ok cs
        /\ truthy_colour (colors_get cs "stroke") = false
        /\ truthy_colour (colors_get cs "fill") = false) ->
  rgb_from_annot a = Ok (255, 212, 0)
  /\ assoc "yellow"%string refs = Some (255, 212, 0)
  /\ dist2 (255, 212, 0) (255, 212, 0) = 0
  /\ forall c, rgb_from_annot a = Ok c -> categorize_color c = "yellow"%string.
Proof.
  intros H.
  assert (Hd : rgb_from_annot a = Ok default_rgb).
  { unfold rgb_from_annot. destruct H as [H|(cs & Hcs & Hs & Hf)].
    - destruct (a_colors a); [discriminate|reflexivity].
    - rewrite Hcs. simpl. rewrite Hs, Hf. reflexivity. }
  split; [exact Hd|]. split; [reflexivity|]. split; [reflexivity|].
  intros c Hc. rewrite Hd in Hc. injection Hc as <-. apply categorize_default.
Qed.

(** ** The scan, one annotation at a time *)

Lemma apply_no_delta s : apply_delta no_delta (rect_index s) s = s.
Proof.
  destruct s. unfold apply_delta, no_delta. simpl. now rewrite !app_nil_r.
Qed.

Lemma save_rect_image_spec W pg r out_dir base_name dpi s :
  save_rect_image W pg r out_dir base_name dpi s
  = (Ok (fst (save_outcome W pg r out_dir base_name dpi)),
     {| highlight_groups := highlight_groups s;
        notes_blocks := notes_blocks s;
        rect_groups := rect_groups s;
        rect_index := rect_index s;
        fs := fs s ++ snd (save_outcome W pg r out_dir base_name dpi) |}).
Proof.
  unfold save_rect_image, save_outcome, try_or, bindM, do_makedirs, lift,
    do_pix_save, ret, image_file, log_event.
  destruct s as [hg nb rg ri l]. simpl.
  destruct (makedirs_ok W out_dir); simpl; [|now rewrite app_nil_r].
  destruct (get_pixmap pg r dpi) as [pix|e]; simpl; [|reflexivity].
  destruct (pix_save_ok W _); simpl; [|reflexivity].
  now rewrite <- app_assoc.
Qed.

Lemma markup_branch_spec W cx color a s :
  try_or (markup_branch W cx color a) tt s
  = (Ok tt, apply_delta (markup_delta W (cx_page cx) color a) (rect_index s) s).
Proof.
  unfold markup_branch, markup_delta, try_or, bindM, lift.
  destruct (extract_highlight_text W (cx_page cx) a) as [txt|e];
    [|now rewrite apply_no_delta].
  destruct (truthy_str (normalize_highlight_text txt));
    [|unfold ret; now rewrite apply_no_delta].
  destruct s. unfold append_highlight, apply_delta. simpl.
  now rewrite !app_nil_r.
Qed.

Lemma note_branch_spec a s :
  try_or (note_branch a) tt s
  = (Ok tt, apply_delta (note_delta a) (rect_index s) s).
Proof.
  unfold note_branch, note_delta, try_or, bindM, lift.
  destruct (a_info a) as [info|e]; [|now rewrite apply_no_delta].
  destruct (truthy_str (clean_content (info_content info)));
    [|unfold ret; now rewrite apply_no_delta].
  destruct s. unfold append_note, apply_delta. simpl.
  now rewrite !app_nil_r.
Qed.

Lemma rect_branch_spec W cx color a s :
  try_or (rect_branch W cx color a) tt s
  = (Ok tt,
     apply_delta (rect_delta W cx (rect_index s) color a) (rect_index s + 1) s).
Proof.
  unfold rect_branch, rect_delta, try_or, bindM, lift, get_rect_index,
    set_rect_index.
  destruct s as [hg nb rg ri l]. cbn [rect_index].
  destruct (get_text (cx_page cx) (a_rect a)) as [t|e].
  - rewrite save_rect_image_spec. unfold append_rect, apply_delta. simpl.
    now rewrite !app_nil_r.
  - unfold apply_delta, no_delta. simpl. now rewrite !app_nil_r.
Qed.

Lemma annot_body_spec W cx color a s :
  try_or (annot_body W cx (subtype_of (a_type a)) color a) tt s
  = (Ok tt,
     apply_delta (annot_delta W cx (rect_index s) color a)
       (next_rect_index W (rect_index s) a) s).
Proof.
  unfold annot_body, annot_delta, next_rect_index, branch_of.
  destruct (val_eq_int _ (PDF_ANNOT_HIGHLIGHT W)); [apply markup_branch_spec|].
  destruct (val_in _ [PDF_ANNOT_TEXT W; PDF_ANNOT_FREE_TEXT W]);
    [apply note_branch_spec|].
  destruct (val_in _ [PDF_ANNOT_SQUARE W; PDF_ANNOT_CIRCLE W]);
    [apply rect_branch_spec|].
  unfold try_or, bindM, lift, PDF_ANNOT_STRIKEOUT. now rewrite apply_no_delta.
Qed.

Lemma process_annot_ok W cx a s color :
  rgb_from_annot a = Ok color ->
  process_annot W cx a s
  = (Ok tt,
     apply_delta (annot_delta W cx (rect_index s) color a)
       (next_rect_index W (rect_index s) a) s).
Proof.
  intros H. unfold process_annot, bindM, lift. rewrite H.
  apply annot_body_spec.
Qed.

Lemma process_annot_raise W cx a s e :
  rgb_from_annot a = Raise e -> process_annot W cx a s = (Raise e, s).
Proof.
  intros H. unfold process_annot, bindM, lift. now rewrite H.
Qed.

(** ** The scan as a whole *)

Lemma scanned_nil W s : scanned W [] s s.
Proof. unfold scanned. simpl. now rewrite !app_nil_r. Qed.

Lemma scanned_app W occs1 occs2 s s1 s2 :
  scanned W occs1 s s1 -> scanned W occs2 s1 s2 ->
  scanned W (occs1 ++ occs2) s s2.
Proof.
  intros (H1 & H2 & H3 & H4) (K1 & K2 & K3 & K4). unfold scanned.
  rewrite !fold_left_app, !flat_map_app, !app_assoc.
  now rewrite <- H1, <- H2, <- H3, <- H4.
Qed.

Lemma scanned_set_index W occs s s' n :
  scanned W occs (snd (set_rect_index n s)) s' -> scanned W occs s s'.
Proof. destruct s. exact (fun H => H). Qed.

Lemma annot_loop_ok W cx chain : forall s,
  forallb colour_ok (chain_occurrences W cx (rect_index s) chain) = true ->
  exists s', annot_loop W cx chain s = (Ok tt, s')
             /\ scanned W (chain_occurrences W cx (rect_index s) chain) s s'.
Proof.
  induction chain as [|a chain IH]; intros s H.
  - exists s. split; [reflexivity|apply scanned_nil].
  - simpl in H. apply andb_true_iff in H as [Ha Hrest].
    unfold colour_ok in Ha. simpl in Ha.
    destruct (rgb_from_annot a) as [color|e] eqn:Hc; [|discriminate].
    set (s1 := apply_delta (annot_delta W cx (rect_index s) color a)
                 (next_rect_index W (rect_index s) a) s).
    destruct (IH s1 Hrest) as (s' & Hrun & Hsc).
    exists s'. split.
    + simpl. unfold bindM. rewrite (process_annot_ok _ _ _ _ _ Hc).
      exact Hrun.
    + change (chain_occurrences W cx (rect_index s) (a :: chain))
        with ([{| oc_ctx := cx; oc_index := rect_index s; oc_annot := a |}]
              ++ chain_occurrences W cx (rect_index s1) chain).
      eapply scanned_app; [|exact Hsc].
      unfold scanned, occurrence_delta. simpl. rewrite Hc.
      now rewrite !app_nil_r.
Qed.

Lemma annot_loop_raise W cx chain : forall s,
  forallb colour_ok (chain_occurrences W cx (rect_index s) chain) = false ->
  exists e s', annot_loop W cx chain s = (Raise e, s').
Proof.
  induction chain as [|a chain IH]; intros s H; [discriminate|].
  simpl in H. unfold colour_ok at 1 in H. simpl in H.
  destruct (rgb_from_annot a) as [color|e] eqn:Hc.
  - simpl in H. simpl. unfold bindM.
    rewrite (process_annot_ok _ _ _ _ _ Hc). now apply IH.
  - exists e, s. simpl. unfold bindM.
    now rewrite (process_annot_raise _ _ _ _ _ Hc).
Qed.

Lemma page_loop_cons W pdf_path image_dir min_dpi pg pages page_index s :
  page_loop W pdf_path image_dir min_dpi (pg :: pages) page_index s
  = match annot_loop W
            {| cx_pdf_path := pdf_path; cx_image_dir := image_dir;
               cx_min_dpi := min_dpi; cx_page := pg;
               cx_page_index := page_index |}
            (annots pg) (snd (set_rect_index 0 s)) with
    | (Ok _, s1) =>
        page_loop W pdf_path image_dir min_dpi pages (page_index + 1) s1
    | (Raise e, s1) => (Raise e, s1)
    end.
Proof. reflexivity. Qed.

Lemma page_loop_ok W pdf_path image_dir min_dpi pages : forall page_index s,
  forallb colour_ok (occurrences W pdf_path image_dir min_dpi pages page_index)
  = true ->
  exists s',
    page_loop W pdf_path image_dir min_dpi pages page_index s = (Ok tt, s')
    /\ scanned W (occurrences W pdf_path image_dir min_dpi pages page_index) s s'.
Proof.
  induction pages as [|pg pages IH]; intros i s H.
  - exists s. split; [reflexivity|apply scanned_nil].
  - simpl in H. rewrite forallb_app in H. apply andb_true_iff in H as [Hpg Hrest].
    set (cx := {| cx_pdf_path := pdf_path; cx_image_dir := image_dir;
                  cx_min_dpi := min_dpi; cx_page := pg; cx_page_index := i |})
      in *.
    destruct (annot_loop_ok W cx (annots pg) (snd (set_rect_index 0 s)) Hpg)
      as (s1 & Hrun1 & Hsc1).
    destruct (IH (i + 1) s1 Hrest) as (s' & Hrun & Hsc).
    exists s'. split.
    + rewrite page_loop_cons. fold cx. rewrite Hrun1. exact Hrun.
    + simpl. fold cx. eapply scanned_app; [|exact Hsc].
      apply (scanned_set_index _ _ _ _ 0). exact Hsc1.
Qed.

Lemma page_loop_raise W pdf_path image_dir min_dpi pages : forall page_index s,
  forallb colour_ok (occurrences W pdf_path image_dir min_dpi pages page_index)
  = false ->
  exists e s',
    page_loop W pdf_path image_dir min_dpi pages page_index s = (Raise e, s').
Proof.
  induction pages as [|pg pages IH]; intros i s H; [discriminate|].
  simpl in H. rewrite forallb_app in H.
  set (cx := {| cx_pdf_path := pdf_path; cx_image_dir := image_dir;
                cx_min_dpi := min_dpi; cx_page := pg; cx_page_index := i |})
    in *.
  destruct (forallb colour_ok (chain_occurrences W cx 0 (annots pg))) eqn:Hpg.
  - destruct (annot_loop_ok W cx (annots pg) (snd (set_rect_index 0 s)) Hpg)
      as (s1 & Hrun1 & _).
    simpl in H. destruct (IH (i + 1) s1 H) as (e & s' & Hrun).
    exists e, s'. rewrite page_loop_cons. fold cx. rewrite Hrun1. exact Hrun.
  - destruct (annot_loop_raise W cx (annots pg) (snd (set_rect_index 0 s)) Hpg)
      as (e & s' & Hrun).
    exists e, s'. rewrite page_loop_cons. fold cx. now rewrite Hrun.
Qed.

(** A scan that ends without an exception read the colour of every
    annotation, and its final state holds the contributions of all. *)
Lemma page_loop_complete W pdf_path image_dir min_dpi pages page_index s s' :
  page_loop W pdf_path image_dir min_dpi pages page_index s = (Ok tt, s') ->
  forallb colour_ok (occurrences W pdf_path image_dir min_dpi pages page_index)
  = true
  /\ scanned W (occurrences W pdf_path image_dir min_dpi pages page_index) s s'.
Proof.
  intros Hrun.
  destruct (forallb colour_ok
              (occurrences W pdf_path image_dir min_dpi pages page_index)) eqn:H.
  - split; [reflexivity|].
    destruct (page_loop_ok W _ _ _ _ page_index s H) as (s2 & Hrun2 & Hsc).
    rewrite Hrun in Hrun2. now injection Hrun2 as <-.
  - destruct (page_loop_raise W _ _ _ _ page_index s H) as (e & s2 & Hrun2).
    rewrite Hrun in Hrun2. discriminate.
Qed.

(** ** Groups *)

Lemma dd_get_append {A} (k k' : string) (x : A) d :
  dd_get (dd_append k' x d) k
  = if String.eqb k' k then dd_get d k ++ [x] else dd_get d k.
Proof.
  unfold dd_get, dd_append. destruct (String.eqb k' k) eqn:E.
  - apply String.eqb_eq in E. subst. now rewrite lookup_insert_eq.
  - apply String.eqb_neq in E. now rewrite lookup_insert_ne.
Qed.

Lemma dd_get_fold {A B} (f : B -> option (string * A)) (k : string) l :
  forall d,
    dd_get (fold_left (fun m o => opt_append (f o) m) l d) k
    = dd_get d k ++ group_of k (map f l).
Proof.
  induction l as [|o l IH]; intros d; simpl.
  - unfold group_of. simpl. now rewrite app_nil_r.
  - rewrite IH. unfold group_of. simpl. destruct (f o) as [[k' x]|]; simpl.
    + rewrite dd_get_append. destruct (String.eqb k' k); simpl.
      * now rewrite <- app_assoc.
      * reflexivity.
    + reflexivity.
Qed.

Lemma dd_get_empty {A} k : dd_get (∅ : gmap string (list A)) k = [].
Proof. unfold dd_get. now rewrite lookup_empty. Qed.

(** ** The sections of the report *)

Lemma fold_left_emit {A} (f : A -> list str) (step : list str -> A -> list str) :
  (forall lines x, step lines x = lines ++ f x) ->
  forall l lines, fold_left step l lines = lines ++ flat_map f l.
Proof.
  intros Hstep. induction l as [|x l IH]; intros lines; simpl.
  - now rewrite app_nil_r.
  - now rewrite IH, Hstep, <- app_assoc.
Qed.

Lemma emit_items_spec items lines :
  emit_items items lines = lines ++ map (fun t => lit "- > " ++ t) items.
Proof.
  unfold emit_items.
  rewrite (fold_left_emit (fun t => [lit "- > " ++ t])); [|reflexivity].
  apply app_inv_head_iff.
  induction items as [|t items IH]; cbn [flat_map map app]; [reflexivity|].
  now rewrite IH.
Qed.

Lemma existsb_negb_forallb {A} (f : A -> bool) l :
  existsb f l = negb (forallb (fun x => negb (f x)) l).
Proof.
  induction l as [|x l IH]; simpl; [reflexivity|].
  rewrite IH. now destruct (f x).
Qed.

Lemma highlight_step_spec hg lines k :
  highlight_step hg lines k
  = lines ++ highlight_subsection k (List.filter truthy_str (dd_get hg k)).
Proof.
  unfold highlight_step, highlight_subsection.
  destruct (List.filter truthy_str (dd_get hg k)) as [|t items] eqn:E; simpl.
  - now rewrite app_nil_r.
  - rewrite emit_items_spec. simpl. rewrite <- !app_assoc. reflexivity.
Qed.

(** The Highlights section for arbitrary groups: empty texts are dropped
    from the subsections. *)
Lemma emit_highlights_spec hg lines :
  emit_highlights hg lines
  = lines
    ++ (if forallb (fun k => negb (truthy_list (dd_get hg k))) order then []
        else [lit "## Highlights"; []]
             ++ flat_map (fun k => highlight_subsection k
                                     (List.filter truthy_str (dd_get hg k)))
                  order).
Proof.
  unfold emit_highlights. rewrite existsb_negb_forallb.
  destruct (forallb _ order); cbn [negb]; [now rewrite app_nil_r|].
  rewrite (fold_left_emit _ _ (highlight_step_spec hg)).
  now rewrite <- !app_assoc.
Qed.

Lemma filter_all_true {A} (f : A -> bool) l :
  Forall (fun x => f x = true) l -> List.filter f l = l.
Proof.
  induction 1 as [|x l Hx _ IH]; simpl; [reflexivity|]. now rewrite Hx, IH.
Qed.

(** The Highlights section when no group holds an empty text. *)
Lemma emit_highlights_clean hg lines :
  (forall k, Forall (fun t => truthy_str t = true) (dd_get hg k)) ->
  emit_highlights hg lines = lines ++ highlights_section (dd_get hg).
Proof.
  intros Hclean. rewrite emit_highlights_spec. unfold highlights_section.
  destruct (forallb _ order); [reflexivity|]. do 2 f_equal.
  apply flat_map_ext. intros k. now rewrite filter_all_true.
Qed.

Lemma emit_block_lines_spec block lines :
  emit_block_lines block lines
  = lines ++ map (fun ln => lit "> " ++ ln) (content_lines block).
Proof.
  unfold emit_block_lines, content_lines.
  rewrite (fold_left_emit
             (fun ln => if truthy_str (strip ln) then [lit "> " ++ strip ln]
                        else [])).
  - apply app_inv_head_iff.
    induction (splitlines block) as [|ln l IH];
      cbn [flat_map map List.filter]; [reflexivity|].
    destruct (truthy_str (strip ln)); cbn [map app]; now rewrite IH.
  - intros ls ln. destruct (truthy_str (strip ln)); [reflexivity|].
    now rewrite app_nil_r.
Qed.

Lemma note_step_spec lines block :
  note_step lines block = lines ++ note_callout (content_lines block).
Proof.
  unfold note_step, note_callout. rewrite emit_block_lines_spec.
  now rewrite <- !app_assoc.
Qed.

Lemma emit_notes_spec nb lines :
  emit_notes nb lines = lines ++ notes_section nb.
Proof.
  unfold emit_notes, notes_section. destruct nb as [|b nb].
  - simpl. now rewrite app_nil_r.
  - cbn [truthy_list]. rewrite (fold_left_emit _ _ note_step_spec).
    now rewrite <- !app_assoc.
Qed.

Lemma rect_item_step_spec lines it :
  rect_item_step lines it = lines ++ rect_item_lines it.
Proof.
  unfold rect_item_step, rect_item_lines, image_link.
  destruct (truthy_opt_str (image_path it)); [|reflexivity].
  now rewrite <- app_assoc.
Qed.

Lemma rect_step_spec rg lines k :
  rect_step rg lines k = lines ++ rect_subsection k (dd_get rg k).
Proof.
  unfold rect_step, rect_subsection.
  destruct (dd_get rg k) as [|it items]; cbn [truthy_list negb].
  - now rewrite app_nil_r.
  - rewrite (fold_left_emit _ _ rect_item_step_spec).
    now rewrite <- !app_assoc.
Qed.

Lemma emit_rects_spec rg lines :
  emit_rects rg lines = lines ++ rects_section (dd_get rg).
Proof.
  unfold emit_rects, rects_section. rewrite existsb_negb_forallb.
  destruct (forallb _ order); cbn [negb]; [now rewrite app_nil_r|].
  rewrite (fold_left_emit _ _ (rect_step_spec rg)).
  now rewrite <- !app_assoc.
Qed.

Lemma build_lines_spec title s :
  (forall k, Forall (fun t => truthy_str t = true)
               (dd_get (highlight_groups s) k)) ->
  build_lines title s
  = title_lines title
    ++ highlights_section (dd_get (highlight_groups s))
    ++ notes_section (notes_blocks s)
    ++ rects_section (dd_get (rect_groups s)).
Proof.
  intros Hclean. unfold build_lines.
  rewrite emit_rects_spec, emit_notes_spec, (emit_highlights_clean _ _ Hclean).
  unfold title_lines. simpl. now rewrite <- !app_assoc.
Qed.

(** ** Groups and sections of a completed scan *)

Lemma categorize_color_key c : In (categorize_color c) order.
Proof.
  unfold categorize_color.
  pose proof (categorize_loop_inv c refs [] ("yellow"%string, None) eq_refl)
    as H.
  unfold best_inv in H. rewrite app_nil_l in H.
  destruct (categorize_loop c refs ("yellow"%string, None)) as [k bd].
  cbn [fst snd] in *. destruct bd as [d|]; [|discriminate].
  destruct H as (p & Hin & _). now apply refs_keys in Hin.
Qed.

Lemma group_of_In {A} (k : string) (x : A) contribs :
  In x (group_of k contribs) <-> In (Some (k, x)) contribs.
Proof.
  unfold group_of. induction contribs as [|c l IH]; simpl; [tauto|].
  destruct c as [[k' y]|]; simpl.
  - destruct (String.eqb k' k) eqn:E; simpl.
    + apply String.eqb_eq in E. subst. rewrite IH. split.
      * intros [->|H]; [now left|now right].
      * intros [[= ->]|H]; [now left|now right].
    + apply String.eqb_neq in E. rewrite IH. split; [now right|].
      intros [[= -> _]|H]; [congruence|exact H].
  - rewrite IH. split; [now right|]. now intros [[=]|H].
Qed.

Lemma d_highlight_truthy W o k t :
  d_highlight (occurrence_delta W o) = Some (k, t) -> truthy_str t = true.
Proof.
  unfold occurrence_delta, annot_delta, markup_delta, note_delta, rect_delta.
  destruct (rgb_from_annot (oc_annot o)); [|discriminate].
  destruct (branch_of _ _).
  - destruct (extract_highlight_text _ _ _); [|discriminate].
    destruct (truthy_str (normalize_highlight_text a0)) eqn:E; [|discriminate].
    simpl. now intros [= _ <-].
  - destruct (a_info _); [|discriminate].
    now destruct (truthy_str _).
  - now destruct (get_text _ _).
  - discriminate.
Qed.

Lemma scanned_highlights W occs s k :
  scanned W occs init_state s ->
  dd_get (highlight_groups s) k
  = group_of k (map (fun o => d_highlight (occurrence_delta W o)) occs).
Proof.
  intros (H & _). rewrite H.
  rewrite (dd_get_fold (fun o => d_highlight (occurrence_delta W o))).
  simpl. now rewrite dd_get_empty.
Qed.

Lemma scanned_rects W occs s k :
  scanned W occs init_state s ->
  dd_get (rect_groups s) k
  = group_of k (map (fun o => d_rect (occurrence_delta W o)) occs).
Proof.
  intros (_ & _ & H & _). rewrite H.
  rewrite (dd_get_fold (fun o => d_rect (occurrence_delta W o))).
  simpl. now rewrite dd_get_empty.
Qed.

Lemma scanned_clean W occs s k :
  scanned W occs init_state s ->
  Forall (fun t => truthy_str t = true) (dd_get (highlight_groups s) k).
Proof.
  intros H. rewrite (scanned_highlights _ _ _ _ H).
  apply List.Forall_forall. intros t Ht. apply group_of_In in Ht.
  apply in_map_iff in Ht as (o & Ho & _). now apply d_highlight_truthy in Ho.
Qed.

Lemma in_flat_map_intro {A B} (f : A -> list B) l x y :
  In x l -> In y (f x) -> In y (flat_map f l).
Proof. intros Hx Hy. apply in_flat_map. now exists x. Qed.

Lemma forallb_empty_group {A} (group : string -> list A) k :
  forallb (fun k => negb (truthy_list (group k))) order = true ->
  In k order -> group k = [].
Proof.
  intros H Hk. rewrite forallb_forall in H. specialize (H k Hk).
  now destruct (group k).
Qed.

Lemma highlights_section_item group k t :
  In k order -> In t (group k) ->
  In (lit "- > " ++ t) (highlights_section group).
Proof.
  intros Hk Ht. unfold highlights_section.
  destruct (forallb _ order) eqn:E.
  - rewrite (forallb_empty_group _ _ E Hk) in Ht. destruct Ht.
  - apply in_or_app. right. apply (in_flat_map_intro _ _ k); [exact Hk|].
    unfold highlight_subsection. destruct (group k) as [|t0 items] eqn:Eg;
      [destruct Ht|].
    apply in_or_app. right. apply in_or_app. left.
    apply in_map_iff. now exists t.
Qed.

Lemma rects_section_item group k it :
  In k order -> In it (group k) ->
  truthy_opt_str (image_path it) = true ->
  In (image_link (default [] (image_path it))) (rects_section group).
Proof.
  intros Hk Hit Himg. unfold rects_section.
  destruct (forallb _ order) eqn:E.
  - rewrite (forallb_empty_group _ _ E Hk) in Hit. destruct Hit.
  - apply in_or_app. right. apply (in_flat_map_intro _ _ k); [exact Hk|].
    unfold rect_subsection. destruct (group k) as [|i0 items] eqn:Eg;
      [destruct Hit|].
    apply in_or_app. right. apply (in_flat_map_intro _ _ it); [exact Hit|].
    unfold rect_item_lines. rewrite Himg. now left.
Qed.

(** C3. In the report of a completed scan the lines after the title are
    the Highlights section, the Notes section and the Rectangles / Figures
    section; the Highlights and the Rectangles sections hold one subsection
    per colour whose group is not empty, in the order yellow, red, blue,
    green, purple, and none for a colour whose group is empty. *)
Theorem report_sections_by_colour (W : world) (pdf_path image_dir : str)
    (min_dpi : Z) (doc : document) (s : state) (title : str) :
  page_loop W pdf_path image_dir min_dpi doc 0 init_state = (Ok tt, s) ->
  let hl := dd_get (highlight_groups s) in
  let rc := dd_get (rect_groups s) in
  let colours := ["yellow"; "red"; "blue"; "green"; "purple"]%string in
  build_lines title s
  = [lit "# Annotations for " ++ title; []]
    ++ (if forallb (fun k => negb (truthy_list (hl k))) colours then []
        else [lit "## Highlights"; []]
             ++ flat_map (fun k => highlight_subsection k (hl k)) colours)
    ++ notes_section (notes_blocks s)
    ++ (if forallb (fun k => negb (truthy_list (rc k))) colours then []
        else [lit "## Rectangles / Figures"; []]
             ++ flat_map (fun k => rect_subsection k (rc k)) colours)
  /\ (forall k, highlight_subsection k (hl k) = [] <-> hl k = [])
  /\ (forall k, rect_subsection k (rc k) = [] <-> rc k = []).
Proof.
  intros Hrun hl rc colours.
  apply page_loop_complete in Hrun as [_ Hsc].
  split; [|split].
  - apply build_lines_spec. intros k. exact (scanned_clean _ _ _ k Hsc).
  - intros k. unfold highlight_subsection. destruct (hl k); [tauto|].
    split; discriminate.
  - intros k. unfold rect_subsection. destruct (rc k); [tauto|].
    split; discriminate.
Qed.

(** ** The branch of each kind of annotation *)

Lemma branch_of_highlight W :
  branch_of W (PInt (PDF_ANNOT_HIGHLIGHT W)) = BrMarkup.
Proof. unfold branch_of, val_eq_int. now rewrite Z.eqb_refl. Qed.

Lemma branch_of_note W c :
  codes_distinct W = true ->
  c = PDF_ANNOT_TEXT W \/ c = PDF_ANNOT_FREE_TEXT W ->
  branch_of W (PInt c) = BrNote.
Proof. intros H [-> | ->]; branch_cases H. Qed.

Lemma branch_of_rect W c :
  codes_distinct W = true ->
  c = PDF_ANNOT_SQUARE W \/ c = PDF_ANNOT_CIRCLE W ->
  branch_of W (PInt c) = BrRect.
Proof. intros H [-> | ->]; branch_cases H. Qed.

Lemma subtype_of_type_code t :
  subtype_of t = if type_code t =? 0 then PStr [] else PInt (type_code t).
Proof.
  unfold subtype_of, py_or, truthy_val, type_code.
  now destruct (match t with TypeTuple c _ => c | TypeBare c => c end =? 0).
Qed.

(** The body that an annotation runs, by its type code. *)
Lemma branch_of_kind W a :
  branch_of W (subtype_of (a_type a))
  = if is_highlight W a then BrMarkup
    else if is_note W a then BrNote
    else if is_rect W a then BrRect
    else BrNone.
Proof.
  unfold is_highlight, is_note, is_rect. cbv zeta.
  rewrite subtype_of_type_code.
  destruct (type_code (a_type a) =? 0); [reflexivity|].
  unfold branch_of, val_in, val_eq_int. cbn [existsb negb andb].
  now rewrite !orb_false_r.
Qed.

Lemma note_not_highlight W a :
  codes_distinct W = true -> is_note W a = true -> is_highlight W a = false.
Proof.
  intros H. unfold codes_distinct in H. cbn [all_distinct existsb] in H.
  repeat rewrite ?andb_true_iff, ?negb_true_iff, ?orb_false_iff, ?Z.eqb_neq in H.
  unfold is_note, is_highlight. cbv zeta.
  destruct (type_code (a_type a) =? 0); [discriminate|]. cbn [negb andb].
  intros [E|E]%orb_prop; apply Z.eqb_eq in E; apply Z.eqb_neq; rewrite E;
    intuition congruence.
Qed.

Lemma rect_not_highlight_note W a :
  codes_distinct W = true -> is_rect W a = true ->
  is_highlight W a = false /\ is_note W a = false.
Proof.
  intros H. unfold codes_distinct in H. cbn [all_distinct existsb] in H.
  repeat rewrite ?andb_true_iff, ?negb_true_iff, ?orb_false_iff, ?Z.eqb_neq in H.
  unfold is_rect, is_note, is_highlight. cbv zeta.
  destruct (type_code (a_type a) =? 0); [discriminate|]. cbn [negb andb].
  intros [E|E]%orb_prop; apply Z.eqb_eq in E; rewrite E;
    (split; [|apply orb_false_iff; split]); apply Z.eqb_neq;
    intuition congruence.
Qed.

Lemma takes_rect_branch_kind W a :
  codes_distinct W = true -> takes_rect_branch W a = is_rect W a.
Proof.
  intros H. unfold takes_rect_branch. rewrite branch_of_kind.
  destruct (is_rect W a) eqn:E.
  - destruct (rect_not_highlight_note W a H E) as [-> ->]. reflexivity.
  - now destruct (is_highlight W a), (is_note W a).
Qed.

Lemma branch_of_empty_string W : branch_of W (PStr []) = BrNone.
Proof. reflexivity. Qed.

(** ** Text markup *)

Lemma markup_contribution W o c t :
  branch_of W (subtype_of (a_type (oc_annot o))) = BrMarkup ->
  rgb_from_annot (oc_annot o) = Ok c ->
  extract_highlight_text W (cx_page (oc_ctx o)) (oc_annot o) = Ok t ->
  normalize_highlight_text t <> [] ->
  occurrence_delta W o
  = {| d_highlight := Some (categorize_color c, normalize_highlight_text t);
       d_note := None; d_rect := None; d_events := [] |}.
Proof.
  intros Hb Hc Ht Hn. unfold occurrence_delta, annot_delta, markup_delta.
  rewrite Hc, Hb, Ht. now destruct (normalize_highlight_text t).
Qed.

Lemma chain_occurrences_annots W cx chain : forall n,
  map (fun o => (cx_page (oc_ctx o), oc_annot o))
    (chain_occurrences W cx n chain)
  = map (pair (cx_page cx)) chain.
Proof.
  induction chain as [|a chain IH]; intros n; [reflexivity|].
  cbn [chain_occurrences map oc_ctx oc_annot]. now rewrite IH.
Qed.

(** The occurrences of a scan are the annotations of the document, page
    after page and along each chain. *)
Lemma occurrences_annotations W pdf_path image_dir min_dpi pages :
  forall page_index,
    map (fun o => (cx_page (oc_ctx o), oc_annot o))
      (occurrences W pdf_path image_dir min_dpi pages page_index)
    = annotations pages.
Proof.
  unfold annotations.
  induction pages as [|pg pages IH]; intros i; [reflexivity|].
  cbn [occurrences flat_map]. rewrite map_app, chain_occurrences_annots.
  now rewrite IH.
Qed.



(** C8, at a document with an underline and a strike-out annotation over
    the text "Hello  world": neither is a highlight, a note, a rectangle or
    a circle, so the chain reaches its fourth test, which raises
    [AttributeError] before it compares; the [try] swallows it, nothing is
    collected, and the Markdown written holds the title line only, without
    a Highlights section. *)
Theorem underline_strikeout_not_rendered :
  let pg := Sample.mk_page [Sample.underline_b; Sample.strikeout_r] in
  let W := Sample.world_of [pg] in
  let res := run W Sample.pdf None (lit "images") 144 in
  PDF_ANNOT_STRIKEOUT = Raise AttributeError
  /\ a_type Sample.underline_b = TypeTuple (PDF_ANNOT_UNDERLINE W) []
  /\ a_type Sample.strikeout_r = TypeTuple 11 []
  /\ extract_highlight_text W pg Sample.underline_b = Ok (lit "Hello  world")
  /\ extract_highlight_text W pg Sample.strikeout_r = Ok (lit "Hello  world")
  /\ normalize_highlight_text (lit "Hello  world") = lit "Helloworld"
  /\ fst res = Ok (lit "/docs/my paper.annotations.md")
  /\ fs (snd res)
     = [ EvMakedirs (lit "/docs");
         EvWriteText (lit "/docs/my paper.annotations.md")
           (lit "# Annotations for my paper" ++ NL) ]
  /\ highlight_groups (snd res) = ∅.
Proof. vm_compute. repeat split. Qed.

(** ** Stripping and splitting *)

Lemma lstrip_idem s : lstrip (lstrip s) = lstrip s.
Proof.
  induction s as [|c s IH]; simpl; [reflexivity|].
  destruct (is_space c) eqn:E; [exact IH|]. simpl. now rewrite E.
Qed.

Lemma lstrip_head s c t : lstrip s = c :: t -> is_space c = false.
Proof.
  induction s as [|x s IH]; simpl; [discriminate|].
  destruct (is_space x) eqn:E; [exact IH|]. now intros [= <- _].
Qed.

Lemma lstrip_snoc l c :
  is_space c = false -> exists l', lstrip (l ++ [c]) = l' ++ [c].
Proof.
  intros Hc. induction l as [|x l IH]; simpl.
  - exists []. now rewrite Hc.
  - destruct (is_space x); [exact IH|]. now exists (x :: l).
Qed.

Lemma strip_trimmed s : trimmed (strip s).
Proof.
  unfold trimmed, strip, rstrip. split.
  - destruct (lstrip s) as [|c t] eqn:E; [reflexivity|].
    pose proof (lstrip_head _ _ _ E) as Hc. simpl rev.
    destruct (lstrip_snoc (rev t) c Hc) as [l' ->].
    rewrite rev_app_distr. simpl. now rewrite Hc.
  - rewrite rev_involutive. apply lstrip_idem.
Qed.

Lemma trimmed_strip s : trimmed s -> strip s = s.
Proof.
  intros [H1 H2]. unfold strip, rstrip. rewrite H1, H2. apply rev_involutive.
Qed.

Lemma strip_idem s : strip (strip s) = strip s.
Proof. apply trimmed_strip, strip_trimmed. Qed.

Lemma lstrip_one_line s : one_line s -> one_line (lstrip s).
Proof.
  induction 1 as [|c s Hc Hs IH]; simpl; [constructor|].
  destruct (is_space c); [exact IH|]. now constructor.
Qed.

Lemma rev_one_line s : one_line s -> one_line (rev s).
Proof.
  unfold one_line. rewrite !List.Forall_forall. intros H c Hc.
  apply H. now apply in_rev.
Qed.

Lemma strip_one_line s : one_line s -> one_line (strip s).
Proof.
  intros H. unfold strip, rstrip.
  now apply rev_one_line, lstrip_one_line, rev_one_line, lstrip_one_line.
Qed.

Lemma splitlines_from_one_line n : forall s cur,
  (length s <= n)%nat -> one_line cur ->
  List.Forall one_line (splitlines_from cur s).
Proof.
  induction n as [|n IH]; intros s cur Hlen Hcur.
  - destruct s; [|simpl in Hlen; lia]. simpl.
    destruct cur; [constructor|]. constructor; [|constructor].
    now apply rev_one_line.
  - destruct s as [|c t]; simpl.
    + destruct cur; [constructor|]. constructor; [|constructor].
      now apply rev_one_line.
    + simpl in Hlen. destruct (is_linebreak c) eqn:E.
      * destruct t as [|c' t'].
        -- constructor; [now apply rev_one_line|constructor].
        -- simpl in Hlen.
           destruct ((c =? 13)%N && (c' =? 10)%N);
             (constructor; [now apply rev_one_line|]);
             apply IH; try constructor; simpl; lia.
      * apply IH; [lia|]. now constructor.
Qed.

Lemma splitlines_one_line s : List.Forall one_line (splitlines s).
Proof.
  apply (splitlines_from_one_line (length s)); [lia|constructor].
Qed.

Lemma splitlines_from_line l : one_line l -> forall cur rest,
  splitlines_from cur (l ++ rest) = splitlines_from (rev l ++ cur) rest.
Proof.
  induction 1 as [|c l Hc Hl IH]; intros cur rest; [reflexivity|].
  simpl. rewrite Hc, IH. now rewrite <- app_assoc.
Qed.

Lemma splitlines_from_newline cur c t :
  splitlines_from cur (10%N :: c :: t) = rev cur :: splitlines_from [] (c :: t).
Proof. reflexivity. Qed.

Lemma join_cons2 sep p q rest :
  join sep (p :: q :: rest) = p ++ sep ++ join sep (q :: rest).
Proof. reflexivity. Qed.

Lemma join_nonempty sep p rest : p <> [] -> join sep (p :: rest) <> [].
Proof.
  intros Hp. destruct rest as [|q rest]; [exact Hp|].
  rewrite join_cons2. intros H. apply app_eq_nil in H as [H _]. congruence.
Qed.

(** Splitting undoes joining non-empty lines with newlines. *)
Lemma splitlines_join ls :
  List.Forall (fun l => one_line l /\ l <> []) ls ->
  splitlines (join NL ls) = ls.
Proof.
  unfold splitlines. induction 1 as [|l ls [Hl Hne] Hls IH]; [reflexivity|].
  destruct ls as [|q ls].
  - simpl join. rewrite <- (app_nil_r l) at 1.
    rewrite (splitlines_from_line _ Hl). rewrite app_nil_r. simpl.
    destruct (rev l) eqn:E.
    + apply (f_equal (@rev _)) in E. rewrite rev_involutive in E. now subst.
    + rewrite <- E. now rewrite rev_involutive.
  - rewrite join_cons2, (splitlines_from_line _ Hl), app_nil_r.
    inversion Hls as [|? ? [_ Hq] _]; subst.
    pose proof (join_nonempty NL q ls Hq) as Hj.
    destruct (join NL (q :: ls)) as [|c' t'] eqn:Ej; [exfalso; exact (Hj Ej)|].
    unfold NL at 1. cbn [app].
    rewrite splitlines_from_newline, rev_involutive. f_equal. exact IH.
Qed.

Lemma truthy_str_true s : truthy_str s = true <-> s <> [].
Proof. destruct s; simpl; split; congruence. Qed.

Lemma content_lines_spec content l :
  In l (content_lines content) -> one_line l /\ l <> [] /\ strip l = l.
Proof.
  unfold content_lines. intros (x & <- & Hx)%in_map_iff.
  apply filter_In in Hx as [Hx Ht]. split; [|split].
  - apply strip_one_line.
    pose proof (splitlines_one_line content) as H.
    rewrite List.Forall_forall in H. now apply H.
  - now apply truthy_str_true.
  - apply strip_idem.
Qed.

Lemma clean_content_lines content :
  clean_content content = join NL (content_lines content).
Proof. reflexivity. Qed.

Lemma stripped_lines_fixed ls :
  List.Forall (fun l => l <> [] /\ strip l = l) ls ->
  map strip (List.filter (fun ln => truthy_str (strip ln)) ls) = ls.
Proof.
  induction 1 as [|l ls [Hne Hs] _ IH]; [reflexivity|].
  cbn [List.filter]. rewrite Hs, (proj2 (truthy_str_true l) Hne).
  cbn [map]. now rewrite Hs, IH.
Qed.

(** The lines of a stored note are the non-blank lines of the content it
    was made from, stripped, in their order. *)
Lemma content_lines_clean content :
  content_lines (clean_content content) = content_lines content.
Proof.
  assert (H : List.Forall (fun l => one_line l /\ l <> [] /\ strip l = l)
                (content_lines content))
    by (apply List.Forall_forall; intros l; apply content_lines_spec).
  rewrite clean_content_lines. unfold content_lines at 1.
  rewrite splitlines_join
    by (eapply List.Forall_impl; [|exact H]; cbv beta; tauto).
  apply stripped_lines_fixed.
  eapply List.Forall_impl; [|exact H]. cbv beta. tauto.
Qed.

Lemma clean_content_truthy content :
  content_lines content <> [] -> truthy_str (clean_content content) = true.
Proof.
  intros H. rewrite clean_content_lines. apply truthy_str_true.
  destruct (content_lines content) as [|l ls] eqn:E; [congruence|].
  apply join_nonempty.
  apply (content_lines_spec content l). rewrite E. now left.
Qed.

(** ** Notes *)

Lemma note_contribution W o code c info :
  codes_distinct W = true ->
  subtype_of (a_type (oc_annot o)) = PInt code ->
  code = PDF_ANNOT_TEXT W \/ code = PDF_ANNOT_FREE_TEXT W ->
  rgb_from_annot (oc_annot o) = Ok c ->
  a_info (oc_annot o) = Ok info ->
  content_lines (info_content info) <> [] ->
  occurrence_delta W o
  = {| d_highlight := None;
       d_note := Some (clean_content (info_content info));
       d_rect := None; d_events := [] |}.
Proof.
  intros Hcodes Hsub Hcode Hc Hinfo Hne.
  unfold occurrence_delta, annot_delta, note_delta.
  rewrite Hc, Hsub, (branch_of_note W code Hcodes Hcode), Hinfo.
  now rewrite (clean_content_truthy _ Hne).
Qed.

(** A text or free-text annotation whose subtype survives the [or] (its type
    code is not 0), with content that is not empty after dropping blank
    lines, is one block of [notes_blocks] in a completed scan, rendered as
    the callout line followed by the non-blank lines of the content,
    stripped and prefixed with "> ", in their order, and a blank line. *)
Lemma note_rendered W pdf_path image_dir min_dpi doc s o code c info :
  codes_distinct W = true ->
  page_loop W pdf_path image_dir min_dpi doc 0 init_state = (Ok tt, s) ->
  In o (occurrences W pdf_path image_dir min_dpi doc 0) ->
  subtype_of (a_type (oc_annot o)) = PInt code ->
  code = PDF_ANNOT_TEXT W \/ code = PDF_ANNOT_FREE_TEXT W ->
  rgb_from_annot (oc_annot o) = Ok c ->
  a_info (oc_annot o) = Ok info ->
  content_lines (info_content info) <> [] ->
  let callout :=
    [lit "> [!note] 注释"]
    ++ map (fun ln => lit "> " ++ ln) (content_lines (info_content info))
    ++ [[]] in
  In (clean_content (info_content info)) (notes_blocks s)
  /\ (forall lines,
        note_step lines (clean_content (info_content info)) = lines ++ callout)
  /\ exists before after,
       notes_section (notes_blocks s) = before ++ callout ++ after.
Proof.
  intros Hcodes Hrun Hin Hsub Hcode Hc Hinfo Hne callout.
  apply page_loop_complete in Hrun as [_ Hsc].
  pose proof (note_contribution W o code c info Hcodes Hsub Hcode Hc Hinfo Hne)
    as Hdelta.
  assert (Hblock : In (clean_content (info_content info)) (notes_blocks s)).
  { destruct Hsc as (_ & -> & _). simpl. apply in_flat_map.
    exists o. split; [exact Hin|]. rewrite Hdelta. now left. }
  assert (Hcall : note_callout (content_lines (clean_content (info_content info)))
                  = callout)
    by (unfold note_callout, callout; now rewrite content_lines_clean).
  split; [exact Hblock|]. split.
  - intros lines. now rewrite note_step_spec, Hcall.
  - apply in_split in Hblock as (l1 & l2 & Hnb). rewrite Hnb.
    unfold notes_section. destruct l1 as [|b l1]; cbn [app].
    + exists [lit "## Notes"; []].
      exists (flat_map (fun block => note_callout (content_lines block)) l2).
      cbn [flat_map]. now rewrite Hcall.
    + exists ([lit "## Notes"; []]
              ++ flat_map (fun block => note_callout (content_lines block))
                   (b :: l1)).
      exists (flat_map (fun block => note_callout (content_lines block)) l2).
      rewrite app_comm_cons, flat_map_app. cbn [flat_map].
      rewrite Hcall. now rewrite <- !app_assoc.
Qed.

(** Where the library gives text annotations the type code 0, as PyMuPDF
    does, the [or] turns their subtype into the empty string and no branch
    of the chain is taken. *)
Lemma text_annotation_no_branch W name :
  PDF_ANNOT_TEXT W = 0 ->
  subtype_of (TypeTuple (PDF_ANNOT_TEXT W) name) = PStr []
  /\ branch_of W (subtype_of (TypeTuple (PDF_ANNOT_TEXT W) name)) = BrNone.
Proof. intros ->. split; reflexivity. Qed.

Lemma text_annotation_dropped W cx n color a name :
  PDF_ANNOT_TEXT W = 0 ->
  a_type a = TypeTuple (PDF_ANNOT_TEXT W) name ->
  annot_delta W cx n color a = no_delta.
Proof.
  intros H0 H. unfold annot_delta. rewrite H.
  now rewrite (proj2 (text_annotation_no_branch W name H0)).
Qed.

(** C5, at a document whose only annotation is a text annotation (type
    code 0, the value of [fitz.PDF_ANNOT_TEXT]) with the content "hello":
    the content survives the removal of blank lines, the run succeeds, and
    the Markdown written holds the title line only, without a Notes
    section. *)
Theorem text_annotation_not_rendered :
  let doc := [Sample.mk_page [Sample.sticky]] in
  let W := Sample.world_of doc in
  let res := run W Sample.pdf None (lit "images") 144 in
  PDF_ANNOT_TEXT W = 0
  /\ a_type Sample.sticky = TypeTuple (PDF_ANNOT_TEXT W) []
  /\ a_info Sample.sticky = Ok (Some {[ "content"%string := lit "hello" ]})
  /\ content_lines (lit "hello") = [lit "hello"]
  /\ fst res = Ok (lit "/docs/my paper.annotations.md")
  /\ fs (snd res)
     = [ EvMakedirs (lit "/docs");
         EvWriteText (lit "/docs/my paper.annotations.md")
           (lit "# Annotations for my paper" ++ NL) ]
  /\ notes_blocks (snd res) = [].
Proof. vm_compute. repeat split. Qed.

(** ** A whole run *)

(** What a successful run went through. *)
Lemma run_inv W pdf_path out_md img_dir min_dpi out s :
  run W pdf_path out_md img_dir min_dpi = (Ok out, s) ->
  out = out_path_of W pdf_path out_md
  /\ isfile W pdf_path = true
  /\ makedirs_ok W (out_dir_of W out) = true
  /\ write_ok W out = true
  /\ exists doc s0,
       fitz_open W pdf_path = Ok doc
       /\ page_loop W pdf_path (image_dir_of W out img_dir) min_dpi doc 0
            init_state = (Ok tt, s0)
       /\ s = log_event
                (EvWriteText out (build_markdown (title_of W pdf_path) s0))
                (log_event (EvMakedirs (out_dir_of W out)) s0).
Proof.
  unfold run, export_pdf_annotations, export_markdown, out_dir_of.
  destruct (isfile W pdf_path); cbn [negb]; [|discriminate].
  unfold bindM, lift, get_state, ret, do_makedirs, do_write.
  destruct (fitz_open W pdf_path) as [doc|e]; [|discriminate].
  destruct (page_loop W pdf_path _ min_dpi doc 0 init_state) as [[[]|e] s0] eqn:E;
    [|discriminate].
  cbn [fst snd].
  destruct (makedirs_ok W _) eqn:Hmk; [|discriminate].
  destruct (write_ok W _) eqn:Hw; [|destruct (open_ok W _); discriminate].
  intros [= <- <-]. repeat split; try assumption.
  exists doc, s0. repeat split. exact E.
Qed.

(** A run whose calls all succeed returns the output path. *)
Lemma run_ok W pdf_path out_md img_dir min_dpi doc :
  let out := out_path_of W pdf_path out_md in
  isfile W pdf_path = true ->
  fitz_open W pdf_path = Ok doc ->
  forallb colour_ok
    (occurrences W pdf_path (image_dir_of W out img_dir) min_dpi doc 0) = true ->
  makedirs_ok W (out_dir_of W out) = true ->
  write_ok W out = true ->
  exists s0,
    page_loop W pdf_path (image_dir_of W out img_dir) min_dpi doc 0 init_state
    = (Ok tt, s0)
    /\ run W pdf_path out_md img_dir min_dpi
       = (Ok out,
          log_event (EvWriteText out (build_markdown (title_of W pdf_path) s0))
            (log_event (EvMakedirs (out_dir_of W out)) s0)).
Proof.
  intros out Hf Hopen Hcol Hmk Hw.
  destruct (page_loop_ok W _ _ _ _ 0 init_state Hcol) as (s0 & Hrun & _).
  exists s0. split; [exact Hrun|].
  unfold run, export_pdf_annotations, export_markdown, out_dir_of in *.
  rewrite Hf. cbn [negb].
  unfold bindM, lift, get_state, ret, do_makedirs, do_write.
  rewrite Hopen. fold out. rewrite Hrun. cbn [fst snd].
  now rewrite Hmk, Hw.
Qed.



Lemma occurrences_ctx W pdf_path image_dir min_dpi pages :
  forall page_index o,
  In o (occurrences W pdf_path image_dir min_dpi pages page_index) ->
  cx_pdf_path (oc_ctx o) = pdf_path
  /\ cx_image_dir (oc_ctx o) = image_dir
  /\ cx_min_dpi (oc_ctx o) = min_dpi.
Proof.
  induction pages as [|pg pages IH]; intros i o; simpl; [tauto|].
  intros [H|H]%in_app_or; [|now apply (IH (i + 1))].
  clear IH. revert H. generalize 0.
  induction (annots pg) as [|a chain IHc]; intros n; simpl; [tauto|].
  intros [<-|H]; [now simpl|]. now apply (IHc _ H).
Qed.

Lemma next_rect_index_count W n a :
  next_rect_index W n a = n + (if takes_rect_branch W a then 1 else 0).
Proof.
  unfold next_rect_index, takes_rect_branch.
  destruct (branch_of W _); lia.
Qed.

Lemma chain_occurrence_position W cx chain : forall n o,
  In o (chain_occurrences W cx n chain) ->
  exists pre post,
    chain = pre ++ oc_annot o :: post
    /\ oc_ctx o = cx
    /\ oc_index o
       = n + Z.of_nat (length (List.filter (takes_rect_branch W) pre)).
Proof.
  induction chain as [|a chain IH]; intros n o; simpl; [tauto|].
  intros [<-|H].
  - exists [], chain. simpl. repeat split. lia.
  - destruct (IH _ _ H) as (pre & post & -> & Hcx & Hidx).
    exists (a :: pre), post. repeat split; [exact Hcx|].
    rewrite Hidx, next_rect_index_count. simpl.
    destruct (takes_rect_branch W a); simpl length; lia.
Qed.

(** Where an occurrence sits: on the page with the index [cx_page_index],
    after [oc_index] annotations of that page that took the branch of
    rectangles and circles. *)
Lemma occurrence_position W pdf_path image_dir min_dpi pages :
  forall page_index o,
    In o (occurrences W pdf_path image_dir min_dpi pages page_index) ->
    exists i pg pre post,
      pages !! i = Some pg
      /\ annots pg = pre ++ oc_annot o :: post
      /\ cx_page (oc_ctx o) = pg
      /\ cx_page_index (oc_ctx o) = page_index + Z.of_nat i
      /\ oc_index o
         = Z.of_nat (length (List.filter (takes_rect_branch W) pre)).
Proof.
  induction pages as [|pg pages IH]; intros idx o; simpl; [tauto|].
  intros [H|H]%in_app_or.
  - apply chain_occurrence_position in H as (pre & post & Hch & Hcx & Hidx).
    exists 0%nat, pg, pre, post. rewrite Hcx. simpl.
    repeat split; try assumption; lia.
  - destruct (IH _ _ H) as (i & pg' & pre & post & Hl & Hch & Hpg & Hi & Hidx).
    exists (S i), pg', pre, post. simpl.
    repeat split; try assumption; lia.
Qed.

Lemma save_outcome_success W pg r out_dir base_name dpi pix :
  makedirs_ok W out_dir = true ->
  get_pixmap pg r dpi = Ok pix ->
  pix_save_ok W (image_file W out_dir base_name) = true ->
  save_outcome W pg r out_dir base_name dpi
  = (Some (image_file W out_dir base_name),
     [EvMakedirs out_dir; EvSavePng (image_file W out_dir base_name) pix]).
Proof.
  intros Hmk Hpix Hsave. unfold save_outcome. now rewrite Hmk, Hpix, Hsave.
Qed.

Lemma save_outcome_path W pg r out_dir base_name dpi p :
  fst (save_outcome W pg r out_dir base_name dpi) = Some p ->
  p = image_file W out_dir base_name
  /\ exists pix,
       snd (save_outcome W pg r out_dir base_name dpi)
       = [EvMakedirs out_dir; EvSavePng p pix]
       /\ get_pixmap pg r dpi = Ok pix.
Proof.
  unfold save_outcome. destruct (makedirs_ok W out_dir); [|discriminate].
  destruct (get_pixmap pg r dpi) as [pix|e]; [|discriminate].
  destruct (pix_save_ok W _); [|discriminate].
  simpl. intros [= <-]. split; [reflexivity|]. now exists pix.
Qed.

Lemma rect_contribution W o c t :
  branch_of W (subtype_of (a_type (oc_annot o))) = BrRect ->
  rgb_from_annot (oc_annot o) = Ok c ->
  get_text (cx_page (oc_ctx o)) (a_rect (oc_annot o)) = Ok t ->
  let out := save_outcome W (cx_page (oc_ctx o)) (a_rect (oc_annot o))
               (cx_image_dir (oc_ctx o))
               (rect_base_name W (oc_ctx o) (oc_index o + 1))
               (cx_min_dpi (oc_ctx o)) in
  occurrence_delta W o
  = {| d_highlight := None; d_note := None;
       d_rect := Some (categorize_color c,
                       {| image_path := fst out;
                          rect_text := if truthy_str (strip t)
                                       then Some (strip t) else None |});
       d_events := snd out |}.
Proof.
  intros Hb Hc Ht. unfold occurrence_delta, annot_delta, rect_delta.
  now rewrite Hc, Hb, Ht.
Qed.

Lemma scanned_fs W occs s o e :
  scanned W occs init_state s ->
  In o occs -> In e (d_events (occurrence_delta W o)) -> In e (fs s).
Proof.
  intros (_ & _ & _ & H) Ho He. rewrite H. simpl.
  apply in_flat_map. now exists o.
Qed.

Lemma colour_ok_In occs o :
  forallb colour_ok occs = true -> In o occs ->
  exists c, rgb_from_annot (oc_annot o) = Ok c.
Proof.
  intros H Ho. rewrite forallb_forall in H. specialize (H o Ho).
  unfold colour_ok in H. destruct (rgb_from_annot (oc_annot o)) as [c|];
    [now exists c|discriminate].
Qed.

(** ** Rectangles and circles *)

Lemma truthy_str_nonempty s : s <> [] -> truthy_str s = true.
Proof. now destruct s. Qed.

(** C6, as the claim states it, fails where the image cannot be saved: the
    document below holds one square annotation, [pix.save] fails, the run
    succeeds, no PNG is saved and the report holds no image link. *)
Lemma rect_without_image :
  let doc := [Sample.mk_page [Sample.square_r]] in
  let W := Sample.world_nosave doc in
  let res := run W Sample.pdf None (lit "images") 144 in
  codes_distinct W = true
  /\ subtype_of (a_type Sample.square_r) = PInt (PDF_ANNOT_SQUARE W)
  /\ get_text (Sample.mk_page [Sample.square_r]) (a_rect Sample.square_r)
     = Ok (lit " Hello  world ")
  /\ fst res = Ok (lit "/docs/my paper.annotations.md")
  /\ fs (snd res)
     = [ EvMakedirs (lit "/docs/images");
         EvMakedirs (lit "/docs");
         EvWriteText (lit "/docs/my paper.annotations.md")
           (join NL [ lit "# Annotations for my paper"; [];
                      lit "## Rectangles / Figures"; [];
                      lit "### 红色（问题）" ] ++ NL) ]
  /\ build_lines (lit "my paper") (snd res)
     = [ lit "# Annotations for my paper"; [];
         lit "## Rectangles / Figures"; [];
         lit "### 红色（问题）"; []; [] ].
Proof. vm_compute. repeat split. Qed.

Lemma chain_occurrence_at W cx pre a post : forall n,
  In {| oc_ctx := cx;
        oc_index := n + Z.of_nat (length (List.filter (takes_rect_branch W) pre));
        oc_annot := a |}
     (chain_occurrences W cx n (pre ++ a :: post)).
Proof.
  induction pre as [|b pre IH]; intros n.
  - left. cbn [List.filter length]. f_equal. lia.
  - right. cbn [app chain_occurrences].
    replace (n + Z.of_nat (length (List.filter (takes_rect_branch W) (b :: pre))))
      with (next_rect_index W n b
            + Z.of_nat (length (List.filter (takes_rect_branch W) pre)));
      [apply IH|].
    rewrite next_rect_index_count. cbn [List.filter].
    destruct (takes_rect_branch W b); cbn [length]; lia.
Qed.

(** The annotation that follows [pre] on the page with the index [i] is an
    occurrence of the scan, met when [rect_index] is the number of
    rectangles and circles of [pre]. *)
Lemma occurrence_at W pdf_path image_dir min_dpi pages :
  forall page_index (i : nat) pg pre a post,
    pages !! i = Some pg ->
    annots pg = pre ++ a :: post ->
    In {| oc_ctx := {| cx_pdf_path := pdf_path; cx_image_dir := image_dir;
                       cx_min_dpi := min_dpi; cx_page := pg;
                       cx_page_index := page_index + Z.of_nat i |};
          oc_index := Z.of_nat (length (List.filter (takes_rect_branch W) pre));
          oc_annot := a |}
       (occurrences W pdf_path image_dir min_dpi pages page_index).
Proof.
  induction pages as [|pg0 pages IH]; intros idx i pg pre a post Hi Hch;
    [discriminate|].
  cbn [occurrences]. apply in_or_app. destruct i as [|i].
  - left. injection Hi as ->. rewrite Hch.
    replace (idx + Z.of_nat 0) with idx by lia.
    exact (chain_occurrence_at W _ pre a post 0).
  - right. replace (idx + Z.of_nat (S i)) with (idx + 1 + Z.of_nat i) by lia.
    exact (IH (idx + 1) i pg pre a post Hi Hch).
Qed.

(** What a rectangle or circle whose image is saved leaves behind, in
    terms of its occurrence. *)
Lemma rect_occurrence_saved W pdf_path image_dir min_dpi doc s0 o t pix :
  page_loop W pdf_path image_dir min_dpi doc 0 init_state = (Ok tt, s0) ->
  In o (occurrences W pdf_path image_dir min_dpi doc 0) ->
  branch_of W (subtype_of (a_type (oc_annot o))) = BrRect ->
  let path :=
    path_join (os_path_ W) image_dir
      (rect_base_name W (oc_ctx o) (oc_index o + 1) ++ lit ".png") in
  get_text (cx_page (oc_ctx o)) (a_rect (oc_annot o)) = Ok t ->
  makedirs_ok W image_dir = true ->
  get_pixmap (cx_page (oc_ctx o)) (a_rect (oc_annot o)) min_dpi = Ok pix ->
  pix_save_ok W path = true ->
  In (EvSavePng path pix) (fs s0)
  /\ In (image_link path) (rects_section (dd_get (rect_groups s0))).
Proof.
  intros Hloop Hin Hb path Ht Hmk Hpix Hsave.
  apply page_loop_complete in Hloop as [Hcol Hsc].
  destruct (colour_ok_In _ _ Hcol Hin) as [c Hc].
  destruct (occurrences_ctx _ _ _ _ _ _ _ Hin) as (Hp & Hd & Hdpi).
  pose proof (rect_contribution W o c t Hb Hc Ht) as Hdelta.
  cbv zeta in Hdelta. rewrite Hd, Hdpi in Hdelta.
  rewrite (save_outcome_success W _ _ image_dir _ min_dpi pix Hmk Hpix Hsave)
    in Hdelta.
  cbn [fst snd] in Hdelta.
  change (image_file W image_dir
            (rect_base_name W (oc_ctx o) (oc_index o + 1))) with path in *.
  assert (Hpath : path <> []).
  { apply path_join_nonempty. intros H. apply app_eq_nil in H as [_ H].
    discriminate. }
  split.
  - apply (scanned_fs W _ _ o _ Hsc Hin). rewrite Hdelta. cbn [d_events].
    right. now left.
  - apply (rects_section_item _ (categorize_color c)
             {| image_path := Some path;
                rect_text := if truthy_str (strip t) then Some (strip t)
                             else None |}).
    + apply categorize_color_key.
    + rewrite (scanned_rects _ _ _ _ Hsc).
      apply (proj2 (group_of_In _ _ _)). apply in_map_iff.
      exists o. split; [|exact Hin]. now rewrite Hdelta.
    + cbn [image_path truthy_opt_str]. now apply truthy_str_nonempty.
Qed.

Lemma replace_char_same old new s :
  ~ In old s -> replace_char old new s = s.
Proof.
  unfold replace_char. induction s as [|c s IH]; intros H; [reflexivity|].
  cbn [flat_map]. destruct (c =? old)%N eqn:E.
  - exfalso. apply H. left. now apply N.eqb_eq in E.
  - cbn [app]. f_equal. apply IH. intros Hin. apply H. now right.
Qed.

(** C6, amended. In a run that returns, with the type codes of the library
    pairwise distinct: for every rectangle or circle annotation (its type
    code is the square or the circle code of the library, not 0) whose
    region text is read without an exception, when the image directory can
    be made, the pixmap of the annotation's rectangle is rendered and its
    save succeeds, the pixmap is saved in the image directory under the
    sanitised base name "<pdfname>_p<page>_rect<n>" with the extension
    .png, where <page> is the page index plus one and <n> counts the
    rectangles and circles of the page up to this one; the Rectangles /
    Figures section, the last section of the Markdown written, holds the
    image link of that path with every backslash replaced by a slash, which
    is the link of the saved file when the path holds no backslash. *)
Theorem rect_image_saved_and_linked (W : world) (pdf_path : str)
    (out_md : option str) (img_dir : str) (min_dpi : Z) (out : str)
    (s : state) (doc : document) (i : nat) (pg : page)
    (pre post : list annot) (a : annot) (t : str) (pix : pixmap) :
  codes_distinct W = true ->
  run W pdf_path out_md img_dir min_dpi = (Ok out, s) ->
  fitz_open W pdf_path = Ok doc ->
  doc !! i = Some pg ->
  annots pg = pre ++ a :: post ->
  is_rect W a = true ->
  let image_dir := image_dir_of W out img_dir in
  let base :=
    make_safe_filename
      [ title_of W pdf_path;
        lit "p" ++ str_of_int (Z.of_nat i + 1);
        lit "rect" ++ str_of_int (rect_number W pre) ] in
  let path := path_join (os_path_ W) image_dir (base ++ lit ".png") in
  get_text pg (a_rect a) = Ok t ->
  makedirs_ok W image_dir = true ->
  get_pixmap pg (a_rect a) min_dpi = Ok pix ->
  pix_save_ok W path = true ->
  In (EvSavePng path pix) (fs s)
  /\ In (lit "![](" ++ replace_char 92%N (lit "/") path ++ lit ")")
       (rects_section (dd_get (rect_groups s)))
  /\ (~ In 92%N path ->
      In (lit "![](" ++ path ++ lit ")")
         (rects_section (dd_get (rect_groups s))))
  /\ (exists before,
        build_lines (title_of W pdf_path) s
        = before ++ rects_section (dd_get (rect_groups s)))
  /\ In (EvWriteText out (build_markdown (title_of W pdf_path) s)) (fs s).
Proof.
  intros Hcodes Hrun Hopen Hi Hch Hk image_dir base path Ht Hmk Hpix Hsave.
  apply run_inv in Hrun
    as (_ & _ & _ & _ & doc' & s0 & Hopen' & Hloop & ->).
  rewrite Hopen in Hopen'. injection Hopen' as <-.
  fold image_dir in Hloop.
  pose proof (occurrence_at W pdf_path image_dir min_dpi doc 0 i pg pre a post
                Hi Hch) as Hin.
  set (o := {| oc_ctx := {| cx_pdf_path := pdf_path;
                            cx_image_dir := image_dir;
                            cx_min_dpi := min_dpi; cx_page := pg;
                            cx_page_index := 0 + Z.of_nat i |};
               oc_index := Z.of_nat
                             (length (List.filter (takes_rect_branch W) pre));
               oc_annot := a |}) in Hin.
  assert (Hb : branch_of W (subtype_of (a_type (oc_annot o))) = BrRect).
  { cbn [o oc_annot]. rewrite branch_of_kind.
    destruct (rect_not_highlight_note W a Hcodes Hk) as [-> ->].
    now rewrite Hk. }
  assert (Hbase : rect_base_name W (oc_ctx o) (oc_index o + 1) = base).
  { unfold rect_base_name, base, title_of, rect_number.
    cbn [o oc_ctx oc_index cx_pdf_path cx_page_index].
    rewrite (List.filter_ext _ _ (fun b => takes_rect_branch_kind W b Hcodes)).
    now replace (0 + Z.of_nat i + 1) with (Z.of_nat i + 1) by lia. }
  pose proof (rect_occurrence_saved W pdf_path image_dir min_dpi doc s0 o t pix
                Hloop Hin Hb) as Hsaved.
  cbv zeta in Hsaved. rewrite Hbase in Hsaved. fold path in Hsaved.
  destruct (Hsaved Ht Hmk Hpix Hsave) as [Hpng Hlink].
  apply page_loop_complete in Hloop as [_ Hsc].
  split; [|split; [|split; [|split]]].
  - unfold log_event. cbn [fs]. apply in_or_app. left. apply in_or_app. now left.
  - exact Hlink.
  - intros Hbs. unfold image_link in Hlink.
    now rewrite (replace_char_same _ _ _ Hbs) in Hlink.
  - exists (title_lines (title_of W pdf_path)
            ++ highlights_section (dd_get (highlight_groups s0))
            ++ notes_section (notes_blocks s0)).
    rewrite <- !app_assoc.
    apply (build_lines_spec _ (log_event _ (log_event _ s0))).
    intros k. exact (scanned_clean _ _ _ k Hsc).
  - unfold log_event at 2. cbn [fs]. apply in_or_app. right. now left.
Qed.

(** ** The result of a run *)

Lemma save_outcome_no_write W pg r out_dir base_name dpi :
  List.filter is_write_text (snd (save_outcome W pg r out_dir base_name dpi))
  = [].
Proof.
  unfold save_outcome. destruct (makedirs_ok W out_dir); [|reflexivity].
  destruct (get_pixmap pg r dpi); [|reflexivity].
  now destruct (pix_save_ok W _).
Qed.

Lemma delta_no_write W o :
  List.filter is_write_text (d_events (occurrence_delta W o)) = [].
Proof.
  unfold occurrence_delta, annot_delta, markup_delta, note_delta, rect_delta.
  destruct (rgb_from_annot (oc_annot o)); [|reflexivity].
  destruct (branch_of _ _); try reflexivity.
  - destruct (extract_highlight_text _ _ _); [|reflexivity].
    now destruct (truthy_str _).
  - destruct (a_info _); [|reflexivity]. now destruct (truthy_str _).
  - destruct (get_text _ _); [|reflexivity]. apply save_outcome_no_write.
Qed.

Lemma scanned_no_write W occs s :
  scanned W occs init_state s -> List.filter is_write_text (fs s) = [].
Proof.
  intros (_ & _ & _ & H). rewrite H. simpl. clear H.
  induction occs as [|o occs IH]; simpl; [reflexivity|].
  now rewrite List.filter_app, delta_no_write, IH.
Qed.

(** C7, as the claim states it, fails for a file that exists and that the
    PDF library cannot open, and for a document with an annotation whose
    colour has one component: the exception leaves the function and no
    Markdown is written. *)
Lemma existing_file_without_markdown :
  (isfile Sample.world_noopen Sample.pdf = true
   /\ run Sample.world_noopen Sample.pdf None (lit "images") 144
      = (Raise LibraryError, init_state))
  /\ (let W := Sample.world_of [Sample.mk_page [Sample.highlight_gray]] in
      isfile W Sample.pdf = true
      /\ run W Sample.pdf None (lit "images") 144
         = (Raise ValueError, init_state)).
Proof. vm_compute. repeat split. Qed.

(** C7, amended. When [pdf_path] does not name an existing file the run
    raises [FileNotFoundError] and leaves the file system untouched. When it
    does, the library opens the document, the colour of every annotation is
    read without an exception, and the output directory and file can be
    written, the run writes exactly one Markdown file, at [out_md] when
    given and else at the PDF path without its extension followed by
    ".annotations.md", and returns that path. *)
Theorem export_writes_one_markdown (W : world) (pdf_path : str)
    (out_md : option str) (img_dir : str) (min_dpi : Z) :
  let out :=
    match out_md with
    | Some o => o
    | None => fst (splitext (os_path_ W) pdf_path) ++ lit ".annotations.md"
    end in
  (isfile W pdf_path = false ->
   run W pdf_path out_md img_dir min_dpi = (Raise FileNotFoundError, init_state)
   /\ fs init_state = [])
  /\ (forall doc,
        isfile W pdf_path = true ->
        fitz_open W pdf_path = Ok doc ->
        (forall o,
           In o (occurrences W pdf_path (image_dir_of W out img_dir) min_dpi doc 0) ->
           is_ok (rgb_from_annot (oc_annot o)) = true) ->
        makedirs_ok W (or_str (dirname (os_path_ W) out) (lit ".")) = true ->
        write_ok W out = true ->
        exists s md,
          run W pdf_path out_md img_dir min_dpi = (Ok out, s)
          /\ List.filter is_write_text (fs s) = [EvWriteText out md]
          /\ md = build_markdown (title_of W pdf_path) s).
Proof.
  intros out.
  assert (Hout : out = out_path_of W pdf_path out_md)
    by (unfold out, out_path_of, default_out_md; now destruct out_md).
  split.
  - intros Hf. split; [|reflexivity].
    unfold run, export_pdf_annotations, export_markdown, bindM.
    now rewrite Hf.
  - intros doc Hf Hopen Hcol Hmk Hw.
    assert (Hall : forallb colour_ok
                     (occurrences W pdf_path (image_dir_of W out img_dir)
                        min_dpi doc 0) = true)
      by (apply forallb_forall; exact Hcol).
    rewrite Hout in Hall, Hmk, Hw.
    destruct (run_ok W pdf_path out_md img_dir min_dpi doc Hf Hopen Hall Hmk Hw)
      as (s0 & Hloop & Hrun).
    apply page_loop_complete in Hloop as [_ Hsc].
    eexists. eexists. rewrite Hout. split; [exact Hrun|]. split; [|reflexivity].
    unfold log_event. cbn [fs]. rewrite !List.filter_app.
    rewrite (scanned_no_write _ _ _ Hsc). reflexivity.
Qed.

(** ** Observations decide the report *)

Lemma obs_highlight_spec W o :
  d_highlight (occurrence_delta W o) = obs_highlight (observe W o).
Proof.
  unfold occurrence_delta, obs_highlight, observe, annot_delta, markup_delta,
    note_delta, rect_delta. cbn [ob_color ob_seen].
  destruct (rgb_from_annot (oc_annot o)); [|reflexivity].
  destruct (branch_of _ _); try reflexivity.
  - destruct (extract_highlight_text _ _ _); [|reflexivity].
    now destruct (truthy_str _).
  - destruct (a_info _); [|reflexivity]. now destruct (truthy_str _).
  - now destruct (get_text _ _).
Qed.

Lemma obs_note_spec W o :
  d_note (occurrence_delta W o) = obs_note (observe W o).
Proof.
  unfold occurrence_delta, obs_note, observe, annot_delta, markup_delta,
    note_delta, rect_delta. cbn [ob_color ob_seen].
  destruct (rgb_from_annot (oc_annot o)); [|reflexivity].
  destruct (branch_of _ _); try reflexivity.
  - destruct (extract_highlight_text _ _ _); [|reflexivity].
    now destruct (truthy_str _).
  - destruct (a_info _); [|reflexivity]. simpl. now destruct (truthy_str _).
  - now destruct (get_text _ _).
Qed.

Lemma obs_image_spec W o :
  entry_path (d_rect (occurrence_delta W o)) = obs_image (observe W o).
Proof.
  unfold occurrence_delta, obs_image, observe, annot_delta, markup_delta,
    note_delta, rect_delta, entry_path. cbn [ob_color ob_seen].
  destruct (rgb_from_annot (oc_annot o)); [|reflexivity].
  destruct (branch_of _ _); try reflexivity.
  - destruct (extract_highlight_text _ _ _); [|reflexivity].
    now destruct (truthy_str _).
  - destruct (a_info _); [|reflexivity]. now destruct (truthy_str _).
  - now destruct (get_text _ _).
Qed.

Lemma group_of_paths k contribs :
  map image_path (group_of k contribs) = group_of k (map entry_path contribs).
Proof.
  unfold group_of. induction contribs as [|c l IH]; [reflexivity|].
  destruct c as [[k' it]|]; cbn [map omap list_omap entry_path]; [|exact IH].
  destruct (String.eqb k' k); cbn [map]; [now rewrite IH|exact IH].
Qed.

Lemma rect_items_paths items :
  flat_map rect_item_lines items = flat_map path_lines (map image_path items).
Proof.
  induction items as [|it items IH]; [reflexivity|].
  cbn [flat_map map]. now rewrite IH.
Qed.

Lemma rect_subsection_paths k items :
  rect_subsection k items
  = match map image_path items with
    | [] => []
    | _ => [lit "### " ++ color_title k; []]
           ++ flat_map path_lines (map image_path items)
    end.
Proof.
  unfold rect_subsection. destruct items as [|it items]; [reflexivity|].
  now rewrite rect_items_paths.
Qed.

Lemma rects_section_paths g1 g2 :
  (forall k, map image_path (g1 k) = map image_path (g2 k)) ->
  rects_section g1 = rects_section g2.
Proof.
  intros H. unfold rects_section.
  assert (E : forall k, truthy_list (g1 k) = truthy_list (g2 k)).
  { intros k. specialize (H k). destruct (g1 k), (g2 k); try reflexivity;
      discriminate. }
  replace (forallb (fun k => negb (truthy_list (g1 k))) order)
    with (forallb (fun k => negb (truthy_list (g2 k))) order)
    by (cbn [order forallb]; now rewrite !E).
  destruct (forallb _ order); [reflexivity|]. f_equal.
  apply flat_map_ext. intros k. now rewrite !rect_subsection_paths, H.
Qed.

Lemma export_markdown_inv W pdf_path out_md img_dir min_dpi out md s :
  export_markdown W pdf_path out_md img_dir min_dpi init_state
  = (Ok (out, md), s) ->
  exists doc,
    fitz_open W pdf_path = Ok doc
    /\ page_loop W pdf_path
         (image_dir_of W (out_path_of W pdf_path out_md) img_dir) min_dpi doc 0
         init_state = (Ok tt, s)
    /\ md = build_markdown (title_of W pdf_path) s.
Proof.
  unfold export_markdown.
  destruct (isfile W pdf_path); cbn [negb]; [|discriminate].
  unfold bindM, lift, get_state, ret.
  destruct (fitz_open W pdf_path) as [doc|e]; [|discriminate].
  destruct (page_loop W pdf_path _ min_dpi doc 0 init_state) as [[[]|e] s0] eqn:E;
    [|discriminate].
  intros [= <- <- <-]. now exists doc.
Qed.

Lemma export_markdown_ok W pdf_path out_md img_dir min_dpi doc s :
  isfile W pdf_path = true ->
  fitz_open W pdf_path = Ok doc ->
  page_loop W pdf_path
    (image_dir_of W (out_path_of W pdf_path out_md) img_dir) min_dpi doc 0
    init_state = (Ok tt, s) ->
  export_markdown W pdf_path out_md img_dir min_dpi init_state
  = (Ok (out_path_of W pdf_path out_md, build_markdown (title_of W pdf_path) s),
     s).
Proof.
  intros Hf Hopen Hloop. unfold export_markdown. rewrite Hf. cbn [negb].
  unfold bindM, lift, get_state, ret. now rewrite Hopen, Hloop.
Qed.

Lemma colour_ok_observe W o : colour_ok o = is_ok (ob_color (observe W o)).
Proof. reflexivity. Qed.

Lemma map_cons_eq {A B} (f g : A -> B) a1 l1 a2 l2 :
  map f (a1 :: l1) = map g (a2 :: l2) -> f a1 = g a2 /\ map f l1 = map g l2.
Proof. intros [= H1 H2]. now split. Qed.

Lemma forallb_colour_trace W1 W2 occs1 occs2 :
  map (observe W1) occs1 = map (observe W2) occs2 ->
  forallb colour_ok occs1 = forallb colour_ok occs2.
Proof.
  revert occs2. induction occs1 as [|o1 l1 IH]; intros [|o2 l2] H;
    try discriminate; [reflexivity|].
  apply map_cons_eq in H as [Ho Hl]. cbn [forallb].
  rewrite (colour_ok_observe W1 o1), (colour_ok_observe W2 o2), Ho.
  now rewrite (IH _ Hl).
Qed.

Lemma contribs_of_trace {A} (f : observation -> A) W1 W2 occs1 occs2 :
  map (observe W1) occs1 = map (observe W2) occs2 ->
  map (fun o => f (observe W1 o)) occs1 = map (fun o => f (observe W2 o)) occs2.
Proof.
  intros H. rewrite <- (map_map (observe W1) f), <- (map_map (observe W2) f).
  now rewrite H.
Qed.

Lemma scanned_notes W occs s :
  scanned W occs init_state s ->
  notes_blocks s = flat_map (fun o => option_list (d_note (occurrence_delta W o))) occs.
Proof. now intros (_ & H & _). Qed.

(** The lines of a report are decided by the title and the observations. *)
Lemma build_lines_of_trace W1 W2 occs1 occs2 s1 s2 title :
  scanned W1 occs1 init_state s1 ->
  scanned W2 occs2 init_state s2 ->
  map (observe W1) occs1 = map (observe W2) occs2 ->
  build_lines title s1 = build_lines title s2.
Proof.
  intros H1 H2 Htr.
  rewrite !build_lines_spec
    by (intros k; eapply scanned_clean; eassumption).
  f_equal. f_equal; [|f_equal].
  - unfold highlights_section. cbn [order forallb flat_map].
    rewrite !(scanned_highlights _ _ _ _ H1), !(scanned_highlights _ _ _ _ H2).
    rewrite (map_ext _ _ (obs_highlight_spec W1)).
    rewrite (map_ext _ _ (obs_highlight_spec W2)).
    now rewrite (contribs_of_trace obs_highlight _ _ _ _ Htr).
  - rewrite (scanned_notes _ _ _ H1), (scanned_notes _ _ _ H2).
    rewrite !flat_map_concat_map.
    rewrite (map_ext _ (fun o => option_list (obs_note (observe W1 o))))
      by (intros o; now rewrite obs_note_spec).
    rewrite (map_ext (fun o => option_list (d_note (occurrence_delta W2 o)))
               (fun o => option_list (obs_note (observe W2 o))))
      by (intros o; now rewrite obs_note_spec).
    now rewrite (contribs_of_trace (fun ob => option_list (obs_note ob))
                   _ _ _ _ Htr).
  - apply rects_section_paths. intros k.
    rewrite (scanned_rects _ _ _ _ H1), (scanned_rects _ _ _ _ H2).
    rewrite !group_of_paths, !map_map.
    rewrite (map_ext _ _ (obs_image_spec W1)).
    rewrite (map_ext _ _ (obs_image_spec W2)).
    now rewrite (contribs_of_trace obs_image _ _ _ _ Htr).
Qed.

(** C2, as the claim states it, fails: the title line of the report comes
    from the name of the PDF, not from its annotations. Two runs on the same
    document under two names observe the same annotations and produce
    different Markdown. *)
Lemma same_trace_different_markdown :
  let doc := [Sample.mk_page [Sample.highlight_y; Sample.free_text]] in
  let W := Sample.world_of doc in
  let run_a := export_markdown W (lit "/docs/a.pdf") (Some (lit "/docs/out.md"))
                 (lit "images") 144 init_state in
  let run_b := export_markdown W (lit "/docs/b.pdf") (Some (lit "/docs/out.md"))
                 (lit "images") 144 init_state in
  trace W (lit "/docs/a.pdf") (Some (lit "/docs/out.md")) (lit "images") 144 doc
  = trace W (lit "/docs/b.pdf") (Some (lit "/docs/out.md")) (lit "images") 144 doc
  /\ (exists md_a md_b,
        fst run_a = Ok (lit "/docs/out.md", md_a)
        /\ fst run_b = Ok (lit "/docs/out.md", md_b)
        /\ md_a <> md_b).
Proof.
  split; [vm_compute; reflexivity|].
  eexists. eexists. split; [vm_compute; reflexivity|].
  split; [vm_compute; reflexivity|]. discriminate.
Qed.

(** C2, amended. Two runs on PDFs with the same title (base name without
    extension) that observe the same sequence of annotations (subtypes,
    colours, extracted texts, note contents and image-save results, in the
    same order) generate the same Markdown string: when the first run
    generates [md], so does the second, whatever else differs between the
    two worlds, documents and arguments. *)
Theorem markdown_determined_by_observations (W1 W2 : world)
    (pdf1 pdf2 : str) (out_md1 out_md2 : option str) (img_dir1 img_dir2 : str)
    (dpi1 dpi2 : Z) (doc1 doc2 : document) (out1 md : str) (s1 : state) :
  export_markdown W1 pdf1 out_md1 img_dir1 dpi1 init_state
  = (Ok (out1, md), s1) ->
  fitz_open W1 pdf1 = Ok doc1 ->
  isfile W2 pdf2 = true ->
  fitz_open W2 pdf2 = Ok doc2 ->
  title_of W1 pdf1 = title_of W2 pdf2 ->
  trace W1 pdf1 out_md1 img_dir1 dpi1 doc1
  = trace W2 pdf2 out_md2 img_dir2 dpi2 doc2 ->
  exists out2 s2,
    export_markdown W2 pdf2 out_md2 img_dir2 dpi2 init_state
    = (Ok (out2, md), s2).
Proof.
  intros Hrun1 Hopen1 Hf2 Hopen2 Htitle Htr.
  apply export_markdown_inv in Hrun1 as (doc & Hopen & Hloop1 & ->).
  rewrite Hopen1 in Hopen. injection Hopen as <-.
  apply page_loop_complete in Hloop1 as [Hcol1 Hsc1].
  unfold trace in Htr.
  rewrite (forallb_colour_trace _ _ _ _ Htr) in Hcol1.
  destruct (page_loop_ok W2 _ _ _ _ 0 init_state Hcol1) as (s2 & Hloop2 & Hsc2).
  exists (out_path_of W2 pdf2 out_md2), s2.
  rewrite (export_markdown_ok _ _ _ _ _ _ _ Hf2 Hopen2 Hloop2).
  unfold build_markdown. rewrite Htitle.
  now rewrite (build_lines_of_trace _ _ _ _ _ _ _ Hsc1 Hsc2 Htr).
Qed.

Lemma rgb_from_annot_default_witness :
  is_ok (a_colors Sample.highlight_y) = false
  /\ rgb_from_annot Sample.highlight_y = Ok (255, 212, 0).
Proof.
  split; [reflexivity|].
  apply (rgb_from_annot_default Sample.highlight_y). left. reflexivity.
Defined.

Lemma report_sections_by_colour_witness :
  page_loop (Sample.world_of Sample.doc1) Sample.pdf Witness.image_dir 144
    Sample.doc1 0 init_state = (Ok tt, Witness.scan_state)
  /\ (highlight_subsection "red"
        (dd_get (highlight_groups Witness.scan_state) "red") = []
      <-> dd_get (highlight_groups Witness.scan_state) "red" = []).
Proof.
  assert (H : page_loop (Sample.world_of Sample.doc1) Sample.pdf
                Witness.image_dir 144 Sample.doc1 0 init_state
              = (Ok tt, Witness.scan_state))
    by (vm_compute; reflexivity).
  split; [exact H|].
  exact (proj1 (proj2 (report_sections_by_colour _ _ _ _ _ _ [] H)) "red"%string).
Defined.


Lemma rect_image_saved_and_linked_witness :
  let W := Sample.world_of Sample.doc1 in
  let res := run W Sample.pdf None (lit "images") 144 in
  let out := lit "/docs/my paper.annotations.md" in
  let pg := Sample.mk_page [Sample.strikeout_r; Sample.square_r] in
  let path := lit "/docs/images/mypaper_p2_rect1.png" in
  codes_distinct W = true
  /\ run W Sample.pdf None (lit "images") 144 = (Ok out, snd res)
  /\ fitz_open W Sample.pdf = Ok Sample.doc1
  /\ Sample.doc1 !! 1%nat = Some pg
  /\ annots pg = [Sample.strikeout_r] ++ Sample.square_r :: []
  /\ is_rect W Sample.square_r = true
  /\ makedirs_ok W (image_dir_of W out (lit "images")) = true
  /\ pix_save_ok W path = true
  /\ In (EvSavePng path [137; 80; 78; 71]%N) (fs (snd res))
  /\ In (lit "![](/docs/images/mypaper_p2_rect1.png)")
        (rects_section (dd_get (rect_groups (snd res)))).
Proof.
  intros W res out pg path.
  assert (H1 : run W Sample.pdf None (lit "images") 144 = (Ok out, snd res))
    by (vm_compute; reflexivity).
  assert (H2 : fitz_open W Sample.pdf = Ok Sample.doc1) by reflexivity.
  assert (H5 : makedirs_ok W (image_dir_of W out (lit "images")) = true)
    by reflexivity.
  assert (H6 : pix_save_ok W path = true) by reflexivity.
  assert (H7 : ~ In 92%N path) by (vm_compute; intuition discriminate).
  repeat (split; [first [assumption | reflexivity]|]).
  pose proof (rect_image_saved_and_linked W Sample.pdf None (lit "images") 144
                out (snd res) Sample.doc1 1%nat pg [Sample.strikeout_r] []
                Sample.square_r (lit " Hello  world ") [137; 80; 78; 71]%N
                eq_refl H1 H2 eq_refl eq_refl eq_refl eq_refl H5 eq_refl H6)
    as (Ha & _ & Hc & _).
  split; [exact Ha|exact (Hc H7)].
Defined.

Lemma export_writes_one_markdown_witness :
  let W := Sample.world_of Sample.doc1 in
  let out := lit "/docs/my paper.annotations.md" in
  (isfile Sample.world_nofile Sample.pdf = false
   /\ run Sample.world_nofile Sample.pdf None (lit "images") 144
      = (Raise FileNotFoundError, init_state))
  /\ (isfile W Sample.pdf = true
      /\ fitz_open W Sample.pdf = Ok Sample.doc1
      /\ forallb colour_ok
           (occurrences W Sample.pdf (image_dir_of W out (lit "images")) 144
              Sample.doc1 0) = true
      /\ makedirs_ok W (or_str (dirname (os_path_ W) out) (lit ".")) = true
      /\ write_ok W out = true
      /\ exists s md,
           run W Sample.pdf None (lit "images") 144 = (Ok out, s)
           /\ List.filter is_write_text (fs s) = [EvWriteText out md]
           /\ md = build_markdown (title_of W Sample.pdf) s).
Proof.
  intros W out. split.
  - split; [reflexivity|].
    exact (proj1 (proj1 (export_writes_one_markdown Sample.world_nofile
                           Sample.pdf None (lit "images") 144) eq_refl)).
  - assert (Hc : forallb colour_ok
                   (occurrences W Sample.pdf (image_dir_of W out (lit "images"))
                      144 Sample.doc1 0) = true)
      by (vm_compute; reflexivity).
    repeat (split; [first [exact Hc | reflexivity]|]).
    refine (proj2 (export_writes_one_markdown W Sample.pdf None (lit "images")
                     144) Sample.doc1 eq_refl eq_refl _ eq_refl eq_refl).
    intros o Ho. change (colour_ok o = true).
    revert o Ho. apply forallb_forall.
    vm_compute. reflexivity.
Defined.

Lemma markdown_determined_by_observations_witness :
  let W := Sample.world_of Witness.notes_doc in
  let r1 := export_markdown W (lit "/docs/a.pdf") None (lit "images") 144
              init_state in
  r1 = (Ok (lit "/docs/a.annotations.md", Witness.md_of r1), snd r1)
  /\ fitz_open W (lit "/docs/a.pdf") = Ok Witness.notes_doc
  /\ isfile W (lit "/else/a.pdf") = true
  /\ fitz_open W (lit "/else/a.pdf") = Ok Witness.notes_doc
  /\ title_of W (lit "/docs/a.pdf") = title_of W (lit "/else/a.pdf")
  /\ trace W (lit "/docs/a.pdf") None (lit "images") 144 Witness.notes_doc
     = trace W (lit "/else/a.pdf") (Some (lit "/tmp/o.md")) (lit "img") 72
         Witness.notes_doc
  /\ exists out2 s2,
       export_markdown W (lit "/else/a.pdf") (Some (lit "/tmp/o.md")) (lit "img")
         72 init_state
       = (Ok (out2, Witness.md_of r1), s2).
Proof.
  intros W r1.
  assert (H1 : r1 = (Ok (lit "/docs/a.annotations.md", Witness.md_of r1),
                     snd r1))
    by (vm_compute; reflexivity).
  assert (H5 : title_of W (lit "/docs/a.pdf") = title_of W (lit "/else/a.pdf"))
    by (vm_compute; reflexivity).
  assert (H6 : trace W (lit "/docs/a.pdf") None (lit "images") 144
                 Witness.notes_doc
               = trace W (lit "/else/a.pdf") (Some (lit "/tmp/o.md")) (lit "img")
                   72 Witness.notes_doc)
    by (vm_compute; reflexivity).
  repeat (split; [first [assumption | reflexivity]|]).
  exact (markdown_determined_by_observations W W _ _ _ _ _ _ _ _
           Witness.notes_doc Witness.notes_doc _ _ _
           H1 eq_refl eq_refl eq_refl H5 H6).
Defined.

(* ===================================================================== *)
(** * Further properties *)
(* ===================================================================== *)

(** ** categorize_color: ties *)

Lemma categorize_step_first c seen st kv :
  first_inv c seen st -> first_inv c (seen ++ [kv]) (categorize_step c st kv).
Proof.
  destruct st as [k bd], kv as [k' p']. unfold first_inv, categorize_step.
  cbn [fst snd]. destruct bd as [d|]; cbn [lt_best].
  - intros (before & p & after & -> & -> & Hb & Ha).
    destruct (Z.ltb_spec (dist2 c p') (dist2 c p)); cbn [fst snd].
    + exists (before ++ (k, p) :: after), p', []. repeat split.
      * intros kv [Hkv|[<-|Hkv]]%in_app_or; cbn [snd].
        -- specialize (Hb kv Hkv). lia.
        -- exact H.
        -- specialize (Ha kv Hkv). lia.
      * intros kv [].
    + exists before, p, (after ++ [(k', p')]). repeat split.
      * now rewrite <- app_assoc.
      * exact Hb.
      * intros kv [Hkv|[<-|[]]]%in_app_or; cbn [snd]; [now apply Ha|lia].
  - intros ->. exists [], p', []. repeat split; intros kv [].
Qed.

Lemma categorize_loop_first c items : forall seen st,
  first_inv c seen st -> first_inv c (seen ++ items) (categorize_loop c items st).
Proof.
  induction items as [|kv items IH]; intros seen st H; simpl.
  - now rewrite app_nil_r.
  - replace (seen ++ kv :: items) with ((seen ++ [kv]) ++ items)
      by now rewrite <- app_assoc.
    apply IH. now apply categorize_step_first.
Qed.

(** X1. [categorize_color] breaks ties by the order of [refs]: the key it
    returns is strictly closer to the colour than every reference listed
    before it, and at least as close as every reference listed after it. *)
Theorem categorize_color_first_minimum (c : rgb) :
  exists before p after,
    refs = before ++ (categorize_color c, p) :: after
    /\ (forall k' p', In (k', p') before -> dist2 c p < dist2 c p')
    /\ (forall k' p', In (k', p') after -> dist2 c p <= dist2 c p').
Proof.
  unfold categorize_color.
  pose proof (categorize_loop_first c refs [] ("yellow"%string, None) eq_refl)
    as H.
  unfold first_inv in H. rewrite app_nil_l in H.
  destruct (categorize_loop c refs ("yellow"%string, None)) as [k bd].
  cbn [fst snd] in *. destruct bd as [d|]; [|discriminate].
  destruct H as (before & p & after & Hrefs & -> & Hb & Ha).
  exists before, p, after. split; [exact Hrefs|]. split.
  - intros k' p' Hin. exact (Hb (k', p') Hin).
  - intros k' p' Hin. exact (Ha (k', p') Hin).
Qed.

(** ** make_safe_filename: part by part *)

Lemma replace_char_empty old s :
  replace_char old [] s = List.filter (fun c => negb (c =? old)%N) s.
Proof.
  unfold replace_char. induction s as [|c s IH]; [reflexivity|].
  cbn [flat_map List.filter]. rewrite IH. now destruct (c =? old)%N.
Qed.

Lemma filter_filter_allowed s :
  List.filter (fun c => negb (_FILENAME_ALLOWED_RE c))
    (List.filter (fun c => negb (c =? 32)%N) s)
  = sanitize s.
Proof.
  unfold sanitize, _FILENAME_ALLOWED_RE.
  induction s as [|c s IH]; [reflexivity|]. cbn [List.filter].
  destruct (c =? 32)%N eqn:E; cbn [negb List.filter].
  - apply N.eqb_eq in E. subst. exact IH.
  - rewrite negb_involutive, IH. reflexivity.
Qed.

Lemma make_safe_filename_sanitize parts :
  make_safe_filename parts = sanitize (join (lit "_") parts).
Proof.
  unfold make_safe_filename, re_sub_class_plus.
  now rewrite re_sub_runs_empty_filter, replace_char_empty, filter_filter_allowed.
Qed.

Lemma sanitize_app s t : sanitize (s ++ t) = sanitize s ++ sanitize t.
Proof. apply List.filter_app. Qed.

Lemma sanitize_join parts :
  sanitize (join (lit "_") parts) = join (lit "_") (map sanitize parts).
Proof.
  induction parts as [|p parts IH]; [reflexivity|].
  destruct parts as [|q parts]; [reflexivity|].
  change (join (lit "_") (p :: q :: parts))
    with (p ++ lit "_" ++ join (lit "_") (q :: parts)).
  rewrite !sanitize_app, IH. reflexivity.
Qed.

Lemma sanitize_idem s : sanitize (sanitize s) = sanitize s.
Proof.
  unfold sanitize. induction s as [|c s IH]; [reflexivity|].
  cbn [List.filter]. destruct (filename_allowed c) eqn:E; [|exact IH].
  cbn [List.filter]. now rewrite E, IH.
Qed.

Lemma sanitize_fixed s :
  List.Forall (fun c => filename_allowed c = true) s -> sanitize s = s.
Proof. apply filter_all_true. Qed.

(** X2. [make_safe_filename] works part by part: its result is the parts,
    each reduced to its characters of [A-Za-z0-9_-], joined by underscores;
    no part is given, the result is empty; applied to its own result it
    changes nothing, and parts that are already safe are only joined. *)
Theorem make_safe_filename_by_parts (parts : list str) :
  make_safe_filename parts
  = join (lit "_") (map (List.filter filename_allowed) parts)
  /\ make_safe_filename [] = []
  /\ make_safe_filename [make_safe_filename parts] = make_safe_filename parts
  /\ (List.Forall (List.Forall (fun c => filename_allowed c = true)) parts ->
      make_safe_filename parts = join (lit "_") parts).
Proof.
  split; [|split; [|split]].
  - rewrite make_safe_filename_sanitize. apply sanitize_join.
  - reflexivity.
  - rewrite !make_safe_filename_sanitize. cbn [join]. apply sanitize_idem.
  - intros H. rewrite make_safe_filename_sanitize, sanitize_join. f_equal.
    induction H as [|p parts Hp _ IH]; [reflexivity|].
    cbn [map]. now rewrite (sanitize_fixed _ Hp), IH.
Qed.

(** ** normalize_highlight_text *)

Lemma normalize_filter text :
  normalize_highlight_text text = List.filter (fun c => negb (is_space c)) text.
Proof.
  unfold normalize_highlight_text, re_sub_class_plus.
  apply re_sub_runs_empty_filter.
Qed.

(** X3. [normalize_highlight_text] deletes the white-space characters and
    nothing else: it keeps the other characters in their order, its result
    holds no white space, a text without white space is returned as it is,
    and the result for a concatenation is the concatenation of the
    results. *)
Theorem normalize_highlight_text_spec (text more : str) :
  normalize_highlight_text text
  = List.filter (fun c => negb (is_space c)) text
  /\ List.Forall (fun c => is_space c = false) (normalize_highlight_text text)
  /\ (List.Forall (fun c => is_space c = false) text ->
      normalize_highlight_text text = text)
  /\ normalize_highlight_text (normalize_highlight_text text)
     = normalize_highlight_text text
  /\ normalize_highlight_text (text ++ more)
     = normalize_highlight_text text ++ normalize_highlight_text more.
Proof.
  assert (Hno : List.Forall (fun c => is_space c = false)
                  (normalize_highlight_text text)).
  { rewrite normalize_filter. apply List.Forall_forall.
    intros c [_ H]%filter_In. now apply negb_true_iff in H. }
  assert (Hfix : forall t, List.Forall (fun c => is_space c = false) t ->
                           normalize_highlight_text t = t).
  { intros t H. rewrite normalize_filter. apply filter_all_true.
    eapply List.Forall_impl; [|exact H]. intros c Hc. cbv beta. now rewrite Hc. }
  split; [apply normalize_filter|]. split; [exact Hno|].
  split; [apply Hfix|]. split; [now apply Hfix|].
  rewrite !normalize_filter. apply List.filter_app.
Qed.

(** ** rgb_from_annot *)

Lemma rgb_from_annot_chosen a cs :
  a_colors a = Ok cs ->
  rgb_from_annot a
  = if negb (truthy_colour (chosen_colour cs)) then Ok default_rgb
    else match chosen_colour cs with
         | Some [r; g; b] =>
             r' <- int_of_float (r * 255)%float ;;
             g' <- int_of_float (g * 255)%float ;;
             b' <- int_of_float (b * 255)%float ;;
             Ok (r', g', b')
         | _ => Raise ValueError
         end.
Proof. intros H. unfold rgb_from_annot, chosen_colour. now rewrite H. Qed.

(** X4. In [rgb_from_annot] a stroke colour that is set hides the fill
    colour: two annotations with the same non-empty stroke colour get the
    same result, whatever their fill colours and other entries are. *)
Theorem rgb_from_annot_stroke_first (a a' : annot)
    (cs cs' : gmap string colour) :
  a_colors a = Ok cs ->
  a_colors a' = Ok cs' ->
  cs !! "stroke"%string = cs' !! "stroke"%string ->
  truthy_colour (colors_get cs "stroke") = true ->
  rgb_from_annot a = rgb_from_annot a'.
Proof.
  intros Ha Ha' Hs Ht.
  assert (Hg : colors_get cs' "stroke" = colors_get cs "stroke")
    by (unfold colors_get; now rewrite Hs).
  rewrite (rgb_from_annot_chosen _ _ Ha), (rgb_from_annot_chosen _ _ Ha').
  unfold chosen_colour. now rewrite Hg, Ht.
Qed.

(** X5. [rgb_from_annot] raises [ValueError] when the colour it goes by
    (the stroke colour if set, else the fill colour) is set and has another
    number of components than three, as a gray or a CMYK colour has. *)
Theorem rgb_from_annot_wrong_arity (a : annot) (cs : gmap string colour)
    (comps : list float) :
  a_colors a = Ok cs ->
  chosen_colour cs = Some comps ->
  comps <> [] ->
  length comps <> 3%nat ->
  rgb_from_annot a = Raise ValueError.
Proof.
  intros Ha Hc Hne Hlen. rewrite (rgb_from_annot_chosen _ _ Ha), Hc.
  destruct comps as [|r [|g [|b [|x rest]]]]; try reflexivity;
    [congruence|simpl in Hlen; lia].
Qed.

(** ** extract_highlight_text *)

Lemma quad_slices_4 p0 p1 p2 p3 rest :
  quad_slices (p0 :: p1 :: p2 :: p3 :: rest)
  = [p0; p1; p2; p3] :: quad_slices rest.
Proof. reflexivity. Qed.

Lemma quad_slices_short quads :
  (0 < length quads < 4)%nat -> quad_slices quads = [quads].
Proof.
  destruct quads as [|p0 [|p1 [|p2 [|p3 rest]]]]; simpl; intros H;
    try reflexivity; lia.
Qed.

(** Induction in steps of four points. *)
Lemma quads_ind (P : list point -> Prop) :
  P [] ->
  (forall quads, (0 < length quads < 4)%nat -> P quads) ->
  (forall p0 p1 p2 p3 rest, P rest -> P (p0 :: p1 :: p2 :: p3 :: rest)) ->
  forall quads, P quads.
Proof.
  intros Hnil Hshort Hstep.
  assert (H : forall n quads, (length quads <= n)%nat -> P quads).
  { induction n as [|n IH]; intros quads Hlen.
    - destruct quads; [exact Hnil|simpl in Hlen; lia].
    - destruct quads as [|p0 [|p1 [|p2 [|p3 rest]]]];
        try exact Hnil; try (apply Hshort; simpl; lia).
      apply Hstep, IH. simpl in Hlen. lia. }
  intros quads. now apply (H (length quads)).
Qed.

(** X6. The slices [quads[i : i + 4]] that [extract_highlight_text] reads
    cut the vertex list into consecutive pieces: put together they give the
    list back, every slice holds between one and four points, and every
    slice but the last holds exactly four. *)
Theorem quad_slices_partition (quads : list point) :
  concat (quad_slices quads) = quads
  /\ List.Forall (fun q => (1 <= length q <= 4)%nat) (quad_slices quads)
  /\ (forall before q after,
        quad_slices quads = before ++ q :: after -> after <> [] ->
        length q = 4%nat)
  /\ (quad_slices quads = [] <-> quads = []).
Proof.
  induction quads as [| quads Hlen | p0 p1 p2 p3 rest IH] using quads_ind.
  - repeat split; try constructor.
    intros before q after H. now destruct before.
  - rewrite (quad_slices_short _ Hlen). repeat split.
    + simpl. apply app_nil_r.
    + constructor; [lia|constructor].
    + intros before q after H Hafter.
      destruct before as [|b before]; [injection H as _ <-; congruence|].
      injection H as _ H. now destruct before.
    + discriminate.
    + intros ->. simpl in Hlen. lia.
  - destruct IH as (Hc & Hf & Hfour & _). rewrite quad_slices_4.
    repeat split.
    + cbn [concat]. now rewrite Hc.
    + constructor; [simpl; lia|exact Hf].
    + intros before q after H Hafter.
      destruct before as [|b before].
      * now injection H as <- _.
      * injection H as _ H. exact (Hfour _ _ _ H Hafter).
    + discriminate.
    + discriminate.
Qed.

Lemma strip_join_single t :
  strip (join (lit " ") (List.filter truthy_str [strip t])) = strip t.
Proof.
  cbn [List.filter]. destruct (strip t) as [|c s] eqn:E; [reflexivity|].
  cbn [truthy_str join]. rewrite <- E. apply strip_idem.
Qed.

(** X7. [extract_highlight_text] falls back to the rectangle of the
    annotation when its vertices cannot be read, are [None] or are empty:
    the result is then the stripped text under [annot.rect], and an
    exception of [get_text] is passed on. Whatever the vertices, a text that
    is returned has no white space at its ends. *)
Theorem extract_highlight_text_fallback (W : world) (pg : page) (a : annot) :
  (is_ok (a_vertices a) = false \/ a_vertices a = Ok None
   \/ a_vertices a = Ok (Some []) ->
   extract_highlight_text W pg a
   = match get_text pg (a_rect a) with
     | Ok t => Ok (strip t)
     | Raise e => Raise e
     end)
  /\ (forall t, extract_highlight_text W pg a = Ok t -> strip t = t).
Proof.
  split.
  - intros H. unfold extract_highlight_text.
    assert (Hq : try_except
                   (v <- a_vertices a ;;
                    Ok (match v with Some l => l | None => [] end)) []
                 = []).
    { destruct H as [H|[H|H]]; [|now rewrite H|now rewrite H].
      now destruct (a_vertices a). }
    rewrite Hq. cbn [bind].
    destruct (get_text pg (a_rect a)) as [t|e]; [|reflexivity].
    cbn [bind]. now rewrite strip_join_single.
  - intros t. unfold extract_highlight_text.
    destruct (match try_except _ [] with [] => _ | _ :: _ => _ end) as [ts|e];
      [|discriminate].
    cbn [bind]. intros [= <-]. apply strip_idem.
Qed.

(** ** save_rect_image *)

(** X8. [save_rect_image] never raises. It returns a path only when the
    pixmap of the rectangle was rendered and saved, and the path is then
    [out_dir] joined with the base name and ".png"; it returns [None] when
    the directory, the rendering or the save failed. It changes nothing but
    the file system, where it makes [out_dir] and saves at most that one
    image. *)
Theorem save_rect_image_total (W : world) (pg : page) (r : rect)
    (out_dir base_name : str) (dpi : Z) (s : state) :
  exists res events,
    save_rect_image W pg r out_dir base_name dpi s
    = (Ok res, with_effects s (rect_index s) events)
    /\ match res with
       | Some p =>
           p = path_join (os_path_ W) out_dir (base_name ++ lit ".png")
           /\ exists pix, get_pixmap pg r dpi = Ok pix
                /\ events = [EvMakedirs out_dir; EvSavePng p pix]
       | None =>
           (makedirs_ok W out_dir = false /\ events = [])
           \/ (makedirs_ok W out_dir = true /\ events = [EvMakedirs out_dir]
               /\ (is_ok (get_pixmap pg r dpi) = false
                   \/ pix_save_ok W
                        (path_join (os_path_ W) out_dir
                           (base_name ++ lit ".png")) = false))
       end.
Proof.
  rewrite save_rect_image_spec. unfold save_outcome, image_file, with_effects.
  destruct (makedirs_ok W out_dir).
  - destruct (get_pixmap pg r dpi) as [pix|e].
    + destruct (pix_save_ok W _) eqn:Hs.
      * eexists. eexists. split; [reflexivity|]. split; [reflexivity|].
        now exists pix.
      * eexists. eexists. split; [reflexivity|]. right. auto.
    + eexists. eexists. split; [reflexivity|]. right. auto.
  - eexists. eexists. split; [reflexivity|]. left. auto.
Qed.

(** ** Annotations that are skipped *)

Lemma apply_delta_effects d n s :
  d_highlight d = None -> d_note d = None -> d_rect d = None ->
  apply_delta d n s = with_effects s n (d_events d).
Proof.
  intros H1 H2 H3. unfold apply_delta, with_effects. rewrite H1, H2, H3.
  cbn [opt_append option_list]. now rewrite app_nil_r.
Qed.

Lemma with_effects_same s : with_effects s (rect_index s) [] = s.
Proof. destruct s. unfold with_effects. cbn. now rewrite app_nil_r. Qed.

(** X9. An annotation whose reading raises inside the [try] is skipped and
    the scan goes on: a text markup whose text extraction raises and a note
    whose [info] raises leave the state as it was; a rectangle or circle
    whose region text raises leaves the groups and the file system as they
    were, but has already taken its number: [rect_index] is one more. *)
Theorem broken_annotation_skipped (W : world) (cx : page_ctx) (a : annot)
    (c : rgb) (s : state) :
  rgb_from_annot a = Ok c ->
  match branch_of W (subtype_of (a_type a)) with
  | BrMarkup =>
      is_ok (extract_highlight_text W (cx_page cx) a) = false ->
      process_annot W cx a s = (Ok tt, s)
  | BrNote =>
      is_ok (a_info a) = false -> process_annot W cx a s = (Ok tt, s)
  | BrRect =>
      is_ok (get_text (cx_page cx) (a_rect a)) = false ->
      process_annot W cx a s
      = (Ok tt, with_effects s (rect_index s + 1) [])
  | BrNone => process_annot W cx a s = (Ok tt, s)
  end.
Proof.
  intros Hc. rewrite (process_annot_ok _ _ _ _ _ Hc).
  unfold annot_delta, next_rect_index.
  destruct (branch_of W (subtype_of (a_type a))).
  - intros H. unfold markup_delta.
    destruct (extract_highlight_text W (cx_page cx) a); [discriminate|].
    now rewrite apply_no_delta.
  - intros H. unfold note_delta. destruct (a_info a); [discriminate|].
    now rewrite apply_no_delta.
  - intros H. unfold rect_delta.
    destruct (get_text (cx_page cx) (a_rect a)); [discriminate|].
    now rewrite apply_delta_effects.
  - now rewrite apply_no_delta.
Qed.

(** X10. Annotations of other kinds change nothing: when the type code of
    an annotation is 0, or is none of the five codes that the first three
    tests of the chain compare with, and its colour can be read, the turn
    of the loop returns with the state as it was, whatever the annotation
    holds. With the codes of PyMuPDF an underline or a strike-out
    annotation is such a one. *)
Theorem other_annotation_ignored (W : world) (cx : page_ctx) (a : annot)
    (code : Z) (name : str) (c : rgb) (s : state) :
  a_type a = TypeTuple code name ->
  rgb_from_annot a = Ok c ->
  code = 0
  \/ ~ In code [ PDF_ANNOT_HIGHLIGHT W; PDF_ANNOT_TEXT W; PDF_ANNOT_FREE_TEXT W;
                 PDF_ANNOT_SQUARE W; PDF_ANNOT_CIRCLE W ] ->
  process_annot W cx a s = (Ok tt, s).
Proof.
  intros Ht Hc Hcode.
  assert (Hb : branch_of W (subtype_of (a_type a)) = BrNone).
  { rewrite branch_of_kind. unfold is_highlight, is_note, is_rect.
    rewrite Ht. cbn [type_code]. cbv zeta.
    destruct (Z.eqb_spec code 0) as [->|Hz]; [reflexivity|].
    destruct Hcode as [->|Hn]; [congruence|]. cbn [In] in Hn.
    repeat match goal with
           | |- context [Z.eqb code ?b] =>
               destruct (Z.eqb_spec code b);
                 [exfalso; apply Hn; intuition congruence|]
           end.
    reflexivity. }
  rewrite (process_annot_ok _ _ _ _ _ Hc).
  unfold annot_delta, next_rect_index. rewrite Hb. now rewrite apply_no_delta.
Qed.

(** ** The numbers of rectangles and circles *)

Lemma process_annot_index W cx a s s' :
  process_annot W cx a s = (Ok tt, s') ->
  rect_index s' = next_rect_index W (rect_index s) a.
Proof.
  destruct (rgb_from_annot a) as [c|e] eqn:Hc.
  - rewrite (process_annot_ok _ _ _ _ _ Hc). now intros [= <-].
  - now rewrite (process_annot_raise _ _ _ _ _ Hc).
Qed.

Lemma annot_loop_index W cx chain : forall s s',
  codes_distinct W = true ->
  annot_loop W cx chain s = (Ok tt, s') ->
  rect_index s'
  = rect_index s + Z.of_nat (length (List.filter (is_rect W) chain)).
Proof.
  induction chain as [|a chain IH]; intros s s' Hcodes.
  - intros [= <-]. cbn [List.filter length]. lia.
  - cbn [annot_loop]. unfold bindM.
    destruct (process_annot W cx a s) as [[[]|e] s1] eqn:Ha; [|discriminate].
    intros Hrest. rewrite (IH _ _ Hcodes Hrest).
    rewrite (process_annot_index _ _ _ _ _ Ha), next_rect_index_count.
    rewrite (takes_rect_branch_kind W a Hcodes). cbn [List.filter].
    destruct (is_rect W a); cbn [length]; lia.
Qed.

(** X11. The counter [rect_index] counts the rectangles and circles of a
    page: a loop over a chain that ends without an exception has raised it
    by the number of the annotations of the chain whose type code is the
    square or the circle code, whether or not their text and image could be
    made, and the scan of a page starts it at 0 again, so that after a page
    it is the number of rectangles and circles of that page. *)
Theorem rect_numbers_consecutive (W : world) (cx : page_ctx)
    (chain : list annot) (s s' : state) :
  codes_distinct W = true ->
  annot_loop W cx chain s = (Ok tt, s') ->
  rect_index s'
  = rect_index s + Z.of_nat (length (List.filter (is_rect W) chain))
  /\ (forall pdf_path image_dir min_dpi pg page_index s0 s1,
        page_loop W pdf_path image_dir min_dpi [pg] page_index s0
        = (Ok tt, s1) ->
        rect_index s1
        = Z.of_nat (length (List.filter (is_rect W) (annots pg)))).
Proof.
  intros Hcodes Hrun. split; [exact (annot_loop_index W cx chain s s' Hcodes Hrun)|].
  intros pdf_path image_dir min_dpi pg page_index s0 s1.
  rewrite page_loop_cons.
  destruct (annot_loop W _ (annots pg) (snd (set_rect_index 0 s0)))
    as [[[]|e] s2] eqn:Hpg; [|discriminate].
  cbn [page_loop]. intros [= <-].
  now rewrite (annot_loop_index W _ _ _ _ Hcodes Hpg).
Qed.

(** ** Where a scan writes *)

Lemma delta_events W o e :
  In e (d_events (occurrence_delta W o)) ->
  takes_rect_branch W (oc_annot o) = true
  /\ (e = EvMakedirs (cx_image_dir (oc_ctx o))
      \/ exists pix,
           get_pixmap (cx_page (oc_ctx o)) (a_rect (oc_annot o))
             (cx_min_dpi (oc_ctx o)) = Ok pix
           /\ e = EvSavePng
                    (path_join (os_path_ W) (cx_image_dir (oc_ctx o))
                       (rect_base_name W (oc_ctx o) (oc_index o + 1)
                        ++ lit ".png")) pix).
Proof.
  unfold occurrence_delta, annot_delta, takes_rect_branch, markup_delta,
    note_delta, rect_delta.
  destruct (rgb_from_annot (oc_annot o)); [|intros []].
  destruct (branch_of W _).
  - destruct (extract_highlight_text _ _ _); [|intros []].
    destruct (truthy_str _); intros [].
  - destruct (a_info _); [|intros []]. destruct (truthy_str _); intros [].
  - destruct (get_text _ _); [|intros []]. cbn [d_events].
    unfold save_outcome, image_file.
    destruct (makedirs_ok W _); [|intros []].
    destruct (get_pixmap _ _ _) as [pix|]; cbn [snd].
    + destruct (pix_save_ok W _); cbn [snd].
      * intros [<-|[<-|[]]]; (split; [reflexivity|]); [now left|].
        right. now exists pix.
      * intros [<-|[]]. split; [reflexivity|]. now left.
    + intros [<-|[]]. split; [reflexivity|]. now left.
  - intros [].
Qed.

(** X12. During the scan the program touches the file system only for
    rectangle and circle annotations and only inside the image directory:
    every effect of a completed scan is the making of the image directory
    or the saving of the rendered rectangle of such an annotation at the
    image directory joined with its base name and ".png". *)
Theorem scan_writes_only_images (W : world) (pdf_path image_dir : str)
    (min_dpi : Z) (doc : document) (s : state) (e : event) :
  page_loop W pdf_path image_dir min_dpi doc 0 init_state = (Ok tt, s) ->
  In e (fs s) ->
  e = EvMakedirs image_dir
  \/ exists o pix,
       In o (occurrences W pdf_path image_dir min_dpi doc 0)
       /\ takes_rect_branch W (oc_annot o) = true
       /\ get_pixmap (cx_page (oc_ctx o)) (a_rect (oc_annot o)) min_dpi
          = Ok pix
       /\ e = EvSavePng
                (path_join (os_path_ W) image_dir
                   (rect_base_name W (oc_ctx o) (oc_index o + 1)
                    ++ lit ".png")) pix.
Proof.
  intros Hrun He. apply page_loop_complete in Hrun as [_ (_ & _ & _ & Hfs)].
  rewrite Hfs in He. cbn [fs init_state app] in He.
  apply in_flat_map in He as (o & Ho & He).
  destruct (occurrences_ctx _ _ _ _ _ _ _ Ho) as (_ & Hd & Hdpi).
  apply delta_events in He as [Hb He]. rewrite Hd, Hdpi in He.
  destruct He as [->|(pix & Hpix & ->)]; [now left|].
  right. now exists o, pix.
Qed.

(** ** Image names *)

Lemma digits_value_snoc d c :
  digits_value (d ++ [c]) = (10 * digits_value d + (c - 48))%N.
Proof. unfold digits_value. now rewrite List.fold_left_app. Qed.

Lemma digits_of_spec fuel : forall n acc,
  (n < 2 ^ N.of_nat fuel)%N ->
  exists d, digits_of fuel n acc = d ++ acc
            /\ List.Forall (fun c => is_digit c = true) d
            /\ digits_value d = n.
Proof.
  induction fuel as [|fuel IH]; intros n acc Hn.
  - exists []. cbn in Hn. assert (n = 0%N) by lia. subst.
    repeat split. constructor.
  - cbn [digits_of]. destruct (N.ltb_spec n 10).
    + exists [(48 + n)%N]. rewrite (N.mod_small n 10) by lia.
      repeat split.
      * constructor; [|constructor]. unfold is_digit.
        apply andb_true_iff. split; apply N.leb_le; lia.
      * unfold digits_value. cbn [fold_left]. lia.
    + assert (Hmod : (n mod 10 < 10)%N) by (apply N.mod_upper_bound; lia).
      assert (Hdm : n = (10 * (n / 10) + n mod 10)%N)
        by (apply N.div_mod; lia).
      assert (Hdiv : (n / 10 < 2 ^ N.of_nat fuel)%N).
      { rewrite Nat2N.inj_succ, N.pow_succ_r' in Hn.
        apply N.Div0.div_lt_upper_bound. lia. }
      destruct (IH (n / 10)%N ((48 + n mod 10)%N :: acc) Hdiv)
        as (d & Hd & Hdig & Hval).
      exists (d ++ [(48 + n mod 10)%N]). rewrite Hd, <- app_assoc.
      clear Hd IH Hdiv Hn.
      set (m := (n mod 10)%N) in *. set (q := (n / 10)%N) in *.
      clearbody m q.
      repeat split.
      * apply Forall_app. split; [exact Hdig|].
        constructor; [|constructor]. unfold is_digit.
        apply andb_true_iff. split; apply N.leb_le; lia.
      * rewrite digits_value_snoc, Hval. lia.
Qed.

Lemma str_of_int_digits z :
  0 <= z ->
  List.Forall (fun c => is_digit c = true) (str_of_int z)
  /\ Z.of_N (digits_value (str_of_int z)) = z.
Proof.
  intros Hz. unfold str_of_int.
  destruct (Z.ltb_spec z 0); [lia|].
  set (n := Z.to_N (Z.abs z)).
  assert (Hn : (n < 2 ^ N.of_nat (S (N.to_nat (N.log2 n))))%N).
  { rewrite Nat2N.inj_succ, N2Nat.id.
    destruct (N.eq_dec n 0%N) as [->|Hne]; [reflexivity|].
    apply (N.log2_spec n). lia. }
  destruct (digits_of_spec _ n [] Hn) as (d & Hd & Hdig & Hval).
  rewrite Hd, app_nil_r. split; [exact Hdig|]. rewrite Hval. unfold n. lia.
Qed.

Lemma digits_allowed d :
  List.Forall (fun c => is_digit c = true) d ->
  List.Forall (fun c => filename_allowed c = true) d.
Proof.
  apply List.Forall_impl. intros c H. unfold is_digit in H.
  apply andb_true_iff in H as [H1 H2]. apply N.leb_le in H1, H2.
  apply filename_allowed_spec. lia.
Qed.

Lemma digits_split d1 d2 x t1 t2 :
  List.Forall (fun c => is_digit c = true) d1 ->
  List.Forall (fun c => is_digit c = true) d2 ->
  is_digit x = false ->
  d1 ++ x :: t1 = d2 ++ x :: t2 -> d1 = d2 /\ t1 = t2.
Proof.
  intros H1. revert d2. induction H1 as [|c d1 Hc _ IH]; intros d2 H2 Hx H.
  - destruct H2 as [|c' d2 Hc' _]; cbn [app] in H.
    + now injection H as <-.
    + injection H as <- _. congruence.
  - destruct H2 as [|c' d2 Hc' H2]; cbn [app] in H.
    + injection H as -> _. congruence.
    + injection H as <- H. destruct (IH d2 H2 Hx H) as [-> ->]. now split.
Qed.

Lemma rect_base_name_shape W cx n :
  0 <= cx_page_index cx -> 0 <= n ->
  rect_base_name W cx n
  = sanitize (title_of W (cx_pdf_path cx))
    ++ lit "_" ++ (lit "p" ++ str_of_int (cx_page_index cx + 1))
    ++ lit "_" ++ (lit "rect" ++ str_of_int n).
Proof.
  intros Hp Hn. unfold rect_base_name, title_of.
  rewrite make_safe_filename_sanitize, sanitize_join. cbn [map join].
  assert (Hd : forall pre z,
             List.Forall (fun c => filename_allowed c = true) pre -> 0 <= z ->
             sanitize (pre ++ str_of_int z) = pre ++ str_of_int z).
  { intros pre z Hpre Hz. apply sanitize_fixed, Forall_app. split; [exact Hpre|].
    apply digits_allowed, str_of_int_digits, Hz. }
  rewrite (Hd (lit "p")), (Hd (lit "rect")); try lia; try reflexivity.
  - repeat constructor.
  - repeat constructor.
Qed.

(** X13. The base name of an image is the sanitised title, "_p", the page
    number in decimal, "_rect" and the number of the rectangle in decimal;
    for one PDF, two base names are equal only if the page and the number
    are: no two rectangles of a document share an image name. *)
Theorem rect_base_name_injective (W : world) (cx cx' : page_ctx) (n n' : Z) :
  cx_pdf_path cx = cx_pdf_path cx' ->
  0 <= cx_page_index cx -> 0 <= cx_page_index cx' -> 0 <= n -> 0 <= n' ->
  rect_base_name W cx n
  = List.filter filename_allowed (title_of W (cx_pdf_path cx))
    ++ lit "_p" ++ str_of_int (cx_page_index cx + 1)
    ++ lit "_rect" ++ str_of_int n
  /\ (rect_base_name W cx n = rect_base_name W cx' n' ->
      cx_page_index cx = cx_page_index cx' /\ n = n').
Proof.
  intros Hpath Hp Hp' Hn Hn'. split.
  - now rewrite rect_base_name_shape.
  - rewrite !rect_base_name_shape, Hpath by assumption.
    intros H. do 2 apply app_inv_head in H.
    rewrite <- !app_assoc in H. apply app_inv_head in H.
    change (lit "_" ++ lit "rect" ++ str_of_int n)
      with (95%N :: lit "rect" ++ str_of_int n) in H.
    change (lit "_" ++ lit "rect" ++ str_of_int n')
      with (95%N :: lit "rect" ++ str_of_int n') in H.
    destruct (str_of_int_digits (cx_page_index cx + 1)) as [Hd1 Hv1]; [lia|].
    destruct (str_of_int_digits (cx_page_index cx' + 1)) as [Hd2 Hv2]; [lia|].
    destruct (digits_split _ _ 95%N _ _ Hd1 Hd2 eq_refl H) as [E1 E2].
    apply app_inv_head in E2.
    destruct (str_of_int_digits n Hn) as [_ Hv3].
    destruct (str_of_int_digits n' Hn') as [_ Hv4].
    rewrite E1 in Hv1. rewrite E2 in Hv3. split; lia.
Qed.

(** ** The Markdown string *)

Lemma rstrip_idem x : rstrip (rstrip x) = rstrip x.
Proof. unfold rstrip. now rewrite rev_involutive, lstrip_idem. Qed.

Lemma rstrip_snoc_space x c : is_space c = true -> rstrip (x ++ [c]) = rstrip x.
Proof.
  intros Hc. unfold rstrip. rewrite rev_app_distr. cbn [rev app lstrip].
  now rewrite Hc.
Qed.

Lemma rstrip_last x c : last (rstrip x) = Some c -> is_space c = false.
Proof.
  unfold rstrip. destruct (lstrip (rev x)) as [|h t] eqn:E; [discriminate|].
  cbn [rev]. rewrite last_snoc. intros [= <-]. exact (lstrip_head _ _ _ E).
Qed.

(** X14. The Markdown string ends with exactly one newline: it is a body
    followed by a newline, and the body ends with no white space, so with no
    further newline or blank. *)
Theorem markdown_ends_with_one_newline (title : str) (s : state) :
  exists body,
    build_markdown title s = body ++ [10%N]
    /\ rstrip body = body
    /\ forall c, last body = Some c -> is_space c = false.
Proof.
  exists (rstrip (join NL (build_lines title s))). split; [reflexivity|].
  split; [apply rstrip_idem|]. intros c. apply rstrip_last.
Qed.

Lemma build_lines_groups title s s' :
  highlight_groups s = highlight_groups s' ->
  notes_blocks s = notes_blocks s' ->
  rect_groups s = rect_groups s' ->
  build_lines title s = build_lines title s'.
Proof. intros H1 H2 H3. unfold build_lines. now rewrite H1, H2, H3. Qed.

Lemma build_lines_init title :
  build_lines title init_state = [lit "# Annotations for " ++ title; []].
Proof. reflexivity. Qed.

Lemma occurrences_no_annots W pdf_path image_dir min_dpi doc : forall i,
  (forall pg, In pg doc -> annots pg = []) ->
  occurrences W pdf_path image_dir min_dpi doc i = [].
Proof.
  induction doc as [|pg doc IH]; intros i H; [reflexivity|].
  cbn [occurrences]. rewrite (H pg) by now left.
  cbn [chain_occurrences app]. apply IH. intros pg' Hpg. apply H. now right.
Qed.

(** X15. For a document without annotations a run whose calls succeed makes
    the output directory, writes a Markdown file that holds the title line
    only, stripped on the right and followed by a newline, and does nothing
    else: no image directory is made. *)
Theorem run_without_annotations (W : world) (pdf_path : str)
    (out_md : option str) (img_dir : str) (min_dpi : Z) (doc : document) :
  isfile W pdf_path = true ->
  fitz_open W pdf_path = Ok doc ->
  (forall pg, In pg doc -> annots pg = []) ->
  let out := out_path_of W pdf_path out_md in
  makedirs_ok W (out_dir_of W out) = true ->
  write_ok W out = true ->
  fst (run W pdf_path out_md img_dir min_dpi) = Ok out
  /\ fs (snd (run W pdf_path out_md img_dir min_dpi))
     = [ EvMakedirs (out_dir_of W out);
         EvWriteText out
           (rstrip (lit "# Annotations for " ++ title_of W pdf_path) ++ NL) ].
Proof.
  intros Hf Hopen Hno out Hmk Hw. unfold out in *. clear out.
  pose proof (occurrences_no_annots W pdf_path
                (image_dir_of W (out_path_of W pdf_path out_md) img_dir)
                min_dpi doc 0 Hno) as Hocc.
  assert (Hcol : forallb colour_ok
                   (occurrences W pdf_path
                      (image_dir_of W (out_path_of W pdf_path out_md) img_dir)
                      min_dpi doc 0) = true) by now rewrite Hocc.
  destruct (run_ok W pdf_path out_md img_dir min_dpi doc Hf Hopen Hcol Hmk Hw)
    as (s0 & Hloop & Hrun).
  apply page_loop_complete in Hloop as [_ (H1 & H2 & H3 & H4)].
  rewrite Hocc in H1, H2, H3, H4. cbn in H1, H2, H3, H4.
  rewrite Hrun. cbn [fst snd log_event fs].
  split; [reflexivity|]. rewrite H4. cbn [app]. do 3 f_equal.
  unfold build_markdown.
  rewrite (build_lines_groups _ s0 init_state H1 H2 H3), build_lines_init.
  cbn [join]. rewrite app_nil_r. unfold NL at 1.
  now rewrite rstrip_snoc_space.
Qed.

Lemma save_outcome_no_text W pg r out_dir base_name dpi :
  List.filter is_text_event (snd (save_outcome W pg r out_dir base_name dpi))
  = [].
Proof.
  unfold save_outcome. destruct (makedirs_ok W out_dir); [|reflexivity].
  destruct (get_pixmap pg r dpi); [|reflexivity].
  now destruct (pix_save_ok W _).
Qed.

Lemma delta_no_text W cx n c a :
  List.filter is_text_event (d_events (annot_delta W cx n c a)) = [].
Proof.
  unfold annot_delta, markup_delta, note_delta, rect_delta.
  destruct (branch_of _ _); try reflexivity.
  - destruct (extract_highlight_text _ _ _); [|reflexivity].
    now destruct (truthy_str _).
  - destruct (a_info _); [|reflexivity]. now destruct (truthy_str _).
  - destruct (get_text _ _); [|reflexivity]. apply save_outcome_no_text.
Qed.

Lemma process_annot_no_text W cx a s :
  List.filter is_text_event (fs s) = [] ->
  List.filter is_text_event (fs (snd (process_annot W cx a s))) = [].
Proof.
  intros H. destruct (rgb_from_annot a) as [c|e] eqn:Hc.
  - rewrite (process_annot_ok _ _ _ _ _ Hc). cbn [snd apply_delta fs].
    now rewrite List.filter_app, H, delta_no_text.
  - now rewrite (process_annot_raise _ _ _ _ _ Hc).
Qed.

Lemma annot_loop_no_text W cx chain : forall s,
  List.filter is_text_event (fs s) = [] ->
  List.filter is_text_event (fs (snd (annot_loop W cx chain s))) = [].
Proof.
  induction chain as [|a chain IH]; intros s H; [exact H|].
  cbn [annot_loop]. unfold bindM.
  pose proof (process_annot_no_text W cx a s H) as H1.
  destruct (process_annot W cx a s) as [[[]|e] s1]; cbn [snd] in *.
  - now apply IH.
  - exact H1.
Qed.

(** The scan touches no text file. *)
Lemma page_loop_no_text W pdf_path image_dir min_dpi pages : forall i s,
  List.filter is_text_event (fs s) = [] ->
  List.filter is_text_event
    (fs (snd (page_loop W pdf_path image_dir min_dpi pages i s))) = [].
Proof.
  induction pages as [|pg pages IH]; intros i s H; [exact H|].
  rewrite page_loop_cons.
  pose proof (annot_loop_no_text W
                {| cx_pdf_path := pdf_path; cx_image_dir := image_dir;
                   cx_min_dpi := min_dpi; cx_page := pg; cx_page_index := i |}
                (annots pg) (snd (set_rect_index 0 s))) as H1.
  destruct (annot_loop W _ (annots pg) (snd (set_rect_index 0 s)))
    as [[[]|e] s1]; cbn [snd] in H1.
  - apply IH, H1. exact H.
  - apply H1. exact H.
Qed.

Lemma no_text_no_write l :
  List.filter is_text_event l = [] -> List.filter is_write_text l = [].
Proof.
  induction l as [|e l IH]; [reflexivity|]. cbn [List.filter].
  destruct e; cbn [is_text_event is_write_text]; try discriminate; exact IH.
Qed.

(** What a run has done to text files, by its result. *)
Lemma run_write_cases W pdf_path out_md img_dir min_dpi :
  let r := run W pdf_path out_md img_dir min_dpi in
  let out_path := out_path_of W pdf_path out_md in
  match fst r with
  | Ok out =>
      out = out_path
      /\ exists before,
           fs (snd r)
           = before
             ++ [EvWriteText out (build_markdown (title_of W pdf_path) (snd r))]
           /\ List.filter is_text_event before = []
  | Raise _ =>
      List.filter is_write_text (fs (snd r)) = []
      /\ (List.filter is_text_event (fs (snd r)) = []
          \/ write_ok W out_path = false
             /\ open_ok W out_path = true
             /\ exists before,
                  fs (snd r) = before ++ [EvTruncate out_path]
                  /\ List.filter is_text_event before = [])
  end.
Proof.
  unfold run, export_pdf_annotations, export_markdown.
  destruct (isfile W pdf_path); cbn [negb]; [|now split; [|left]].
  unfold bindM, lift, get_state, ret, do_makedirs, do_write.
  destruct (fitz_open W pdf_path) as [doc|e]; [|now split; [|left]].
  pose proof (page_loop_no_text W pdf_path
                (image_dir_of W (out_path_of W pdf_path out_md) img_dir)
                min_dpi doc 0 init_state eq_refl) as Hnt.
  destruct (page_loop W pdf_path _ min_dpi doc 0 init_state) as [[[]|e] s0];
    cbn [snd] in Hnt; cbn [fst snd];
    [|split; [now apply no_text_no_write|now left]].
  destruct (makedirs_ok W _); cbn [fst snd];
    [|split; [now apply no_text_no_write|now left]].
  assert (Hmk : forall p,
             List.filter is_text_event (fs (log_event (EvMakedirs p) s0)) = []).
  { intros p. unfold log_event. cbn [fs]. now rewrite List.filter_app, Hnt. }
  destruct (write_ok W _) eqn:Hw; cbn [fst snd].
  - split; [reflexivity|]. eexists. split; [reflexivity|]. apply Hmk.
  - destruct (open_ok W _) eqn:Ho; cbn [fst snd].
    + split.
      * unfold log_event at 1. cbn [fs]. rewrite List.filter_app.
        now rewrite (no_text_no_write _ (Hmk _)).
      * right. split; [reflexivity|]. split; [reflexivity|].
        eexists. split; [reflexivity|]. apply Hmk.
    + split; [apply no_text_no_write, Hmk|left; apply Hmk].
Qed.

(** X16. A run writes Markdown exactly when it returns. A run that returns
    has written the Markdown, at the path it returns, as its last effect,
    and has touched no other text file. A run that raises, at whatever
    point, has written no Markdown: either it has touched no text file, or
    it failed in the final write after [open(out_md, "w")] had created or
    truncated the output file, which then is its last effect. *)
Theorem markdown_written_iff_returned (W : world) (pdf_path : str)
    (out_md : option str) (img_dir : str) (min_dpi : Z) :
  let r := run W pdf_path out_md img_dir min_dpi in
  let out_path := out_path_of W pdf_path out_md in
  match fst r with
  | Ok out =>
      exists before,
        fs (snd r)
        = before
          ++ [EvWriteText out (build_markdown (title_of W pdf_path) (snd r))]
        /\ List.filter is_text_event before = []
  | Raise _ =>
      List.filter is_write_text (fs (snd r)) = []
      /\ (List.filter is_text_event (fs (snd r)) = []
          \/ write_ok W out_path = false
             /\ open_ok W out_path = true
             /\ exists before,
                  fs (snd r) = before ++ [EvTruncate out_path]
                  /\ List.filter is_text_event before = [])
  end.
Proof.
  intros r out_path.
  pose proof (run_write_cases W pdf_path out_md img_dir min_dpi) as H.
  cbv zeta in H. fold r out_path in H. destruct (fst r); [|exact H]. apply H.
Qed.

(** ** Notes: stored and rendered *)

(** X17. Storing a note and rendering it agree: the block kept for a note
    is its non-blank lines, stripped and joined by newlines, and splitting
    that block again gives exactly those lines back, each of them not empty,
    without a line boundary and without white space at its ends; cleaning a
    cleaned content changes nothing. *)
Theorem note_block_round_trip (content : str) :
  splitlines (clean_content content) = content_lines content
  /\ content_lines (clean_content content) = content_lines content
  /\ clean_content (clean_content content) = clean_content content
  /\ List.Forall
       (fun l => l <> [] /\ strip l = l
                 /\ List.Forall (fun c => is_linebreak c = false) l)
       (content_lines content).
Proof.
  assert (H : List.Forall (fun l => one_line l /\ l <> [] /\ strip l = l)
                (content_lines content))
    by (apply List.Forall_forall; intros l; apply content_lines_spec).
  split; [|split; [|split]].
  - rewrite clean_content_lines. apply splitlines_join.
    eapply List.Forall_impl; [|exact H]. cbv beta. tauto.
  - apply content_lines_clean.
  - rewrite (clean_content_lines (clean_content content)).
    now rewrite content_lines_clean.
  - eapply List.Forall_impl; [|exact H]. cbv beta. unfold one_line. tauto.
Qed.

Lemma flat_map_ext_members {A B : Type} (f g : A -> list B) (l : list A) :
  (forall x, In x l -> f x = g x) -> flat_map f l = flat_map g l.
Proof.
  induction l as [|x l IH]; intros H; [reflexivity|].
  cbn [flat_map]. rewrite (H x (or_introl eq_refl)).
  now rewrite IH by (intros y Hy; apply H; right; exact Hy).
Qed.

Lemma flat_map_of_map {A B C : Type} (f : B -> list C) (g : A -> B) l :
  flat_map f (map g l) = flat_map (fun x => f (g x)) l.
Proof.
  induction l as [|x l IH]; [reflexivity|]. cbn [map flat_map]. now rewrite IH.
Qed.

Lemma note_contribution_kind W o :
  codes_distinct W = true ->
  colour_ok o = true ->
  d_note (occurrence_delta W o) = note_of W (oc_annot o).
Proof.
  intros Hcodes Hc. unfold colour_ok in Hc.
  unfold occurrence_delta, annot_delta, note_of.
  destruct (rgb_from_annot (oc_annot o)) as [c|e]; [|discriminate].
  rewrite branch_of_kind.
  destruct (is_note W (oc_annot o)) eqn:Hn.
  - rewrite (note_not_highlight W _ Hcodes Hn). unfold note_delta.
    destruct (a_info _); [|reflexivity]. now destruct (truthy_str _).
  - destruct (is_highlight W (oc_annot o)).
    + unfold markup_delta. destruct (extract_highlight_text _ _ _);
        [|reflexivity].
      now destruct (truthy_str _).
    + destruct (is_rect W (oc_annot o)); [|reflexivity].
      unfold rect_delta. now destruct (get_text _ _).
Qed.

Lemma note_of_clean W a block :
  note_of W a = Some block -> exists content, block = clean_content content.
Proof.
  unfold note_of. destruct (is_note W a); [|discriminate].
  destruct (a_info a) as [info|]; [|discriminate].
  destruct (truthy_str _); [|discriminate]. intros [= <-]. now eexists.
Qed.

(** X18. In a completed scan, with the type codes of the library pairwise
    distinct, the note blocks stored are the contents, cleaned and not
    empty, of the annotations whose type code is the text or the free-text
    code of the library and is not 0, in encounter order; where the text
    code is 0, as in PyMuPDF, no text annotation is among them. The Notes
    section of the report is left out when there is no block, and else is
    its heading followed by one callout per block in that order: the
    callout line, the lines of the block prefixed with "> ", and a blank
    line. *)
Theorem notes_in_encounter_order (W : world) (pdf_path image_dir : str)
    (min_dpi : Z) (doc : document) (s : state) (lines : list str) :
  codes_distinct W = true ->
  page_loop W pdf_path image_dir min_dpi doc 0 init_state = (Ok tt, s) ->
  let blocks :=
    flat_map (fun pa => option_list (note_of W (snd pa))) (annotations doc) in
  notes_blocks s = blocks
  /\ (PDF_ANNOT_TEXT W = 0 ->
      forall a, type_code (a_type a) = PDF_ANNOT_TEXT W -> note_of W a = None)
  /\ emit_notes (notes_blocks s) lines
     = lines
       ++ match blocks with
          | [] => []
          | _ =>
              [lit "## Notes"; []]
              ++ flat_map
                   (fun block =>
                      [lit "> [!note] 注释"]
                      ++ map (fun ln => lit "> " ++ ln) (splitlines block)
                      ++ [[]]) blocks
          end.
Proof.
  intros Hcodes Hrun blocks. apply page_loop_complete in Hrun as [Hcol Hsc].
  assert (Hnb : notes_blocks s = blocks).
  { rewrite (scanned_notes _ _ _ Hsc). unfold blocks.
    rewrite <- (occurrences_annotations W pdf_path image_dir min_dpi doc 0).
    rewrite flat_map_of_map.
    apply flat_map_ext_members. intros o Ho. cbn [snd].
    rewrite note_contribution_kind; [reflexivity|exact Hcodes|].
    rewrite forallb_forall in Hcol. now apply Hcol. }
  split; [exact Hnb|]. split.
  { intros H0 a Ha. unfold note_of, is_note. cbv zeta.
    now rewrite Ha, H0. }
  rewrite emit_notes_spec, Hnb. f_equal.
  unfold notes_section. destruct blocks as [|b bs] eqn:Eb; [reflexivity|].
  f_equal. rewrite <- Eb. apply flat_map_ext_members.
  intros block Hblock. unfold note_callout.
  subst blocks. apply in_flat_map in Hblock as (pa & _ & Ho).
  assert (Hc : exists content, block = clean_content content).
  { destruct (note_of W (snd pa)) as [b'|] eqn:En; [|destruct Ho].
    destruct Ho as [<-|[]]. exact (note_of_clean W _ _ En). }
  destruct Hc as [content ->].
  rewrite content_lines_clean, clean_content_lines, splitlines_join;
    [reflexivity|].
  apply List.Forall_forall. intros l Hl.
  destruct (content_lines_spec content l Hl) as (H1 & H2 & _). now split.
Qed.

(** ** Nothing collected is lost *)

Lemma highlight_contribution_inv W o k t :
  d_highlight (occurrence_delta W o) = Some (k, t) ->
  In k order /\ t <> [] /\ List.Forall (fun c => is_space c = false) t.
Proof.
  unfold occurrence_delta, annot_delta, markup_delta, note_delta, rect_delta.
  destruct (rgb_from_annot (oc_annot o)) as [c|]; [|discriminate].
  destruct (branch_of W _).
  - destruct (extract_highlight_text _ _ _) as [raw|]; [|discriminate].
    destruct (truthy_str (normalize_highlight_text raw)) eqn:E; [|discriminate].
    cbn [d_highlight]. intros [= <- <-]. split; [apply categorize_color_key|].
    split; [now apply truthy_str_true|].
    rewrite normalize_filter. apply List.Forall_forall.
    intros ch [_ H]%filter_In. now apply negb_true_iff in H.
  - destruct (a_info _); [|discriminate]. now destruct (truthy_str _).
  - now destruct (get_text _ _).
  - discriminate.
Qed.

Lemma rect_contribution_inv W o k it :
  d_rect (occurrence_delta W o) = Some (k, it) -> In k order.
Proof.
  unfold occurrence_delta, annot_delta, markup_delta, note_delta, rect_delta.
  destruct (rgb_from_annot (oc_annot o)) as [c|]; [|discriminate].
  destruct (branch_of W _).
  - destruct (extract_highlight_text _ _ _) as [raw|]; [|discriminate].
    now destruct (truthy_str _).
  - destruct (a_info _); [|discriminate]. now destruct (truthy_str _).
  - destruct (get_text _ _); [|discriminate]. cbn [d_rect].
    intros [= <- _]. apply categorize_color_key.
  - discriminate.
Qed.

(** X19. Nothing a scan collects is lost in the report: in a completed
    scan every text of a highlight group sits under one of the five colour
    keys, is not empty, holds no white space and is an item "- > text" of
    the report, and every entry of a rectangle group sits under one of the
    five keys as well. *)
Theorem collected_is_rendered (W : world) (pdf_path image_dir : str)
    (min_dpi : Z) (doc : document) (s : state) (title : str) :
  page_loop W pdf_path image_dir min_dpi doc 0 init_state = (Ok tt, s) ->
  (forall k t,
     In t (dd_get (highlight_groups s) k) ->
     In k order /\ t <> []
     /\ List.Forall (fun c => is_space c = false) t
     /\ In (lit "- > " ++ t) (build_lines title s))
  /\ (forall k it, In it (dd_get (rect_groups s) k) -> In k order).
Proof.
  intros Hrun. apply page_loop_complete in Hrun as [_ Hsc]. split.
  - intros k t Ht. pose proof Ht as Hg.
    rewrite (scanned_highlights _ _ _ k Hsc) in Ht.
    apply group_of_In, in_map_iff in Ht as (o & Ho & _).
    destruct (highlight_contribution_inv _ _ _ _ Ho) as (Hk & Hne & Hsp).
    repeat split; try assumption.
    rewrite build_lines_spec by (intros k'; exact (scanned_clean _ _ _ k' Hsc)).
    apply in_or_app. right. apply in_or_app. left.
    now apply (highlights_section_item _ k).
  - intros k it Hit. rewrite (scanned_rects _ _ _ k Hsc) in Hit.
    apply group_of_In, in_map_iff in Hit as (o & Ho & _).
    exact (rect_contribution_inv _ _ _ _ Ho).
Qed.

(** ** The Rectangles section *)

Lemma rects_section_ext g g' :
  (forall k, g k = g' k) -> rects_section g = rects_section g'.
Proof.
  intros H. unfold rects_section. cbn [order forallb flat_map].
  now rewrite !H.
Qed.

Lemma rect_items_by_path items :
  flat_map rect_item_lines items
  = flat_map
      (fun it =>
         match image_path it with
         | Some (c :: p) =>
             [lit "![](" ++ replace_char 92%N (lit "/") (c :: p) ++ lit ")";
              []]
         | _ => [[]]
         end) items.
Proof. apply flat_map_ext. intros [[[|c p]|] rt]; reflexivity. Qed.

(** X20. In the report of a completed scan the Rectangles / Figures section
    is left out when no rectangle or circle was collected, and else is its
    heading followed, for each of the five colours that has entries, by the
    heading of the colour and one item per entry of the colour in encounter
    order: the image link and a blank line when the image was saved, a blank
    line alone when it was not. *)
Theorem rect_items_in_encounter_order (W : world)
    (pdf_path image_dir : str) (min_dpi : Z) (doc : document) (s : state) :
  page_loop W pdf_path image_dir min_dpi doc 0 init_state = (Ok tt, s) ->
  let occs := occurrences W pdf_path image_dir min_dpi doc 0 in
  let contribs := map (fun o => d_rect (occurrence_delta W o)) occs in
  (forall k, dd_get (rect_groups s) k = group_of k contribs)
  /\ (forall lines,
        emit_rects (rect_groups s) lines
        = lines
          ++ (if forallb (fun k => negb (truthy_list (group_of k contribs)))
                   order
              then []
              else [lit "## Rectangles / Figures"; []]
                   ++ flat_map
                        (fun k =>
                           match group_of k contribs with
                           | [] => []
                           | items =>
                               [lit "### " ++ color_title k; []]
                               ++ flat_map
                                    (fun it =>
                                       match image_path it with
                                       | Some (c :: p) =>
                                           [lit "![]("
                                            ++ replace_char 92%N (lit "/")
                                                 (c :: p)
                                            ++ lit ")"; []]
                                       | _ => [[]]
                                       end) items
                           end) order)).
Proof.
  intros Hrun occs contribs.
  apply page_loop_complete in Hrun as [_ Hsc].
  assert (E : forall k, dd_get (rect_groups s) k = group_of k contribs)
    by (intros k; exact (scanned_rects _ _ _ k Hsc)).
  split; [exact E|]. intros lines. rewrite emit_rects_spec. f_equal.
  rewrite (rects_section_ext _ (fun k => group_of k contribs) E).
  unfold rects_section. destruct (forallb _ order); [reflexivity|]. f_equal.
  apply flat_map_ext. intros k. unfold rect_subsection.
  rewrite rect_items_by_path. destruct (group_of k contribs); reflexivity.
Qed.

(** ** What the report does not read *)

Lemma emit_highlights_five hg hg' lines :
  (forall k, In k order -> dd_get hg k = dd_get hg' k) ->
  emit_highlights hg lines = emit_highlights hg' lines.
Proof.
  intros H. rewrite !emit_highlights_spec. cbn [order forallb flat_map].
  now five_keys H.
Qed.

Lemma emit_rects_five rg rg' lines :
  (forall k, In k order ->
             map image_path (dd_get rg k) = map image_path (dd_get rg' k)) ->
  emit_rects rg lines = emit_rects rg' lines.
Proof.
  intros H. rewrite !emit_rects_spec. f_equal. unfold rects_section.
  assert (E : forall k, In k order ->
                truthy_list (dd_get rg k) = truthy_list (dd_get rg' k)).
  { intros k Hk. specialize (H k Hk).
    destruct (dd_get rg k), (dd_get rg' k); try reflexivity; discriminate. }
  cbn [order forallb flat_map]. rewrite !rect_subsection_paths.
  five_keys H. now five_keys E.
Qed.

(** X21. The report reads the collected data only in part: of the two
    dictionaries it reads the five colour keys and no other, and of a
    rectangle entry it reads the image path and never the region text. Two
    states that agree on the highlight groups of the five keys, on the note
    blocks and on the image paths of the rectangle groups of the five keys
    give the same Markdown. *)
Theorem report_reads_keys_and_paths (title : str) (s s' : state) :
  (forall k, In k order ->
             dd_get (highlight_groups s) k = dd_get (highlight_groups s') k) ->
  notes_blocks s = notes_blocks s' ->
  (forall k, In k order ->
             map image_path (dd_get (rect_groups s) k)
             = map image_path (dd_get (rect_groups s') k)) ->
  build_markdown title s = build_markdown title s'.
Proof.
  intros Hh Hn Hr. unfold build_markdown, build_lines. cbv zeta.
  rewrite Hn, (emit_highlights_five _ _ _ Hh).
  now rewrite (emit_rects_five _ _ _ Hr).
Qed.

(** ** Image links *)

Lemma replace_char_absent old new s :
  ~ In old new -> ~ In old (replace_char old new s).
Proof.
  intros Hnew Hin. unfold replace_char in Hin.
  apply in_flat_map in Hin as (c & _ & Hc).
  destruct (c =? old)%N eqn:E; [exact (Hnew Hc)|].
  destruct Hc as [Hc|[]]. apply N.eqb_neq in E. now apply E.
Qed.

Lemma replace_char_fixed old new s :
  ~ In old s -> replace_char old new s = s.
Proof.
  unfold replace_char. induction s as [|c s IH]; intros H; [reflexivity|].
  cbn [flat_map]. destruct (c =? old)%N eqn:E.
  - exfalso. apply H. left. now apply N.eqb_eq in E.
  - cbn [app]. f_equal. apply IH. intros Hin. apply H. now right.
Qed.

Lemma color_title_no_backslash k : In k order -> ~ In 92%N (color_title k).
Proof.
  intros Hk. cbn [order In] in Hk.
  assert (Hd : forall t, forallb (fun c => negb (c =? 92)%N) t = true ->
                         ~ In 92%N t).
  { intros t Ht Hin. rewrite forallb_forall in Ht.
    specialize (Ht _ Hin). discriminate. }
  destruct Hk as [<-|[<-|[<-|[<-|[<-|[]]]]]]; apply Hd; vm_compute;
    reflexivity.
Qed.

(** X22. The Rectangles section holds no backslash: the lines that
    [emit_rects] adds are free of it, whatever the image paths are, since a
    link is "![](" followed by the path with every backslash replaced by a
    slash and ")"; a path without backslash is linked as it is. *)
Theorem rects_section_no_backslash (rg : gmap string (list rect_entry))
    (lines : list str) :
  (forall line,
     In line (emit_rects rg lines) -> In line lines \/ ~ In 92%N line)
  /\ (forall p, ~ In 92%N p -> image_link p = lit "![](" ++ p ++ lit ")").
Proof.
  split.
  - intros line. rewrite emit_rects_spec. intros [H|H]%in_app_or; [now left|].
    right. unfold rects_section in H.
    destruct (forallb _ order); [destruct H|].
    apply in_app_or in H as [H|H].
    + destruct H as [<-|[<-|[]]]; [|intros []].
      intros Hin. vm_compute in Hin. intuition discriminate.
    + apply in_flat_map in H as (k & Hk & H). unfold rect_subsection in H.
      destruct (dd_get rg k) as [|it items]; [destruct H|].
      apply in_app_or in H as [H|H].
      * destruct H as [<-|[<-|[]]]; [|intros []].
        intros [Hin|Hin]%in_app_or.
        -- vm_compute in Hin. intuition discriminate.
        -- exact (color_title_no_backslash k Hk Hin).
      * apply in_flat_map in H as (it' & _ & H). unfold rect_item_lines in H.
        destruct (truthy_opt_str _); [|destruct H as [<-|[]]; intros []].
        destruct H as [<-|[<-|[]]]; [|intros []].
        unfold image_link. intros [Hin|Hin]%in_app_or.
        -- vm_compute in Hin. intuition discriminate.
        -- apply in_app_or in Hin as [Hin|Hin].
           ++ revert Hin. apply replace_char_absent.
              intros Hs. vm_compute in Hs. intuition discriminate.
           ++ vm_compute in Hin. intuition discriminate.
  - intros p Hp. unfold image_link. now rewrite replace_char_fixed.
Qed.

(** ** main *)

Lemma main_cases W E args :
  let pdf_path := abspath E (args_pdf args) in
  let out_md :=
    match args_out args with
    | Some o => if truthy_str o then Some (abspath E o) else None
    | None => None
    end in
  let r := run W pdf_path out_md (args_img_dir args) (args_min_dpi args) in
  main W E args
  = match r with
    | (Raise e, s) =>
        ((1, [Stderr (lit "Error: " ++ error_text W E pdf_path e)]), s)
    | (Ok result, s) =>
        let images :=
          path_join (os_path_ W)
            (or_str (dirname (os_path_ W) result) (getcwd W))
            (args_img_dir args) in
        ((0,
          [Stdout (lit "Saved: " ++ result)]
          ++ (if isdir_after E (fs s) images
              then [Stdout (lit "Images: " ++ images)] else [])),
         s)
    end.
Proof. reflexivity. Qed.

(** X23. When the PDF named on the command line does not exist, [main]
    returns 1, prints on standard error the one line "Error: File not
    found: " followed by the absolute path, prints nothing on standard
    output and leaves the file system as it was. *)
Theorem main_missing_file (W : world) (E : cli_env) (args : cli_args) :
  isfile W (abspath E (args_pdf args)) = false ->
  main W E args
  = ((1, [Stderr (lit "Error: File not found: " ++ abspath E (args_pdf args))]),
     init_state).
Proof.
  intros Hf.
  unfold main, error_text, export_pdf_annotations, export_markdown, bindM.
  rewrite Hf. reflexivity.
Qed.

(** X24. [main] returns 0 or 1 and tells the two outcomes apart. With 0 a
    Markdown file was written, as the last effect, no other text file was
    touched, and the first line printed is "Saved: " and its path, followed
    at most by the line "Images: " and the image directory of the run; an
    empty [--out] counts as none, the file going beside the PDF. With 1
    nothing is printed on standard output, one line on standard error, and
    no Markdown was written: either no text file was touched, or the final
    write failed after [open] had created or truncated the output file,
    which then is the last effect. *)
Theorem main_exit_code (W : world) (E : cli_env) (args : cli_args) :
  let r := main W E args in
  let code := fst (fst r) in
  let lines := snd (fst r) in
  let pdf_path := abspath E (args_pdf args) in
  (code = 0
   /\ exists out md before,
        fs (snd r) = before ++ [EvWriteText out md]
        /\ List.filter is_text_event before = []
        /\ (args_out args = None \/ args_out args = Some [] ->
            out = fst (splitext (os_path_ W) pdf_path) ++ lit ".annotations.md")
        /\ (forall o, args_out args = Some o -> o <> [] -> out = abspath E o)
        /\ (lines = [Stdout (lit "Saved: " ++ out)]
            \/ lines = [Stdout (lit "Saved: " ++ out);
                        Stdout (lit "Images: "
                                ++ image_dir_of W out (args_img_dir args))]))
  \/ (code = 1
      /\ List.filter is_write_text (fs (snd r)) = []
      /\ (List.filter is_text_event (fs (snd r)) = []
          \/ exists before out,
               fs (snd r) = before ++ [EvTruncate out]
               /\ List.filter is_text_event before = [])
      /\ exists msg, lines = [Stderr (lit "Error: " ++ msg)]).
Proof.
  intros r code lines pdf_path. subst r code lines pdf_path.
  rewrite main_cases. cbv zeta.
  set (pdf_path := abspath E (args_pdf args)).
  set (out_md := match args_out args with
                 | Some o => if truthy_str o then Some (abspath E o) else None
                 | None => None
                 end).
  pose proof (run_write_cases W pdf_path out_md (args_img_dir args)
                (args_min_dpi args)) as H.
  cbv zeta in H.
  destruct (run W pdf_path out_md (args_img_dir args) (args_min_dpi args))
    as [[out|e] s]; cbn [fst snd] in *.
  - left. split; [reflexivity|].
    destruct H as (Hout & before & Hfs & Hnw).
    exists out, (build_markdown (title_of W pdf_path) s), before.
    split; [exact Hfs|]. split; [exact Hnw|]. split; [|split].
    + intros Ho. rewrite Hout. subst out_md.
      destruct Ho as [-> | ->]; reflexivity.
    + intros o Ho Hne. rewrite Hout. subst out_md. rewrite Ho.
      now destruct o.
    + unfold image_dir_of. destruct (isdir_after E (fs s) _); [now right|now left].
  - right. split; [reflexivity|]. destruct H as [Hw Ht].
    split; [exact Hw|]. split; [|now eexists].
    destruct Ht as [Ht|(_ & _ & before & Hfs & Hb)]; [now left|].
    right. now exists before, (out_path_of W pdf_path out_md).
Qed.

(** ** The further properties at the sample data *)

Lemma rgb_from_annot_stroke_first_witness :
  a_colors Sample.square_r = Ok More.red_map
  /\ a_colors More.red_blue = Ok More.red_blue_map
  /\ More.red_map !! "stroke"%string = More.red_blue_map !! "stroke"%string
  /\ truthy_colour (colors_get More.red_map "stroke") = true
  /\ rgb_from_annot Sample.square_r = rgb_from_annot More.red_blue.
Proof.
  assert (H3 : More.red_map !! "stroke"%string
               = More.red_blue_map !! "stroke"%string)
    by (vm_compute; reflexivity).
  assert (H4 : truthy_colour (colors_get More.red_map "stroke") = true)
    by (vm_compute; reflexivity).
  repeat (split; [first [assumption | reflexivity]|]).
  exact (rgb_from_annot_stroke_first Sample.square_r More.red_blue _ _
           eq_refl eq_refl H3 H4).
Defined.

Lemma rgb_from_annot_wrong_arity_witness :
  a_colors Sample.highlight_gray = Ok More.gray_map
  /\ chosen_colour More.gray_map = Some [0.5]%float
  /\ [0.5]%float <> []
  /\ length [0.5]%float <> 3%nat
  /\ rgb_from_annot Sample.highlight_gray = Raise ValueError.
Proof.
  assert (H2 : chosen_colour More.gray_map = Some [0.5]%float)
    by (vm_compute; reflexivity).
  assert (H3 : [0.5]%float <> []) by discriminate.
  assert (H4 : length [0.5]%float <> 3%nat) by (simpl; lia).
  repeat (split; [first [assumption | reflexivity]|]).
  exact (rgb_from_annot_wrong_arity Sample.highlight_gray _ _
           eq_refl H2 H3 H4).
Defined.

Lemma broken_annotation_skipped_witness :
  let W := Sample.world_of Sample.doc1 in
  rgb_from_annot More.broken_note = Ok (255, 0, 0)
  /\ process_annot W More.page0_ctx More.broken_note init_state
     = (Ok tt, init_state).
Proof.
  intros W.
  assert (H : rgb_from_annot More.broken_note = Ok (255, 0, 0))
    by (vm_compute; reflexivity).
  split; [exact H|].
  exact (broken_annotation_skipped W More.page0_ctx More.broken_note
           (255, 0, 0) init_state H eq_refl).
Defined.

Lemma other_annotation_ignored_witness :
  let W := Sample.world_of Sample.doc1 in
  a_type Sample.sticky = TypeTuple 0 []
  /\ rgb_from_annot Sample.sticky = Ok (255, 0, 0)
  /\ process_annot W More.page0_ctx Sample.sticky init_state
     = (Ok tt, init_state).
Proof.
  intros W.
  assert (H : rgb_from_annot Sample.sticky = Ok (255, 0, 0))
    by (vm_compute; reflexivity).
  split; [reflexivity|]. split; [exact H|].
  exact (other_annotation_ignored W More.page0_ctx Sample.sticky 0 []
           (255, 0, 0) init_state eq_refl H (or_introl eq_refl)).
Defined.

Lemma rect_numbers_consecutive_witness :
  let W := Sample.world_of Sample.doc1 in
  let chain := [Sample.square_r; Sample.highlight_y; Sample.square_r] in
  let s' := snd (annot_loop W More.page0_ctx chain init_state) in
  codes_distinct W = true
  /\ annot_loop W More.page0_ctx chain init_state = (Ok tt, s')
  /\ rect_index s' = 2.
Proof.
  intros W chain s'.
  assert (H0 : codes_distinct W = true) by reflexivity.
  assert (H1 : annot_loop W More.page0_ctx chain init_state = (Ok tt, s'))
    by (vm_compute; reflexivity).
  split; [exact H0|]. split; [exact H1|].
  rewrite (proj1 (rect_numbers_consecutive W More.page0_ctx chain init_state s'
                    H0 H1)).
  vm_compute. reflexivity.
Defined.

Lemma scan_writes_only_images_witness :
  let W := Sample.world_of Sample.doc1 in
  let e := EvMakedirs Witness.image_dir in
  page_loop W Sample.pdf Witness.image_dir 144 Sample.doc1 0 init_state
  = (Ok tt, Witness.scan_state)
  /\ In e (fs Witness.scan_state)
  /\ (e = EvMakedirs Witness.image_dir
      \/ exists o pix,
           In o (occurrences W Sample.pdf Witness.image_dir 144 Sample.doc1 0)
           /\ takes_rect_branch W (oc_annot o) = true
           /\ get_pixmap (cx_page (oc_ctx o)) (a_rect (oc_annot o)) 144
              = Ok pix
           /\ e = EvSavePng
                    (path_join (os_path_ W) Witness.image_dir
                       (rect_base_name W (oc_ctx o) (oc_index o + 1)
                        ++ lit ".png")) pix).
Proof.
  intros W e.
  assert (H1 : page_loop W Sample.pdf Witness.image_dir 144 Sample.doc1 0
                 init_state = (Ok tt, Witness.scan_state))
    by (vm_compute; reflexivity).
  assert (H2 : In e (fs Witness.scan_state))
    by (vm_compute; left; reflexivity).
  split; [exact H1|]. split; [exact H2|].
  exact (scan_writes_only_images W _ _ _ _ _ e H1 H2).
Defined.

Lemma rect_base_name_injective_witness :
  let W := Sample.world_of Sample.doc1 in
  cx_pdf_path More.page0_ctx = cx_pdf_path More.page1_ctx
  /\ 0 <= cx_page_index More.page0_ctx
  /\ 0 <= cx_page_index More.page1_ctx
  /\ 0 <= 1 /\ 0 <= 2
  /\ (rect_base_name W More.page0_ctx 1 = rect_base_name W More.page1_ctx 2 ->
      cx_page_index More.page0_ctx = cx_page_index More.page1_ctx /\ 1 = 2).
Proof.
  intros W.
  assert (H2 : 0 <= cx_page_index More.page0_ctx) by (simpl; lia).
  assert (H3 : 0 <= cx_page_index More.page1_ctx) by (simpl; lia).
  assert (H4 : 0 <= 1) by lia.
  assert (H5 : 0 <= 2) by lia.
  repeat (split; [first [assumption | reflexivity]|]).
  exact (proj2 (rect_base_name_injective W More.page0_ctx More.page1_ctx 1 2
                  eq_refl H2 H3 H4 H5)).
Defined.

Lemma run_without_annotations_witness :
  let W := Sample.world_of More.empty_doc in
  let out := out_path_of W Sample.pdf None in
  isfile W Sample.pdf = true
  /\ fitz_open W Sample.pdf = Ok More.empty_doc
  /\ (forall pg, In pg More.empty_doc -> annots pg = [])
  /\ makedirs_ok W (out_dir_of W out) = true
  /\ write_ok W out = true
  /\ fst (run W Sample.pdf None (lit "images") 144) = Ok out.
Proof.
  intros W out.
  assert (H3 : forall pg, In pg More.empty_doc -> annots pg = []).
  { intros pg [<-|[]]. reflexivity. }
  repeat (split; [first [assumption | reflexivity]|]).
  exact (proj1 (run_without_annotations W Sample.pdf None (lit "images") 144
                  More.empty_doc eq_refl eq_refl H3 eq_refl eq_refl)).
Defined.

Lemma notes_in_encounter_order_witness :
  let W := Sample.world_of Sample.doc1 in
  codes_distinct W = true
  /\ page_loop W Sample.pdf Witness.image_dir 144 Sample.doc1 0 init_state
     = (Ok tt, Witness.scan_state)
  /\ notes_blocks Witness.scan_state = [lit "line1"].
Proof.
  intros W.
  assert (H0 : codes_distinct W = true) by reflexivity.
  assert (H1 : page_loop W Sample.pdf Witness.image_dir 144 Sample.doc1 0
                 init_state = (Ok tt, Witness.scan_state))
    by (vm_compute; reflexivity).
  split; [exact H0|]. split; [exact H1|].
  rewrite (proj1 (notes_in_encounter_order W _ _ _ _ _ [] H0 H1)).
  vm_compute. reflexivity.
Defined.

Lemma collected_is_rendered_witness :
  let W := Sample.world_of Sample.doc1 in
  page_loop W Sample.pdf Witness.image_dir 144 Sample.doc1 0 init_state
  = (Ok tt, Witness.scan_state)
  /\ (forall k it,
        In it (dd_get (rect_groups Witness.scan_state) k) -> In k order).
Proof.
  intros W.
  assert (H1 : page_loop W Sample.pdf Witness.image_dir 144 Sample.doc1 0
                 init_state = (Ok tt, Witness.scan_state))
    by (vm_compute; reflexivity).
  split; [exact H1|].
  exact (proj2 (collected_is_rendered W _ _ _ _ _ [] H1)).
Defined.

Lemma main_missing_file_witness :
  isfile Sample.world_nofile (abspath More.env (args_pdf More.args)) = false
  /\ main Sample.world_nofile More.env More.args
     = ((1, [Stderr (lit "Error: File not found: " ++ Sample.pdf)]),
        init_state).
Proof.
  split; [reflexivity|].
  exact (main_missing_file Sample.world_nofile More.env More.args eq_refl).
Defined.

Lemma rect_items_in_encounter_order_witness :
  let W := Sample.world_of Sample.doc1 in
  page_loop W Sample.pdf Witness.image_dir 144 Sample.doc1 0 init_state
  = (Ok tt, Witness.scan_state)
  /\ (forall k,
        dd_get (rect_groups Witness.scan_state) k
        = group_of k
            (map (fun o => d_rect (occurrence_delta W o))
               (occurrences W Sample.pdf Witness.image_dir 144 Sample.doc1 0))).
Proof.
  intros W.
  assert (H1 : page_loop W Sample.pdf Witness.image_dir 144 Sample.doc1 0
                 init_state = (Ok tt, Witness.scan_state))
    by (vm_compute; reflexivity).
  split; [exact H1|].
  exact (proj1 (rect_items_in_encounter_order W _ _ _ _ _ H1)).
Defined.

Lemma report_reads_keys_and_paths_witness :
  let s := Witness.scan_state in
  let s' := More.scan_state_no_text in
  (forall k, In k order ->
             dd_get (highlight_groups s) k = dd_get (highlight_groups s') k)
  /\ notes_blocks s = notes_blocks s'
  /\ (forall k, In k order ->
                map image_path (dd_get (rect_groups s) k)
                = map image_path (dd_get (rect_groups s') k))
  /\ build_markdown (lit "my paper") s = build_markdown (lit "my paper") s'.
Proof.
  intros s s'.
  assert (H1 : forall k, In k order ->
                 dd_get (highlight_groups s) k = dd_get (highlight_groups s') k)
    by (intros k _; reflexivity).
  assert (H2 : notes_blocks s = notes_blocks s') by reflexivity.
  assert (H3 : forall k, In k order ->
                 map image_path (dd_get (rect_groups s) k)
                 = map image_path (dd_get (rect_groups s') k)).
  { intros k Hk. cbn [order In] in Hk.
    destruct Hk as [<-|[<-|[<-|[<-|[<-|[]]]]]]; vm_compute; reflexivity. }
  repeat (split; [assumption|]).
  exact (report_reads_keys_and_paths (lit "my paper") s s' H1 H2 H3).
Defined.
